(** * go-kwin6: the KWin scripting bridge, embedded and verified

    The Go package [go_kwin6] (kwin.go) drives the KWin compositor by
    writing a scriptlet to a temporary file, registering it over D-Bus,
    running it, stopping it and reading what it printed from the journal.

    Layout of this development:
    - models of the Go standard-library functions the package calls
      ([strings], [strconv], [fmt]);
    - the [Go] monad: a free monad over the package's external calls,
      with panics, and its interpreter against an arbitrary world;
    - the package itself, function by function, under the names of kwin.go;
    - a concrete JSON decoder, UUID parser and scripted world, used to
      evaluate the package on explicit inputs;
    - the theorems. *)

From Stdlib Require Import ZArith NArith String Ascii List Lia Bool.
From Stdlib Require Import DecimalString QArith Qabs.
From stdpp Require Import base option list gmap strings.

Local Open Scope Z_scope.
Local Open Scope stdpp_scope.

(** ** Bytes and text

    A Go [string] is a sequence of bytes: Rocq's [string] of 8-bit
    [ascii].  [code c] is the value of byte [c]. *)

Definition code (c : ascii) : N := N_of_ascii c.
Definition byte (n : N) : ascii := ascii_of_N n.

Definition nul : string := String (byte 0) EmptyString.
Definition space : string := " ".
Definition nl : string := String (byte 10) EmptyString.
Definition dquote : string := String (byte 34) EmptyString.

(** Text that holds double quotes is written with apostrophes and passed
    through [q], which turns each apostrophe into a double quote.  None of
    the texts of kwin.go holds an apostrophe of its own. *)
Fixpoint q (s : string) : string :=
  match s with
  | EmptyString => EmptyString
  | String c r => String (if (code c =? 39)%N then byte 34 else c) (q r)
  end.

Fixpoint concat_strings (l : list string) : string :=
  match l with
  | [] => EmptyString
  | s :: r => s +:+ concat_strings r
  end.

Fixpoint join (sep : string) (l : list string) : string :=
  match l with
  | [] => EmptyString
  | [s] => s
  | s :: r => s +:+ sep +:+ join sep r
  end.

(** ** Package strings *)
Module strings.

(** [spaceLen s] is the length in bytes of the white-space rune
    ([unicode.IsSpace]) encoded in UTF-8 at the head of [s], and 0 when
    [s] starts with anything else: tab, LF, VT, FF, CR, space; U+0085 and
    U+00A0; U+1680, U+2000..U+200A, U+2028, U+2029, U+202F, U+205F and
    U+3000.  A white-space encoding starts with an ASCII or a lead byte,
    never with a continuation byte, so scanning bytes with [spaceLen]
    agrees with Go's rune-by-rune decoding. *)
Definition spaceLen (s : string) : nat :=
  match s with
  | EmptyString => 0%nat
  | String c1 r1 =>
    let b1 := code c1 in
    if ((9 <=? b1) && (b1 <=? 13) || (b1 =? 32))%N then 1%nat
    else
      match r1 with
      | EmptyString => 0%nat
      | String c2 r2 =>
        let b2 := code c2 in
        if ((b1 =? 194) && ((b2 =? 133) || (b2 =? 160)))%N then 2%nat
        else
          match r2 with
          | EmptyString => 0%nat
          | String c3 _ =>
            let b3 := code c3 in
            if ((b1 =? 225) && (b2 =? 154) && (b3 =? 128)
                || (b1 =? 226) && (b2 =? 128)
                   && ((128 <=? b3) && (b3 <=? 138)
                       || (b3 =? 168) || (b3 =? 169) || (b3 =? 175))
                || (b1 =? 226) && (b2 =? 129) && (b3 =? 159)
                || (b1 =? 227) && (b2 =? 128) && (b3 =? 128))%N
            then 3%nat else 0%nat
          end
      end
  end.

(** [fieldsFrom skip s]: the fields of [s] once its first [skip] bytes
    (the rest of a white-space rune) are dropped; the flag tells whether
    the first field starts at the first byte of [s]. *)
Fixpoint fieldsFrom (skip : nat) (s : string) : bool * list string :=
  match s with
  | EmptyString => (false, [])
  | String c r =>
    match skip with
    | S k => (false, snd (fieldsFrom k r))
    | O =>
      match spaceLen s with
      | S k => (false, snd (fieldsFrom k r))
      | O =>
        match fieldsFrom 0 r with
        | (true, w :: ws) => (true, String c w :: ws)
        | (_, ws) => (true, String c EmptyString :: ws)
        end
      end
    end
  end.

(** [strings.Fields]: the maximal runs of non-white-space, in order. *)
Definition Fields (s : string) : list string := snd (fieldsFrom 0 s).

Fixpoint trimLeftFrom (skip : nat) (s : string) : string :=
  match s with
  | EmptyString => EmptyString
  | String c r =>
    match skip with
    | S k => trimLeftFrom k r
    | O => match spaceLen s with
           | S k => trimLeftFrom k r
           | O => s
           end
    end
  end.

Fixpoint allSpaceFrom (skip : nat) (s : string) : bool :=
  match s with
  | EmptyString => true
  | String c r =>
    match skip with
    | S k => allSpaceFrom k r
    | O => match spaceLen s with
           | S k => allSpaceFrom k r
           | O => false
           end
    end
  end.

Fixpoint trimRight (s : string) : string :=
  match s with
  | EmptyString => EmptyString
  | String c r => if allSpaceFrom 0 s then EmptyString else String c (trimRight r)
  end.

(** [strings.TrimSpace]: leading and trailing white space removed. *)
Definition TrimSpace (s : string) : string := trimRight (trimLeftFrom 0 s).

(** [replaceFrom old new skip s]: [s] with its first [skip] bytes (the
    rest of a replaced occurrence) dropped and every later
    non-overlapping occurrence of [old], leftmost first, replaced. *)
Fixpoint replaceFrom (old new : string) (skip : nat) (s : string) : string :=
  match s with
  | EmptyString => EmptyString
  | String c r =>
    match skip with
    | S k => replaceFrom old new k r
    | O =>
      if String.prefix old s
      then new +:+ replaceFrom old new (String.length old - 1) r
      else String c (replaceFrom old new 0 r)
    end
  end.

(** [strings.ReplaceAll] (and [bytes.ReplaceAll]) for a non-empty [old],
    the only use kwin.go makes of it.  (For an empty [old] Go inserts
    [new] around every rune; that case is outside this model.) *)
Definition ReplaceAll (s old new : string) : string := replaceFrom old new 0 s.

(** [splitFrom sep skip s]: the pieces of [s] between occurrences of
    [sep]; the first piece is always present. *)
Fixpoint splitFrom (sep : string) (skip : nat) (s : string) : list string :=
  match s with
  | EmptyString => [EmptyString]
  | String c r =>
    match skip with
    | S k => splitFrom sep k r
    | O =>
      if String.prefix sep s
      then EmptyString :: splitFrom sep (String.length sep - 1) r
      else match splitFrom sep 0 r with
           | w :: ws => String c w :: ws
           | [] => [String c EmptyString]
           end
    end
  end.

(** [strings.Split] for a non-empty separator (kwin.go splits on "/"). *)
Definition Split (s sep : string) : list string := splitFrom sep 0 s.

End strings.

(** ** Package strconv *)
Module strconv.

Definition isDigit (c : ascii) : bool := ((48 <=? code c) && (code c <=? 57))%N.

(** Value of a non-empty run of decimal digits; [None] on any other byte. *)
Fixpoint digits (acc : Z) (s : string) : option Z :=
  match s with
  | EmptyString => Some acc
  | String c r =>
    if isDigit c then digits (10 * acc + Z.of_N (code c - 48)) r else None
  end.

Definition unsigned (s : string) : option Z :=
  match s with
  | EmptyString => None
  | _ => digits 0 s
  end.

Definition minInt : Z := - 2 ^ 63.
Definition maxInt : Z := 2 ^ 63 - 1.

(** An optional sign and at least one decimal digit, nothing else. *)
Definition parseSigned (s : string) : option Z :=
  match s with
  | String c r =>
    if (code c =? 45)%N then Z.opp <$> unsigned r
    else if (code c =? 43)%N then unsigned r
    else unsigned s
  | EmptyString => None
  end.

Definition numError (s why : string) : string :=
  "strconv.Atoi: parsing " +:+ dquote +:+ s +:+ dquote +:+ ": " +:+ why.

(** [strconv.Atoi] where [int] has 64 bits: the value and a nil error
    for a signed decimal numeral that fits; a syntax error for any
    other text, a range error (and the nearest bound) for a numeral
    that does not fit. *)
Definition Atoi (s : string) : Z * option string :=
  match parseSigned s with
  | None => (0, Some (numError s "invalid syntax"))
  | Some v =>
    if v <? minInt then (minInt, Some (numError s "value out of range"))
    else if maxInt <? v then (maxInt, Some (numError s "value out of range"))
    else (v, None)
  end.

(** Decimal text of an integer, as [%d] prints it. *)
Definition Itoa (z : Z) : string := NilZero.string_of_int (Z.to_int z).

End strconv.

(** ** Package fmt *)
Module fmt.

(** The operands kwin.go hands to [Sprintf], [Printf] and [Errorf].  An
    [error] operand is represented by the text of its [Error()]. *)
Inductive arg : Type :=
| AString (s : string)
| ABool (b : bool)
| AInt (z : Z)
| AStrings (l : list string)
| AError (e : string).

Definition boolText (b : bool) : string := if b then "true" else "false".

Definition typeName (a : arg) : string :=
  match a with
  | AString _ => "string"
  | ABool _ => "bool"
  | AInt _ => "int"
  | AStrings _ => "[]string"
  | AError _ => "*errors.errorString"
  end.

(** The operand under [%v]. *)
Definition valueText (a : arg) : string :=
  match a with
  | AString s => s
  | ABool b => boolText b
  | AInt z => strconv.Itoa z
  | AStrings l => "[" +:+ join " " l +:+ "]"
  | AError e => e
  end.

(** [%!verb(type=value)]: what fmt prints for a verb the operand's type
    does not support. *)
Definition badVerb (verb : ascii) (a : arg) : string :=
  "%!" +:+ String verb EmptyString +:+ "(" +:+ typeName a +:+ "=" +:+ valueText a +:+ ")".

Definition isByte (verb : ascii) (n : N) : bool := (code verb =? n)%N.

(** One operand under one verb.  The verbs of kwin.go are [%s], [%v] and
    [%d] ([%t] is modelled too): a string takes s and v, a bool t and v,
    an int d and v, an error s and v; a slice of strings prints its
    elements under the verb, inside brackets.  Any other pairing is a
    bad verb. *)
Definition printArg (verb : ascii) (a : arg) : string :=
  let v := isByte verb 118 in let s := isByte verb 115 in
  let d := isByte verb 100 in let t := isByte verb 116 in
  match a with
  | AString x => if v || s then x else badVerb verb a
  | ABool b => if v || t then boolText b else badVerb verb a
  | AInt z => if v || d then strconv.Itoa z else badVerb verb a
  | AStrings l =>
    if v || s then valueText a
    else "[" +:+ join " " (map (fun x => badVerb verb (AString x)) l) +:+ "]"
  | AError e => if v || s then e else badVerb verb a
  end.

Definition extra (args : list arg) : string :=
  match args with
  | [] => EmptyString
  | _ => "%!(EXTRA "
         +:+ join ", " (map (fun a => typeName a +:+ "=" +:+ valueText a) args)
         +:+ ")"
  end.

(** [fmt.Sprintf] for formats whose directives are a bare verb (no flag,
    width or precision): operands are consumed left to right, one per
    directive. *)
Fixpoint Sprintf (format : string) (args : list arg) : string :=
  match format with
  | EmptyString => extra args
  | String c r =>
    if isByte c 37 then
      match r with
      | EmptyString => "%!(NOVERB)" +:+ extra args
      | String verb r' =>
        if isByte verb 37 then "%" +:+ Sprintf r' args
        else
          match args with
          | [] => "%!" +:+ String verb EmptyString +:+ "(MISSING)" +:+ Sprintf r' []
          | a :: args' => printArg verb a +:+ Sprintf r' args'
          end
      end
    else String c (Sprintf r args)
  end.

End fmt.

Arguments strconv.Itoa : simpl never.
Arguments fmt.Sprintf : simpl never.

(** ** The Go monad

    kwin.go talks to the file system, to child processes ([dbus-send],
    [journalctl]), to the clock and to standard output.  Each such call is
    a command [Cmd R] answered by the world with an [R]; a Go function is
    a tree of commands ending in a return or a panic. *)

(** A Go [error] is represented by its message; [option error] is an
    [error] that may be [nil]. *)
Definition error : Type := string.

(** What the steps of [callProgramAndReadOutput] observe on one
    [exec.Cmd]: the [Err] field after [exec.Command], the errors of
    [StdoutPipe], [StderrPipe] and [Start], the lines the two scanners
    read, and the error of [Wait] (the process exited abnormally). *)
Record Process : Type := {
  cmd_Err : option error;
  StdoutPipe_err : option error;
  StderrPipe_err : option error;
  Start_err : option error;
  stdout_lines : list string;
  stderr_lines : list string;
  Wait_err : option error
}.

(** An instant of the wall clock. *)
Definition Time : Type := Z.

Inductive Cmd : Type -> Type :=
| os_TempDir : Cmd string
| os_CreateTemp (dir pattern : string) : Cmd (string * option error)
| File_WriteString (name s : string) : Cmd (option error)
| File_Close (name : string) : Cmd (option error)
| os_Chmod (name : string) (mode : N) : Cmd (option error)
| os_Remove (name : string) : Cmd (option error)
| os_ReadFile (name : string) : Cmd (string * option error)
| exec_Command (command : string) (args : list string) : Cmd Process
| time_Now : Cmd Time
| fmt_Print (s : string) : Cmd unit.

Inductive Go (A : Type) : Type :=
| Ret (a : A)
| Panic (msg : string)
| Do {R : Type} (c : Cmd R) (k : R -> Go A).
Arguments Ret {A} a.
Arguments Panic {A} msg.
Arguments Do {A R} c k.

Fixpoint bind {A B : Type} (m : Go A) (f : A -> Go B) : Go B :=
  match m with
  | Ret a => f a
  | Panic msg => Panic msg
  | Do c k => Do c (fun r => bind (k r) f)
  end.

Definition call {R : Type} (c : Cmd R) : Go R := Do c Ret.

Declare Scope go_scope.
Delimit Scope go_scope with go.
Notation "x <- m ; k" := (bind m (fun x => k))
  (at level 20, m at level 100, k at level 200, only parsing) : go_scope.
Notation "' pat <- m ; k" := (bind m (fun x => match x with pat => k end))
  (at level 20, pat pattern, m at level 100, k at level 200, only parsing) : go_scope.
Notation "m ;; k" := (bind m (fun _ => k))
  (at level 100, k at level 200, only parsing, right associativity) : go_scope.
Local Open Scope go_scope.

(** [defer]: the deferred function runs when the body returns, and also
    when it panics, before the panic goes on. *)
Fixpoint with_defer {A : Type} (deferred : Go unit) (body : Go A) : Go A :=
  match body with
  | Ret a => deferred ;; Ret a
  | Panic msg => deferred ;; Panic msg
  | Do c k => Do c (fun r => with_defer deferred (k r))
  end.

(** [fmt.Printf]. *)
Definition Printf (format : string) (args : list fmt.arg) : Go unit :=
  call (fmt_Print (fmt.Sprintf format args)).

Definition indexOutOfRange (i : Z) (len : nat) : string :=
  "runtime error: index out of range [" +:+ strconv.Itoa i
  +:+ "] with length " +:+ strconv.Itoa (Z.of_nat len).

(** [l[i]]: a run-time panic when [i] is out of range. *)
Definition index {A : Type} (l : list A) (i : Z) : Go A :=
  if i <? 0 then Panic (indexOutOfRange i (length l))
  else
    match l !! Z.to_nat i with
    | Some x => Ret x
    | None => Panic (indexOutOfRange i (length l))
    end.

(** [l[i] = x]. *)
Definition assign {A : Type} (l : list A) (i : Z) (x : A) : Go (list A) :=
  if (0 <=? i) && (i <? Z.of_nat (length l))
  then Ret (<[Z.to_nat i := x]> l)
  else Panic (indexOutOfRange i (length l)).

(** *** Running a program against a world *)

Inductive Outcome (A : Type) : Type :=
| Returned (a : A)
| Panicked (msg : string).
Arguments Returned {A} a.
Arguments Panicked {A} msg.

(** One call to the outside: the command, its answer, and the clock when
    the call was made and when it came back. *)
Inductive Event : Type :=
| Ev {R : Type} (c : Cmd R) (r : R) (invoked completed : Time).

(** A world answers every command and moves to its next state; [clock]
    is the time it shows in a state. *)
Class World (W : Type) : Type := {
  handle : forall R : Type, Cmd R -> W -> R * W;
  clock : W -> Time
}.

Section Run.
Context {W : Type} `{World W}.

Fixpoint run {A : Type} (p : Go A) (w : W) : list Event * W * Outcome A :=
  match p with
  | Ret a => ([], w, Returned a)
  | Panic msg => ([], w, Panicked msg)
  | Do c k =>
    let '(r, w') := handle _ c w in
    let '(tr, w'', o) := run (k r) w' in
    (Ev c r (clock w) (clock w') :: tr, w'', o)
  end.

Definition trace {A : Type} (p : Go A) (w : W) : list Event := (run p w).1.1.
Definition final {A : Type} (p : Go A) (w : W) : W := (run p w).1.2.
Definition outcome {A : Type} (p : Go A) (w : W) : Outcome A := (run p w).2.

End Run.

(** ** The data model of kwin.go *)

(** [uuid.UUID] is a 16-byte array, compared by value: here the 128-bit
    number its bytes spell, most significant byte first. *)
Definition UUID : Type := N.
#[global] Instance UUID_eq_dec : EqDecision UUID := N.eq_dec.
#[global] Instance UUID_countable : Countable UUID := N_countable.

(** A [float64] field holds the exact value of the decimal literal it was
    decoded from; rounding to binary64 is not modelled. *)
Definition float64 : Type := Q.

Record Point : Type := { Point_X : Z; Point_Y : Z }.

Record Rect : Type := { TopLeft : Point; BottomRight : Point }.

Record Screen : Type := {
  Screen_Name : string;
  Screen_Geometry : Rect;
  Screen_Manufacturer : string;
  Screen_Model : string;
  Screen_SerialNumber : string;
  Screen_PixelRatio : float64
}.

Record Desktop : Type := {
  Desktop_Id : string;
  Desktop_Index : Z;
  Desktop_Name : string;
  Desktop_X11Number : Z
}.

Record Window : Type := {
  Window_Id : string;
  Window_Caption : string;
  Window_Pid : Z;
  Window_CmdLine : string;
  Window_AppName : string;
  Window_X : float64;
  Window_Y : float64;
  Window_Width : float64;
  Window_Height : float64;
  Window_Fullscreen : bool;
  Window_OnAllDesktops : bool;
  Window_KeepAbove : bool;
  Window_KeepBelow : bool;
  Window_Minimized : bool;
  Window_DesktopIds : list UUID;
  Window_Desktops : list Desktop;
  Window_DemandsAttention : bool
}.

(** A Go map may be [nil]: [None]. *)
Record Environment : Type := {
  Screens : option (gmap string Screen);
  Desktops : option (gmap UUID Desktop);
  Windows : option (gmap UUID Window)
}.

(** Zero values: [Screen{}], [Desktop{}], [Window{}], [Environment{}]. *)
Definition zeroPoint : Point := {| Point_X := 0; Point_Y := 0 |}.
Definition zeroRect : Rect := {| TopLeft := zeroPoint; BottomRight := zeroPoint |}.
Definition zeroScreen : Screen :=
  {| Screen_Name := EmptyString; Screen_Geometry := zeroRect;
     Screen_Manufacturer := EmptyString; Screen_Model := EmptyString;
     Screen_SerialNumber := EmptyString; Screen_PixelRatio := 0%Q |}.
Definition zeroDesktop : Desktop :=
  {| Desktop_Id := EmptyString; Desktop_Index := 0;
     Desktop_Name := EmptyString; Desktop_X11Number := 0 |}.
Definition zeroWindow : Window :=
  {| Window_Id := EmptyString; Window_Caption := EmptyString; Window_Pid := 0;
     Window_CmdLine := EmptyString; Window_AppName := EmptyString;
     Window_X := 0%Q; Window_Y := 0%Q; Window_Width := 0%Q; Window_Height := 0%Q;
     Window_Fullscreen := false; Window_OnAllDesktops := false;
     Window_KeepAbove := false; Window_KeepBelow := false;
     Window_Minimized := false; Window_DesktopIds := []; Window_Desktops := [];
     Window_DemandsAttention := false |}.
Definition zeroEnvironment : Environment :=
  {| Screens := None; Desktops := None; Windows := None |}.

(** [d.CmdLine = v], [d.AppName = v], [d.Desktops = v]. *)
Definition set_CmdLine (d : Window) (v : string) : Window :=
  {| Window_Id := Window_Id d; Window_Caption := Window_Caption d;
     Window_Pid := Window_Pid d; Window_CmdLine := v;
     Window_AppName := Window_AppName d;
     Window_X := Window_X d; Window_Y := Window_Y d;
     Window_Width := Window_Width d; Window_Height := Window_Height d;
     Window_Fullscreen := Window_Fullscreen d;
     Window_OnAllDesktops := Window_OnAllDesktops d;
     Window_KeepAbove := Window_KeepAbove d; Window_KeepBelow := Window_KeepBelow d;
     Window_Minimized := Window_Minimized d;
     Window_DesktopIds := Window_DesktopIds d; Window_Desktops := Window_Desktops d;
     Window_DemandsAttention := Window_DemandsAttention d |}.
Definition set_AppName (d : Window) (v : string) : Window :=
  {| Window_Id := Window_Id d; Window_Caption := Window_Caption d;
     Window_Pid := Window_Pid d; Window_CmdLine := Window_CmdLine d;
     Window_AppName := v;
     Window_X := Window_X d; Window_Y := Window_Y d;
     Window_Width := Window_Width d; Window_Height := Window_Height d;
     Window_Fullscreen := Window_Fullscreen d;
     Window_OnAllDesktops := Window_OnAllDesktops d;
     Window_KeepAbove := Window_KeepAbove d; Window_KeepBelow := Window_KeepBelow d;
     Window_Minimized := Window_Minimized d;
     Window_DesktopIds := Window_DesktopIds d; Window_Desktops := Window_Desktops d;
     Window_DemandsAttention := Window_DemandsAttention d |}.
Definition set_Desktops (d : Window) (v : list Desktop) : Window :=
  {| Window_Id := Window_Id d; Window_Caption := Window_Caption d;
     Window_Pid := Window_Pid d; Window_CmdLine := Window_CmdLine d;
     Window_AppName := Window_AppName d;
     Window_X := Window_X d; Window_Y := Window_Y d;
     Window_Width := Window_Width d; Window_Height := Window_Height d;
     Window_Fullscreen := Window_Fullscreen d;
     Window_OnAllDesktops := Window_OnAllDesktops d;
     Window_KeepAbove := Window_KeepAbove d; Window_KeepBelow := Window_KeepBelow d;
     Window_Minimized := Window_Minimized d;
     Window_DesktopIds := Window_DesktopIds d; Window_Desktops := v;
     Window_DemandsAttention := Window_DemandsAttention d |}.

(** ** The libraries kwin.go imports

    [encoding/json], [github.com/google/uuid] and [time.Time.Format] are
    not part of the repository: the package is embedded over any
    implementation of them, and the theorems hold for all of them. *)

(** [json.Unmarshal(data, &v)] for a [v] of type [T]: the value after
    decoding, and the error. *)
Class Unmarshaler (T : Type) : Type :=
  json_Unmarshal : string -> T -> T * option error.

(** [uuid.Parse]. *)
Class UUIDParser : Type :=
  uuid_Parse : string -> UUID * option error.

(** [t.Format(layout)]. *)
Class TimeFormatter : Type :=
  Time_Format : Time -> string -> string.

(** ** The scriptlets *)

Definition GetScreens_script : string := q "
	for (var i = 0; i< workspace.screens.length; i++) {
		var screen = workspace.screens[i]
		var out = '{'
		out += '\'name\': \''+screen.name+'\','
		out += '\'manufacturer\': \''+screen.manufacturer+'\','
		out += '\'model\': \''+screen.model+'\','
		out += '\'serial\': \''+screen.serialNumber+'\','
		out += '\'pixelRatio\': '+screen.devicePixelRatio+','
		out += '\'geometry\': {'
		out += '\'topLeft\': {'
		out += '\'x\':'+screen.geometry.left+','
		out += '\'y\':'+screen.geometry.top
		out += '},'
		out += '\'bottomRight\': {'
		out += '\'x\':'+screen.geometry.right+','
		out += '\'y\':'+screen.geometry.bottom
		out += '}'
		out += '}'
		out += '}'
		print(out)
	}".

Definition GetDesktops_script : string := q "
	for (var i = 0; i < workspace.desktops.length; i++) {
		var desktop = workspace.desktops[i]
		var out = '{'
		out += '\'id\': \''+desktop.id+'\','
		out += '\'index\': '+i+','
		out += '\'name\': \''+desktop.name+'\','
		out += '\'x11Number\': '+desktop.x11DesktopNumber
		out += '}'
		print(out)
	}".

Definition GetWindows_script : string := q "
	for (const window of workspace.windowList()) {
		if (window.specialWindow) {
			continue;
		}
		var out = '{'
		out += '\'id\': \''+window.internalId.toString().replace(/{/, '').replace(/}/, '')+'\','
		out += '\'caption\': \''+window.caption.replace(/\'/g, '')+'\','
		out += '\'pid\': '+window.pid+','
		out += '\'x\': '+window.x+','
		out += '\'y\': '+window.y+','
		out += '\'width\': '+window.width+','
		out += '\'height\': '+window.height+','
		out += '\'fullScreen\': '+window.fullScreen+','
		out += '\'onAllDesktops\': '+window.onAllDesktops+','
		out += '\'keepAbove\': '+window.keepAbove+','
		out += '\'keepBelow\': '+window.keepBelow+','
		out += '\'minimized\': '+window.minimized+','
    	out += '\'demandsAttention\': '+window.demandsAttention+','
        out += '\'desktopIds\': ['
        for (var i = 0; i < window.desktops.length; i++) {
            d = window.desktops[i];
            out += '\''+d.id+'\'';
            if (i < window.desktops.length-1) {
                out += ','
            }
        }
        out += ']'
		out += '}'
		print(out)
	}".

Definition MoveWindowToDesktops_script : string := q "
    targetDesktopIds = %s;
	windowId = '%s';
    var d = [];
    for (const desktop of workspace.desktops) {
        if (targetDesktopIds.includes(desktop.id)) {
            d.push(desktop);
        }
    }
    if (d && d.length > 0) {
        var w = undefined;
        for (const window of workspace.windowList()) {
            wid = window.internalId.toString().replace(/{/, '').replace(/}/, '');
            if (wid === windowId) {
                w = window;
                break;
            }
        }
        if (w && w.moveable) {
            w.desktops = d;
        }
    }".

Definition MoveWindowToScreen_script : string := q "
    targetScreenName = '%s'
    windowId = '%s';
    
    var s = undefined;
    for (const screen of workspace.screens) {
        if (screen.name === targetScreenName) {
            s = screen;
            break;
        }
    }
    if (s) {
        var w = undefined;
        for (const window of workspace.windowList()) {
            wid = window.internalId.toString().replace(/{/, '').replace(/}/, '');
            if (wid === windowId) {
                w = window;
                break;
            }
        }
        if (w && w.moveable) {
            workspace.sendClientToScreen(w, s);
        }
    }".

Definition maximizeWindowHV_script : string := q "
    windowId = '%s';
    maximizeHorizontally = %v;
    maximizeVertically = %v;
    for (const window of workspace.windowList()) {
        wid = window.internalId.toString().replace(/{/, '').replace(/}/, '');
        if (wid === windowId) {
            window.setMaximize(maximizeVertically, maximizeHorizontally);
            break;
        }
    }".

Definition MinimizeWindow_script : string := q "
    windowId = '%s';
    for (const window of workspace.windowList()) {
        wid = window.internalId.toString().replace(/{/, '').replace(/}/, '');
        if (wid === windowId) {
            window.minimized = true;
            break;
        }
    }".

Definition SetWindowDemandsAttention_script : string := q "
		windowId = '%s';
		for (const window of workspace.windowList()) {
			var w = undefined;
			for (const window of workspace.windowList()) {
				wid = window.internalId.toString().replace(/{/, '').replace(/}/, '');
				if (wid === windowId) {
					w = window;
					break;
				}
			}
			if (w) {
				w.demandsAttention = %s;
			}
		}".

(** ** The package *)

Definition dbusSend : string := "/usr/bin/dbus-send".
Definition journalCtl : string := "/usr/bin/journalctl".

Section Package.
Context `{UUIDParser} `{TimeFormatter}.
Context `{Unmarshaler Screen} `{Unmarshaler Desktop} `{Unmarshaler Window}.

(** [uuid.MustParse]: [Parse], and a panic when it fails. *)
Definition uuid_MustParse (s : string) : Go UUID :=
  match uuid_Parse s with
  | (u, None) => Ret u
  | (_, Some err) => Panic ("uuid: Parse(" +:+ s +:+ "): " +:+ err)
  end.

(** The loop [for i := range processOutput { fmt.Printf(...) }]. *)
Fixpoint printLines (processOutput : list string) : Go unit :=
  match processOutput with
  | [] => Ret tt
  | s :: rest => Printf ("%s" +:+ nl) [fmt.AString s] ;; printLines rest
  end.

(** callProgramAndReadOutput - starts a process for a given command and
    arguments, waits for it to finish and reads the process output.
    The second [err :=] of the source overwrites the error of
    [StdoutPipe]; with a failed [StdoutPipe] the reader is nil and the
    first [Scan] dereferences it. *)
Definition callProgramAndReadOutput (command : string) (args : list string)
  : Go (list string * option error) :=
  cmd <- call (exec_Command command args);
  match cmd_Err cmd with
  | Some err => Ret ([], Some err)
  | None =>
    match StderrPipe_err cmd with
    | Some err => Ret ([], Some err)
    | None =>
      match Start_err cmd with
      | Some err => Ret ([], Some err)
      | None =>
        match StdoutPipe_err cmd with
        | Some _ =>
          Panic "runtime error: invalid memory address or nil pointer dereference"
        | None =>
          let processOutput := stdout_lines cmd ++ stderr_lines cmd in
          match Wait_err cmd with
          | Some err =>
            Printf ("Command finished with error: %v" +:+ nl) [fmt.AError err] ;;
            printLines processOutput ;;
            Ret ([], Some err)
          | None => Ret (processOutput, None)
          end
        end
      end
    end
  end.

Definition callDbusSend (args : list string) : Go (list string * option error) :=
  callProgramAndReadOutput dbusSend args.

(** loadScript: loads the scriptlet file into KWin and returns its
    registration number. *)
Definition loadScript (scriptPath : string) : Go (Z * option error) :=
  '(output, err) <- callDbusSend
      ["--print-reply"; "--dest=org.kde.KWin";
       "/Scripting"; "org.kde.kwin.Scripting.loadScript"; "string:" +:+ scriptPath];
  match err with
  | Some err => Ret (-1, Some err)
  | None =>
    if negb (length output =? 2)%nat
    then Ret (-1, Some (fmt.Sprintf "script load failed: %s" [fmt.AStrings output]))
    else
      line <- index output 1;
      let sa := strings.Fields line in
      if negb (length sa =? 2)%nat
      then Ret (-1, Some (fmt.Sprintf "script load failed: %s" [fmt.AStrings output]))
      else
        sRegNo <- index sa 1;
        let '(iRegNo, err) := strconv.Atoi sRegNo in
        match err with
        | Some err => Ret (-1, Some err)
        | None => Ret (iRegNo, None)
        end
  end.

Definition runScript (scriptNo : Z) : Go (option error) :=
  '(_, err) <- callDbusSend
      ["--print-reply"; "--dest=org.kde.KWin";
       fmt.Sprintf "/Scripting/Script%d" [fmt.AInt scriptNo];
       "org.kde.kwin.Script.run"];
  match err with
  | Some err => Ret (Some err)
  | None => Ret None
  end.

Definition stopScript (scriptNo : Z) : Go (option error) :=
  '(_, err) <- callDbusSend
      ["--print-reply"; "--dest=org.kde.KWin";
       fmt.Sprintf "/Scripting/Script%d" [fmt.AInt scriptNo];
       "org.kde.kwin.Script.stop"];
  match err with
  | Some err => Ret (Some err)
  | None => Ret None
  end.

(** The command line of [journalctl] for the window [since, until]. *)
Definition journalArgs (since until : string) : list string :=
  ["QT_CATEGORY=js"; "QT_CATEGORY=kwin_scripting";
   "-o"; "cat";
   "--since"; since;
   "--until"; until;
   "--no-pager"].

Definition getJournal (from to : Time) : Go (list string * option error) :=
  let format := "2006-01-02 15:04:05.000000" in
  let since := Time_Format from format in
  let until := Time_Format to format in
  '(output, err) <- callProgramAndReadOutput journalCtl (journalArgs since until);
  match err with
  | Some err => Ret ([], Some err)
  | None => Ret (output, None)
  end.

(** The deferred function of [loadExecuteAndGetOutput]. *)
Definition closeAndRemove (scriptFile : string) : Go unit :=
  err <- call (File_Close scriptFile);
  match err with
  | Some err => Printf ("Error closing script file: %v" +:+ nl) [fmt.AError err]
  | None =>
    err <- call (os_Remove scriptFile);
    match err with
    | Some err => Printf ("Error removing script file: %v" +:+ nl) [fmt.AError err]
    | None => Ret tt
    end
  end.

(** loadExecuteAndGetOutput: saves the scriptlet in a temporary file,
    registers it, runs it, stops it and gathers its output from the
    journal.  A file is represented by its name. *)
Definition loadExecuteAndGetOutput (script : string) : Go (list string * option error) :=
  dir <- call os_TempDir;
  '(scriptFile, err) <- call (os_CreateTemp dir "kwin_script_*.js");
  match err with
  | Some err => Ret ([], Some err)
  | None =>
    with_defer (closeAndRemove scriptFile)
      (err <- call (File_WriteString scriptFile script);
       match err with
       | Some err =>
         Printf ("Error writing script file: %v" +:+ nl) [fmt.AError err] ;;
         Ret ([], Some err)
       | None =>
         err <- call (os_Chmod scriptFile 511);
         match err with
         | Some err =>
           Printf ("Error chmod: %v" +:+ nl) [fmt.AError err] ;;
           Ret ([], Some err)
         | None =>
           '(scriptNo, err) <- loadScript scriptFile;
           match err with
           | Some err =>
             Printf ("Error loading script: %v" +:+ nl) [fmt.AError err] ;;
             Ret ([], Some err)
           | None =>
             startTime <- call time_Now;
             err <- runScript scriptNo;
             match err with
             | Some err =>
               Printf ("Error running script: %v" +:+ nl) [fmt.AError err] ;;
               Ret ([], Some err)
             | None =>
               err <- stopScript scriptNo;
               endTime <- call time_Now;
               match err with
               | Some err =>
                 Printf ("Error stopping script: %v" +:+ nl) [fmt.AError err] ;;
                 Ret ([], Some err)
               | None =>
                 '(journalOutput, err) <- getJournal startTime endTime;
                 match err with
                 | Some err =>
                   Printf ("Error getting journal output: %v" +:+ nl) [fmt.AError err] ;;
                   Ret ([], Some err)
                 | None => Ret (journalOutput, None)
                 end
               end
             end
           end
         end
       end)
  end.

(** getProcessCmdLine: the command line of a process, from /proc. *)
Definition getProcessCmdLine (processId : Z) : Go (string * option error) :=
  let proc := fmt.Sprintf "/proc/%d/cmdline" [fmt.AInt processId] in
  '(cmdLine, err) <- call (os_ReadFile proc);
  match err with
  | Some err =>
    Printf ("Error reading process command line: %v" +:+ nl) [fmt.AError err] ;;
    Ret (EmptyString, Some err)
  | None =>
    let cmdLine := strings.ReplaceAll cmdLine nul space in
    Ret (strings.TrimSpace cmdLine, None)
  end.

(** The loop of [GetScreens] over the output lines. *)
Fixpoint GetScreens_loop (output : list string) (outputMap : gmap string Screen)
  : Go (option (gmap string Screen) * option error) :=
  match output with
  | [] => Ret (Some outputMap, None)
  | s :: rest =>
    let d := zeroScreen in
    let ss := strings.ReplaceAll s "js: " EmptyString in
    let '(d, err) := json_Unmarshal ss d in
    match err with
    | Some err => Ret (None, Some err)
    | None => GetScreens_loop rest (<[Screen_Name d := d]> outputMap)
    end
  end.

(** GetScreens returns a map of detected Screen objects where the map
    key is the Screen name. *)
Definition GetScreens : Go (option (gmap string Screen) * option error) :=
  '(output, err) <- loadExecuteAndGetOutput GetScreens_script;
  match err with
  | Some err =>
    Printf ("Error running script for screens list: %v" +:+ nl) [fmt.AError err] ;;
    Ret (None, Some err)
  | None => GetScreens_loop output ∅
  end.

(** The loop of [GetDesktops] over the output lines. *)
Fixpoint GetDesktops_loop (output : list string) (outputMap : gmap UUID Desktop)
  : Go (option (gmap UUID Desktop) * option error) :=
  match output with
  | [] => Ret (Some outputMap, None)
  | s :: rest =>
    let d := zeroDesktop in
    let ss := strings.ReplaceAll s "js: " EmptyString in
    let '(d, err) := json_Unmarshal ss d in
    match err with
    | Some err => Ret (None, Some err)
    | None =>
      key <- uuid_MustParse (Desktop_Id d);
      GetDesktops_loop rest (<[key := d]> outputMap)
    end
  end.

(** GetDesktops returns a map of detected Desktop objects where the map
    key is the Desktop ID. *)
Definition GetDesktops : Go (option (gmap UUID Desktop) * option error) :=
  '(output, err) <- loadExecuteAndGetOutput GetDesktops_script;
  match err with
  | Some err =>
    Printf ("Error running script for desktops list: %v" +:+ nl) [fmt.AError err] ;;
    Ret (None, Some err)
  | None => GetDesktops_loop output ∅
  end.

(** The loop [for i := range d.DesktopIds { d.Desktops[i] =
    desktops[d.DesktopIds[i]] }], over the indices [indices]; a key the map
    lacks reads as the zero [Desktop]. *)
Fixpoint resolveDesktops (desktops : gmap UUID Desktop) (DesktopIds : list UUID)
    (indices : list nat) (Desktops : list Desktop) : Go (list Desktop) :=
  match indices with
  | [] => Ret Desktops
  | i :: rest =>
    id <- index DesktopIds (Z.of_nat i);
    Desktops <- assign Desktops (Z.of_nat i) (default zeroDesktop (desktops !! id));
    resolveDesktops desktops DesktopIds rest Desktops
  end.

(** The loop of [GetWindows] over the output lines; [desktops] is
    [None] for a nil map. *)
Fixpoint GetWindows_loop (desktops : option (gmap UUID Desktop))
    (output : list string) (outputMap : gmap UUID Window)
  : Go (option (gmap UUID Window) * option error) :=
  match output with
  | [] => Ret (Some outputMap, None)
  | s :: rest =>
    let d := zeroWindow in
    let ss := strings.ReplaceAll s "js: " EmptyString in
    let '(d, err) := json_Unmarshal ss d in
    match err with
    | Some err => Ret (None, Some err)
    | None =>
      '(rawCmdLine, err) <- getProcessCmdLine (Window_Pid d);
      match err with
      | Some err =>
        Printf ("Can't process windows list: %v" +:+ nl) [fmt.AError err] ;;
        Ret (None, Some err)
      | None =>
        cmdLine <- index (strings.Fields rawCmdLine) 0;
        let d := set_CmdLine d cmdLine in
        let saCmdLine := strings.Split cmdLine "/" in
        last <- index saCmdLine (Z.of_nat (length saCmdLine) - 1);
        let appName := strings.TrimSpace last in
        let d := set_AppName d appName in
        d <- match desktops with
             | Some desktops =>
               let made := replicate (length (Window_DesktopIds d)) zeroDesktop in
               resolved <- resolveDesktops desktops (Window_DesktopIds d)
                             (seq 0 (length (Window_DesktopIds d))) made;
               Ret (set_Desktops d resolved)
             | None => Ret d
             end;
        key <- uuid_MustParse (Window_Id d);
        GetWindows_loop desktops rest (<[key := d]> outputMap)
      end
    end
  end.

(** GetWindows returns a map of detected Window objects where the map
    key is the Window ID. *)
Definition GetWindows (desktops : option (gmap UUID Desktop))
  : Go (option (gmap UUID Window) * option error) :=
  '(output, err) <- loadExecuteAndGetOutput GetWindows_script;
  match err with
  | Some err =>
    Printf ("Error running script for windows list: %v" +:+ nl) [fmt.AError err] ;;
    Ret (None, Some err)
  | None => GetWindows_loop desktops output ∅
  end.

(** GetEnvironment gathers all available Screen, Desktop and Window
    information and returns it as a single structure. *)
Definition GetEnvironment : Go (Environment * option error) :=
  '(screens, err) <- GetScreens;
  match err with
  | Some err =>
    Printf ("Error getting screens: %v" +:+ nl) [fmt.AError err] ;;
    Ret (zeroEnvironment, Some err)
  | None =>
    '(desktops, err) <- GetDesktops;
    match err with
    | Some err =>
      Printf ("Error getting desktops: %v" +:+ nl) [fmt.AError err] ;;
      Ret (zeroEnvironment, Some err)
    | None =>
      '(windows, err) <- GetWindows desktops;
      match err with
      | Some err =>
        Printf ("Error getting windows: %v" +:+ nl) [fmt.AError err] ;;
        Ret (zeroEnvironment, Some err)
      | None =>
        Ret ({| Screens := screens; Desktops := desktops; Windows := windows |}, None)
      end
    end
  end.

(** The loop [for _, s := range output { fmt.Println(s) }]. *)
Fixpoint printOutput (output : list string) : Go unit :=
  match output with
  | [] => Ret tt
  | s :: rest => call (fmt_Print (s +:+ nl)) ;; printOutput rest
  end.

(** The list literal of [MoveWindowToDesktops]: the ids, quoted and
    separated by commas; [i] counts the elements already written and
    [n] is [len(ds)]. *)
Fixpoint targetDesktopsFrom (i n : Z) (ds : list Desktop) (targetDesktops : string) : string :=
  match ds with
  | [] => targetDesktops
  | d :: rest =>
    let targetDesktops := targetDesktops +:+ dquote +:+ Desktop_Id d +:+ dquote in
    let targetDesktops :=
      if i <? n - 1 then targetDesktops +:+ "," else targetDesktops in
    targetDesktopsFrom (i + 1) n rest targetDesktops
  end.

(** MoveWindowToDesktops will attempt to move a given Window to a given
    array of multiple Desktop's. *)
Definition MoveWindowToDesktops (w : Window) (ds : list Desktop) : Go (option error) :=
  let targetDesktops := "[" in
  let targetDesktops := targetDesktopsFrom 0 (Z.of_nat (length ds)) ds targetDesktops in
  let targetDesktops := targetDesktops +:+ "]" in
  '(_, err) <- loadExecuteAndGetOutput
      (fmt.Sprintf MoveWindowToDesktops_script
         [fmt.AString targetDesktops; fmt.AString (Window_Id w)]);
  Ret err.

Definition MoveWindowToDesktop (w : Window) (d : Desktop) : Go (option error) :=
  MoveWindowToDesktops w [d].

(** MoveWindowToScreen will attempt to move a given Window to a given
    Screen output. *)
Definition MoveWindowToScreen (w : Window) (s : Screen) : Go (option error) :=
  '(output, err) <- loadExecuteAndGetOutput
      (fmt.Sprintf MoveWindowToScreen_script
         [fmt.AString (Screen_Name s); fmt.AString (Window_Id w)]);
  printOutput output ;;
  Ret err.


Definition maximizeWindowHV (w : Window) (maximizeHorizontally maximizeVertically : bool)
  : Go (option error) :=
  let command :=
    fmt.Sprintf maximizeWindowHV_script
      [fmt.AString (Window_Id w); fmt.ABool maximizeHorizontally;
       fmt.ABool maximizeVertically] in
  '(output, err) <- loadExecuteAndGetOutput command;
  printOutput output ;;
  Ret err.

Definition MaximizeWindow (w : Window) : Go (option error) :=
  maximizeWindowHV w true true.
Definition MaximizeWindowHorizontally (w : Window) : Go (option error) :=
  maximizeWindowHV w true false.
Definition MaximizeWindowVertically (w : Window) : Go (option error) :=
  maximizeWindowHV w false true.

(** MinimizeWindow will attempt to minimize window. *)
Definition MinimizeWindow (w : Window) : Go (option error) :=
  let command := fmt.Sprintf MinimizeWindow_script [fmt.AString (Window_Id w)] in
  '(output, err) <- loadExecuteAndGetOutput command;
  printOutput output ;;
  Ret err.

(** The scriptlet text [SetWindowDemandsAttention] builds. *)
Definition SetWindowDemandsAttention_command (w : Window) (demandsAttention : bool) : string :=
  fmt.Sprintf SetWindowDemandsAttention_script
    [fmt.AString (Window_Id w); fmt.ABool demandsAttention].

(** SetWindowDemandsAttention will attempt to set the window state of
    demanding user attention to the specified value. *)
Definition SetWindowDemandsAttention (w : Window) (demandsAttention : bool)
  : Go (option error) :=
  let command := SetWindowDemandsAttention_command w demandsAttention in
  '(output, err) <- loadExecuteAndGetOutput command;
  printOutput output ;;
  Ret err.

Definition WindowDemandAttention (w : Window) : Go (option error) :=
  SetWindowDemandsAttention w true.
Definition WindowUnDemandAttention (w : Window) : Go (option error) :=
  SetWindowDemandsAttention w false.

End Package.

(** ** A decoder for encoding/json

    A concrete [Unmarshaler] for [Screen], [Desktop] and [Window], used to
    run the package on explicit journal lines.  The document is first
    parsed whole (any syntax error rejects it), then stored into the
    struct: a key selects the field whose tag equals it up to ASCII case,
    unknown keys are skipped, [null] leaves a field as it is, a later
    duplicate key overwrites, and a value of the wrong JSON type is an
    error.  The first error is the one reported.  Texts are copied
    byte for byte (ill-formed UTF-8 is not replaced), and the messages of
    syntax errors are not those of Go. *)
Module Json.

#[local] Unset Elimination Schemes.
Inductive value : Type :=
| JNull
| JBool (b : bool)
| JNumber (literal : string)
| JString (s : string)
| JArray (elements : list value)
| JObject (members : list (string * value)).
#[local] Set Elimination Schemes.

Definition isWS (c : ascii) : bool :=
  ((code c =? 32) || (code c =? 9) || (code c =? 10) || (code c =? 13))%N.

Fixpoint skipWS (s : string) : string :=
  match s with
  | String c r => if isWS c then skipWS r else s
  | EmptyString => s
  end.

Definition hexVal (c : ascii) : option N :=
  let b := code c in
  if ((48 <=? b) && (b <=? 57))%N then Some (b - 48)%N
  else if ((97 <=? b) && (b <=? 102))%N then Some (b - 87)%N
  else if ((65 <=? b) && (b <=? 70))%N then Some (b - 55)%N
  else None.

(** Four hexadecimal digits. *)
Definition hex4 (s : string) : option (N * string) :=
  match s with
  | String a (String b (String c (String d r))) =>
    match hexVal a, hexVal b, hexVal c, hexVal d with
    | Some x, Some y, Some z, Some t => Some (((x * 16 + y) * 16 + z) * 16 + t, r)%N
    | _, _, _, _ => None
    end
  | _ => None
  end.

(** UTF-8 encoding of a code point. *)
Definition utf8 (cp : N) : string :=
  let b n := String (byte n) EmptyString in
  (if cp <? 128 then b cp
   else if cp <? 2048 then b (192 + cp / 64) +:+ b (128 + cp mod 64)
   else if cp <? 65536 then
     b (224 + cp / 4096) +:+ b (128 + (cp / 64) mod 64) +:+ b (128 + cp mod 64)
   else
     b (240 + cp / 262144) +:+ b (128 + (cp / 4096) mod 64)
     +:+ b (128 + (cp / 64) mod 64) +:+ b (128 + cp mod 64))%N.

Definition isHighSurrogate (u : N) : bool := ((55296 <=? u) && (u <? 56320))%N.
Definition isLowSurrogate (u : N) : bool := ((56320 <=? u) && (u <? 57344))%N.

(** The body of a string literal, after its opening quote: the text and
    what follows the closing quote. *)
Fixpoint parseString (fuel : nat) (s : string) : option (string * string) :=
  match fuel with
  | O => None
  | S fuel =>
    match s with
    | EmptyString => None
    | String c r =>
      let b := code c in
      if (b =? 34)%N then Some (EmptyString, r)
      else if (b <? 32)%N then None
      else if (b =? 92)%N then
        match r with
        | EmptyString => None
        | String e r' =>
          let simple (n : N) :=
            '(t, rest) ← parseString fuel r'; Some (String (byte n) t, rest) in
          let x := code e in
          if (x =? 34)%N then simple 34%N
          else if (x =? 92)%N then simple 92%N
          else if (x =? 47)%N then simple 47%N
          else if (x =? 98)%N then simple 8%N
          else if (x =? 102)%N then simple 12%N
          else if (x =? 110)%N then simple 10%N
          else if (x =? 114)%N then simple 13%N
          else if (x =? 116)%N then simple 9%N
          else if (x =? 117)%N then
            '(u, r1) ← hex4 r';
            let single :=
              '(t, rest) ← parseString fuel r1;
              Some (utf8 (if isHighSurrogate u || isLowSurrogate u
                          then 65533%N else u) +:+ t, rest) in
            if isHighSurrogate u then
              match r1 with
              | String c1 (String c2 r2) =>
                if ((code c1 =? 92) && (code c2 =? 117))%N then
                  match hex4 r2 with
                  | Some (l, r3) =>
                    if isLowSurrogate l then
                      '(t, rest) ← parseString fuel r3;
                      Some (utf8 (65536 + (u - 55296) * 1024 + (l - 56320))%N +:+ t, rest)
                    else single
                  | None => None
                  end
                else single
              | _ => single
              end
            else single
          else None
        end
      else '(t, rest) ← parseString fuel r; Some (String c t, rest)
    end
  end.

Fixpoint spanDigits (s : string) : string * string :=
  match s with
  | String c r =>
    if strconv.isDigit c then let '(d, rest) := spanDigits r in (String c d, rest)
    else (EmptyString, s)
  | EmptyString => (EmptyString, s)
  end.

(** A number literal: an optional minus; 0, or a non-zero digit and
    more digits; an optional fraction; an optional exponent. *)
Definition parseNumber (s : string) : option (string * string) :=
  let '(sign, s1) :=
    match s with
    | String c r => if (code c =? 45)%N then ("-", r) else (EmptyString, s)
    | EmptyString => (EmptyString, s)
    end in
  let '(int, s2) := spanDigits s1 in
  match int with
  | EmptyString => None
  | String d int' =>
    if (code d =? 48)%N && negb (String.eqb int' EmptyString) then
      (* a leading zero ends the integer part *)
      None
    else
      '(frac, s3) ←
        match s2 with
        | String c r =>
          if (code c =? 46)%N then
            let '(f, rest) := spanDigits r in
            match f with
            | EmptyString => None
            | _ => Some ("." +:+ f, rest)
            end
          else Some (EmptyString, s2)
        | EmptyString => Some (EmptyString, s2)
        end;
      '(exp, s4) ←
        match s3 with
        | String c r =>
          if ((code c =? 101) || (code c =? 69))%N then
            let '(sg, r1) :=
              match r with
              | String c' r' =>
                if ((code c' =? 43) || (code c' =? 45))%N
                then (String c' EmptyString, r') else (EmptyString, r)
              | EmptyString => (EmptyString, r)
              end in
            let '(e, rest) := spanDigits r1 in
            match e with
            | EmptyString => None
            | _ => Some (String c sg +:+ e, rest)
            end
          else Some (EmptyString, s3)
        | EmptyString => Some (EmptyString, s3)
        end;
      Some (sign +:+ int +:+ frac +:+ exp, s4)
  end.

Definition literal (word : string) (v : value) (s : string) : option (value * string) :=
  if String.prefix word s
  then Some (v, String.substring (String.length word)
                  (String.length s - String.length word) s)
  else None.

Fixpoint parseValue (fuel : nat) (s : string) : option (value * string) :=
  match fuel with
  | O => None
  | S fuel =>
    match skipWS s with
    | EmptyString => None
    | String c r as s' =>
      let b := code c in
      if (b =? 123)%N then
        match skipWS r with
        | String c' r' =>
          if (code c' =? 125)%N then Some (JObject [], r')
          else '(ms, rest) ← parseMembers fuel (String c' r'); Some (JObject ms, rest)
        | EmptyString => None
        end
      else if (b =? 91)%N then
        match skipWS r with
        | String c' r' =>
          if (code c' =? 93)%N then Some (JArray [], r')
          else '(vs, rest) ← parseElements fuel (String c' r'); Some (JArray vs, rest)
        | EmptyString => None
        end
      else if (b =? 34)%N then
        '(t, rest) ← parseString (S (String.length r)) r; Some (JString t, rest)
      else if (b =? 116)%N then literal "true" (JBool true) s'
      else if (b =? 102)%N then literal "false" (JBool false) s'
      else if (b =? 110)%N then literal "null" JNull s'
      else '(n, rest) ← parseNumber s'; Some (JNumber n, rest)
    end
  end
with parseElements (fuel : nat) (s : string) : option (list value * string) :=
  match fuel with
  | O => None
  | S fuel =>
    '(v, rest) ← parseValue fuel s;
    match skipWS rest with
    | String c r =>
      if (code c =? 44)%N then
        '(vs, rest') ← parseElements fuel r; Some (v :: vs, rest')
      else if (code c =? 93)%N then Some ([v], r)
      else None
    | EmptyString => None
    end
  end
with parseMembers (fuel : nat) (s : string) : option (list (string * value) * string) :=
  match fuel with
  | O => None
  | S fuel =>
    match skipWS s with
    | String c r =>
      if (code c =? 34)%N then
        '(k, rest) ← parseString (S (String.length r)) r;
        match skipWS rest with
        | String c1 r1 =>
          if (code c1 =? 58)%N then
            '(v, rest1) ← parseValue fuel r1;
            match skipWS rest1 with
            | String c2 r2 =>
              if (code c2 =? 44)%N then
                '(ms, rest2) ← parseMembers fuel r2; Some ((k, v) :: ms, rest2)
              else if (code c2 =? 125)%N then Some ([(k, v)], r2)
              else None
            | EmptyString => None
            end
          else None
        | EmptyString => None
        end
      else None
    | EmptyString => None
    end
  end.

(** The whole document: one value, white space around it, nothing else. *)
Definition parse (s : string) : option value :=
  match parseValue (S (String.length s)) s with
  | Some (v, rest) =>
    match skipWS rest with
    | EmptyString => Some v
    | _ => None
    end
  | None => None
  end.

End Json.

(** ** A parser for github.com/google/uuid

    [uuid.Parse] (v1.6.0): the 36-byte form with dashes, the same with
    the prefix [urn:uuid:] or between two more bytes (the braces, which
    [Parse] does not look at), and the 32-digit form. *)
Module Uuid.

Definition xtob (a b : option ascii) : option N :=
  match a, b with
  | Some a, Some b =>
    match Json.hexVal a, Json.hexVal b with
    | Some x, Some y => Some (x * 16 + y)%N
    | _, _ => None
    end
  | _, _ => None
  end.

(** The bytes spelled by the digit pairs at the given offsets. *)
Fixpoint bytesAt (s : string) (offsets : list nat) (acc : N) : option N :=
  match offsets with
  | [] => Some acc
  | x :: rest =>
    match xtob (String.get x s) (String.get (S x) s) with
    | Some v => bytesAt s rest (acc * 256 + v)%N
    | None => None
    end
  end.

Definition lower (c : ascii) : ascii :=
  if ((65 <=? code c) && (code c <=? 90))%N then byte (code c + 32) else c.

Fixpoint lowerAll (s : string) : string :=
  match s with
  | EmptyString => EmptyString
  | String c r => String (lower c) (lowerAll r)
  end.

Definition isDash (c : option ascii) : bool :=
  match c with
  | Some c => (code c =? 45)%N
  | None => false
  end.

Definition dashed (s : string) : UUID * option error :=
  if negb (isDash (String.get 8 s) && isDash (String.get 13 s)
           && isDash (String.get 18 s) && isDash (String.get 23 s))
  then (0%N, Some "invalid UUID format")
  else
    match bytesAt s [0; 2; 4; 6; 9; 11; 14; 16; 19; 21; 24; 26; 28; 30; 32; 34]%nat 0%N with
    | Some u => (u, None)
    | None => (0%N, Some "invalid UUID format")
    end.

Definition Parse (s : string) : UUID * option error :=
  let len := String.length s in
  if (len =? 36)%nat then dashed s
  else if (len =? 45)%nat then
    if String.eqb (lowerAll (String.substring 0 9 s)) "urn:uuid:"
    then dashed (String.substring 9 36 s)
    else (0%N, Some ("invalid urn prefix: " +:+ dquote +:+ String.substring 0 9 s +:+ dquote))
  else if (len =? 38)%nat then dashed (String.substring 1 37 s)
  else if (len =? 32)%nat then
    match bytesAt s [0; 2; 4; 6; 8; 10; 12; 14; 16; 18; 20; 22; 24; 26; 28; 30]%nat 0%N with
    | Some u => (u, None)
    | None => (0%N, Some "invalid UUID format")
    end
  else (0%N, Some ("invalid UUID length: " +:+ strconv.Itoa (Z.of_nat len))).

End Uuid.

(** ** Storing decoded JSON into the structs of kwin.go *)
Module Decode.
Import Json.

Definition kind (v : value) : string :=
  match v with
  | JNull => "null"
  | JBool _ => "bool"
  | JNumber _ => "number"
  | JString _ => "string"
  | JArray _ => "array"
  | JObject _ => "object"
  end.

Definition typeError (what field gotype : string) : error :=
  "json: cannot unmarshal " +:+ what +:+ " into Go struct field " +:+ field
  +:+ " of type " +:+ gotype.

Definition first (e1 e2 : option error) : option error :=
  match e1 with
  | Some _ => e1
  | None => e2
  end.

Definition storeString (field : string) (v : value) (cur : string) : string * option error :=
  match v with
  | JString s => (s, None)
  | JNull => (cur, None)
  | _ => (cur, Some (typeError (kind v) field "string"))
  end.

Definition storeBool (field : string) (v : value) (cur : bool) : bool * option error :=
  match v with
  | JBool b => (b, None)
  | JNull => (cur, None)
  | _ => (cur, Some (typeError (kind v) field "bool"))
  end.

(** An [int] field takes a number literal that [strconv.ParseInt]
    accepts: digits only, within 64 bits. *)
Definition storeInt (field : string) (v : value) (cur : Z) : Z * option error :=
  match v with
  | JNumber lit =>
    match strconv.parseSigned lit with
    | Some z =>
      if (strconv.minInt <=? z) && (z <=? strconv.maxInt) then (z, None)
      else (cur, Some (typeError ("number " +:+ lit) field "int"))
    | None => (cur, Some (typeError ("number " +:+ lit) field "int"))
    end
  | JNull => (cur, None)
  | _ => (cur, Some (typeError (kind v) field "int"))
  end.

(** The rational a number literal denotes. *)
Definition decimal (lit : string) : option Q :=
  let '(neg, s) :=
    match lit with
    | String c r => if (code c =? 45)%N then (true, r) else (false, lit)
    | EmptyString => (false, lit)
    end in
  let '(int, s) := spanDigits s in
  let '(frac, s) :=
    match s with
    | String c r => if (code c =? 46)%N then spanDigits r else (EmptyString, s)
    | EmptyString => (EmptyString, s)
    end in
  exp ←
    match s with
    | String _ r => strconv.parseSigned r
    | EmptyString => Some 0
    end;
  m ← strconv.unsigned (int +:+ frac);
  let m := if neg then - m else m in
  let e := exp - Z.of_nat (String.length frac) in
  Some (Qred (if 0 <=? e then inject_Z (m * 10 ^ e)
              else Qmake m (Z.to_pos (10 ^ (- e))))).

(** Magnitudes from here on overflow binary64. *)
Definition overflow : Q := inject_Z (2 ^ 1024 - 2 ^ 970).

Definition storeFloat (field : string) (v : value) (cur : float64) : float64 * option error :=
  match v with
  | JNumber lit =>
    match decimal lit with
    | Some x =>
      if Qle_bool overflow (Qabs x)
      then (cur, Some (typeError ("number " +:+ lit) field "float64"))
      else (x, None)
    | None => (cur, Some (typeError ("number " +:+ lit) field "float64"))
    end
  | JNull => (cur, None)
  | _ => (cur, Some (typeError (kind v) field "float64"))
  end.

(** [uuid.UUID] decodes through its [UnmarshalText]. *)
Definition storeUUID (field : string) (v : value) (cur : UUID) : UUID * option error :=
  match v with
  | JString s =>
    match Uuid.Parse s with
    | (u, None) => (u, None)
    | (_, Some err) => (cur, Some err)
    end
  | JNull => (cur, None)
  | _ => (cur, Some (typeError (kind v) field "uuid.UUID"))
  end.

(** The elements of an array, each stored over the element the slice
    already has at that index, or over a zero value. *)
Fixpoint storeElements {T : Type} (store : value -> T -> T * option error) (zero : T)
    (vs : list value) (cur : list T) : list T * option error :=
  match vs with
  | [] => ([], None)
  | v :: vs' =>
    let '(x, e1) := store v (hd zero cur) in
    let '(xs, e2) := storeElements store zero vs' (tl cur) in
    (x :: xs, first e1 e2)
  end.

Definition storeSlice {T : Type} (store : value -> T -> T * option error) (zero : T)
    (field gotype : string) (v : value) (cur : list T) : list T * option error :=
  match v with
  | JArray vs => storeElements store zero vs cur
  | JNull => ([], None)
  | _ => (cur, Some (typeError (kind v) field gotype))
  end.

(** The members of an object, in order, each offered to [setField]. *)
Fixpoint storeMembers {T : Type} (setField : string -> value -> T -> T * option error)
    (ms : list (string * value)) (cur : T) : T * option error :=
  match ms with
  | [] => (cur, None)
  | (k, v) :: rest =>
    let '(cur, e1) := setField k v cur in
    let '(cur, e2) := storeMembers setField rest cur in
    (cur, first e1 e2)
  end.

Definition storeStruct {T : Type} (setField : string -> value -> T -> T * option error)
    (field gotype : string) (v : value) (cur : T) : T * option error :=
  match v with
  | JObject ms => storeMembers setField ms cur
  | JNull => (cur, None)
  | _ => (cur, Some (typeError (kind v) field gotype))
  end.

(** A key selects the field whose tag it equals up to ASCII case. *)
Definition named (k tag : string) : bool :=
  String.eqb (Uuid.lowerAll k) (Uuid.lowerAll tag).

Definition setPoint (k : string) (v : value) (p : Point) : Point * option error :=
  if named k "x" then
    let '(x, e) := storeInt "Point.x" v (Point_X p) in
    ({| Point_X := x; Point_Y := Point_Y p |}, e)
  else if named k "y" then
    let '(y, e) := storeInt "Point.y" v (Point_Y p) in
    ({| Point_X := Point_X p; Point_Y := y |}, e)
  else (p, None).

Definition setRect (k : string) (v : value) (r : Rect) : Rect * option error :=
  if named k "topLeft" then
    let '(p, e) := storeStruct setPoint "Rect.topLeft" "Point" v (TopLeft r) in
    ({| TopLeft := p; BottomRight := BottomRight r |}, e)
  else if named k "bottomRight" then
    let '(p, e) := storeStruct setPoint "Rect.bottomRight" "Point" v (BottomRight r) in
    ({| TopLeft := TopLeft r; BottomRight := p |}, e)
  else (r, None).

Definition setScreen (k : string) (v : value) (d : Screen) : Screen * option error :=
  let mk n g ma mo s p :=
    {| Screen_Name := n; Screen_Geometry := g; Screen_Manufacturer := ma;
       Screen_Model := mo; Screen_SerialNumber := s; Screen_PixelRatio := p |} in
  let '(Build_Screen n g ma mo s p) := d in
  if named k "name" then
    let '(x, e) := storeString "Screen.name" v n in (mk x g ma mo s p, e)
  else if named k "geometry" then
    let '(x, e) := storeStruct setRect "Screen.geometry" "Rect" v g in (mk n x ma mo s p, e)
  else if named k "manufacturer" then
    let '(x, e) := storeString "Screen.manufacturer" v ma in (mk n g x mo s p, e)
  else if named k "model" then
    let '(x, e) := storeString "Screen.model" v mo in (mk n g ma x s p, e)
  else if named k "serial" then
    let '(x, e) := storeString "Screen.serial" v s in (mk n g ma mo x p, e)
  else if named k "pixelRatio" then
    let '(x, e) := storeFloat "Screen.pixelRatio" v p in (mk n g ma mo s x, e)
  else (d, None).

Definition setDesktop (k : string) (v : value) (d : Desktop) : Desktop * option error :=
  let mk i ix n x :=
    {| Desktop_Id := i; Desktop_Index := ix; Desktop_Name := n; Desktop_X11Number := x |} in
  let '(Build_Desktop i ix n x) := d in
  if named k "id" then
    let '(y, e) := storeString "Desktop.id" v i in (mk y ix n x, e)
  else if named k "index" then
    let '(y, e) := storeInt "Desktop.index" v ix in (mk i y n x, e)
  else if named k "name" then
    let '(y, e) := storeString "Desktop.name" v n in (mk i ix y x, e)
  else if named k "x11Number" then
    let '(y, e) := storeInt "Desktop.x11Number" v x in (mk i ix n y, e)
  else (d, None).

Definition setWindow (k : string) (v : value) (d : Window) : Window * option error :=
  let '(Build_Window id ca pid cl an x y wi he fs oad ka kb mi dis ds da) := d in
  if named k "id" then
    let '(z, e) := storeString "Window.id" v id in
    (Build_Window z ca pid cl an x y wi he fs oad ka kb mi dis ds da, e)
  else if named k "caption" then
    let '(z, e) := storeString "Window.caption" v ca in
    (Build_Window id z pid cl an x y wi he fs oad ka kb mi dis ds da, e)
  else if named k "pid" then
    let '(z, e) := storeInt "Window.pid" v pid in
    (Build_Window id ca z cl an x y wi he fs oad ka kb mi dis ds da, e)
  else if named k "cmdline" then
    let '(z, e) := storeString "Window.cmdline" v cl in
    (Build_Window id ca pid z an x y wi he fs oad ka kb mi dis ds da, e)
  else if named k "appname" then
    let '(z, e) := storeString "Window.appname" v an in
    (Build_Window id ca pid cl z x y wi he fs oad ka kb mi dis ds da, e)
  else if named k "x" then
    let '(z, e) := storeFloat "Window.x" v x in
    (Build_Window id ca pid cl an z y wi he fs oad ka kb mi dis ds da, e)
  else if named k "y" then
    let '(z, e) := storeFloat "Window.y" v y in
    (Build_Window id ca pid cl an x z wi he fs oad ka kb mi dis ds da, e)
  else if named k "width" then
    let '(z, e) := storeFloat "Window.width" v wi in
    (Build_Window id ca pid cl an x y z he fs oad ka kb mi dis ds da, e)
  else if named k "height" then
    let '(z, e) := storeFloat "Window.height" v he in
    (Build_Window id ca pid cl an x y wi z fs oad ka kb mi dis ds da, e)
  else if named k "fullscreen" then
    let '(z, e) := storeBool "Window.fullscreen" v fs in
    (Build_Window id ca pid cl an x y wi he z oad ka kb mi dis ds da, e)
  else if named k "onAllDesktops" then
    let '(z, e) := storeBool "Window.onAllDesktops" v oad in
    (Build_Window id ca pid cl an x y wi he fs z ka kb mi dis ds da, e)
  else if named k "keepAbove" then
    let '(z, e) := storeBool "Window.keepAbove" v ka in
    (Build_Window id ca pid cl an x y wi he fs oad z kb mi dis ds da, e)
  else if named k "keepBelow" then
    let '(z, e) := storeBool "Window.keepBelow" v kb in
    (Build_Window id ca pid cl an x y wi he fs oad ka z mi dis ds da, e)
  else if named k "minimized" then
    let '(z, e) := storeBool "Window.minimized" v mi in
    (Build_Window id ca pid cl an x y wi he fs oad ka kb z dis ds da, e)
  else if named k "desktopIds" then
    let '(z, e) :=
      storeSlice (storeUUID "Window.desktopIds") 0%N
        "Window.desktopIds" "[]uuid.UUID" v dis in
    (Build_Window id ca pid cl an x y wi he fs oad ka kb mi z ds da, e)
  else if named k "desktops" then
    let '(z, e) :=
      storeSlice (storeStruct setDesktop "Window.desktops" "Desktop") zeroDesktop
        "Window.desktops" "[]Desktop" v ds in
    (Build_Window id ca pid cl an x y wi he fs oad ka kb mi dis z da, e)
  else if named k "demandsAttention" then
    let '(z, e) := storeBool "Window.demandsAttention" v da in
    (Build_Window id ca pid cl an x y wi he fs oad ka kb mi dis ds z, e)
  else (d, None).

(** [json.Unmarshal] into a struct. *)
Definition Unmarshal {T : Type} (setField : string -> value -> T -> T * option error)
    (gotype : string) (data : string) (cur : T) : T * option error :=
  match parse data with
  | None => (cur, Some "json: syntax error")
  | Some v =>
    match v with
    | JObject _ | JNull => storeStruct setField EmptyString gotype v cur
    | _ => (cur, Some ("json: cannot unmarshal " +:+ kind v
                       +:+ " into Go value of type " +:+ gotype))
    end
  end.

End Decode.

#[global] Instance unmarshalScreen : Unmarshaler Screen :=
  Decode.Unmarshal Decode.setScreen "go_kwin6.Screen".
#[global] Instance unmarshalDesktop : Unmarshaler Desktop :=
  Decode.Unmarshal Decode.setDesktop "go_kwin6.Desktop".
#[global] Instance unmarshalWindow : Unmarshaler Window :=
  Decode.Unmarshal Decode.setWindow "go_kwin6.Window".
#[global] Instance parseUUID : UUIDParser := Uuid.Parse.

(** ** A formatter for time.Time.Format

    Instants are nanoseconds since the Unix epoch, shown in UTC.  The one
    layout kwin.go uses, "2006-01-02 15:04:05.000000", is rendered for the
    years 0 to 9999; any other layout is returned as it is. *)
Module Clock.

(** [n] in decimal, padded with zeros to [width] digits. *)
Definition pad (width : nat) (n : Z) : string :=
  let s := strconv.Itoa n in
  concat_strings (replicate (width - String.length s) "0") +:+ s.

(** The civil date of a day number counted from 1970-01-01. *)
Definition civil (days : Z) : Z * Z * Z :=
  let z := days + 719468 in
  let era := z / 146097 in
  let doe := z - era * 146097 in
  let yoe := (doe - doe / 1460 + doe / 36524 - doe / 146096) / 365 in
  let doy := doe - (365 * yoe + yoe / 4 - yoe / 100) in
  let mp := (5 * doy + 2) / 153 in
  let d := doy - (153 * mp + 2) / 5 + 1 in
  let m := if mp <? 10 then mp + 3 else mp - 9 in
  let y := yoe + era * 400 + (if m <=? 2 then 1 else 0) in
  (y, m, d).

Definition Format (t : Time) (layout : string) : string :=
  if String.eqb layout "2006-01-02 15:04:05.000000" then
    let micros := t / 1000 in
    let secs := micros / 1000000 in
    let '(y, m, d) := civil (secs / 86400) in
    let sod := secs mod 86400 in
    pad 4 y +:+ "-" +:+ pad 2 m +:+ "-" +:+ pad 2 d +:+ " "
    +:+ pad 2 (sod / 3600) +:+ ":" +:+ pad 2 (sod mod 3600 / 60) +:+ ":"
    +:+ pad 2 (sod mod 60) +:+ "." +:+ pad 6 (micros mod 1000000)
  else layout.

End Clock.

#[global] Instance formatUTC : TimeFormatter := Clock.Format.

(** ** A scripted world

    A world that answers from a script: the child processes started one
    after the other behave as listed, the file operations succeed or fail
    as told, and every call to the outside takes [pace] nanoseconds. *)
Record Scripted : Type := {
  now : Time;
  pace : N;
  children : list Process;
  temp : string * option error;
  write_err : option error;
  chmod_err : option error;
  close_err : option error;
  remove_err : option error;
  procfs : string -> string * option error
}.

(** A child that ran to the end and printed [lines]. *)
Definition exited (lines : list string) : Process :=
  {| cmd_Err := None; StdoutPipe_err := None; StderrPipe_err := None;
     Start_err := None; stdout_lines := lines; stderr_lines := [];
     Wait_err := None |}.

(** A child that printed [out] and [err] and exited abnormally. *)
Definition crashed (out err : list string) (status : error) : Process :=
  {| cmd_Err := None; StdoutPipe_err := None; StderrPipe_err := None;
     Start_err := None; stdout_lines := out; stderr_lines := err;
     Wait_err := Some status |}.

(** A child that could not be started. *)
Definition unstarted (why : error) : Process :=
  {| cmd_Err := None; StdoutPipe_err := None; StderrPipe_err := None;
     Start_err := Some why; stdout_lines := []; stderr_lines := [];
     Wait_err := None |}.

Definition later (w : Scripted) (rest : list Process) : Scripted :=
  {| now := now w + Z.of_N (pace w); pace := pace w; children := rest;
     temp := temp w; write_err := write_err w; chmod_err := chmod_err w;
     close_err := close_err w; remove_err := remove_err w; procfs := procfs w |}.

Definition scripted (R : Type) (c : Cmd R) (w : Scripted) : R * Scripted :=
  match c in Cmd R return R * Scripted with
  | os_TempDir => ("/tmp", later w (children w))
  | os_CreateTemp _ _ => (temp w, later w (children w))
  | File_WriteString _ _ => (write_err w, later w (children w))
  | File_Close _ => (close_err w, later w (children w))
  | os_Chmod _ _ => (chmod_err w, later w (children w))
  | os_Remove _ => (remove_err w, later w (children w))
  | os_ReadFile name => (procfs w name, later w (children w))
  | exec_Command _ _ =>
    match children w with
    | p :: rest => (p, later w rest)
    | [] => (unstarted "fork/exec: resource temporarily unavailable", later w [])
    end
  | time_Now => (now w, later w (children w))
  | fmt_Print _ => (tt, later w (children w))
  end.

#[global] Instance Scripted_world : World Scripted :=
  {| handle := scripted; clock := now |}.

(** The reply of [dbus-send --print-reply] to [loadScript]: a header
    line and the registration number. *)
Definition loadReply (n : string) : list string :=
  ["method return time=1700000000.123456 sender=:1.22 -> destination=:1.901 serial=4711 reply_serial=2";
   "   int32 " +:+ n].

(** A session in which nothing fails: the temporary file is
    /tmp/kwin_script_1.js, the clock starts at [t0], and the children are
    [children]. *)
Definition session (t0 : Time) (children : list Process)
    (procfs : string -> string * option error) : Scripted :=
  {| now := t0; pace := 1000; children := children;
     temp := ("/tmp/kwin_script_1.js", None);
     write_err := None; chmod_err := None; close_err := None; remove_err := None;
     procfs := procfs |}.

Definition noProc (name : string) : string * option error :=
  (EmptyString, Some ("open " +:+ name +:+ ": no such file or directory")).

(** ** Vocabulary of the statements *)

(** What [callProgramAndReadOutput] makes of a child process. *)
Definition reading (P : Process) : Outcome (list string * option error) :=
  match cmd_Err P with
  | Some err => Returned ([], Some err)
  | None =>
    match StderrPipe_err P with
    | Some err => Returned ([], Some err)
    | None =>
      match Start_err P with
      | Some err => Returned ([], Some err)
      | None =>
        match StdoutPipe_err P with
        | Some _ =>
          Panicked "runtime error: invalid memory address or nil pointer dereference"
        | None =>
          match Wait_err P with
          | Some err => Returned ([], Some err)
          | None => Returned (stdout_lines P ++ stderr_lines P, None)
          end
        end
      end
    end
  end.

(** The child did not give a result with a nil error. *)
Definition failed (P : Process) : bool :=
  match reading P with
  | Returned (_, None) => false
  | _ => true
  end.

Definition isPrint (ev : Event) : bool :=
  match ev with
  | Ev c _ _ _ =>
    match c with
    | fmt_Print _ => true
    | _ => false
    end
  end.

(** The command is a [dbus-send] call of the given method. *)
Definition calls (method : string) {R : Type} (c : Cmd R) : bool :=
  match c with
  | exec_Command command args =>
    String.eqb command dbusSend
    && match args !! 3%nat with
       | Some m => String.eqb m method
       | None => false
       end
  | _ => false
  end.

(** The event is an occurrence of a command that satisfies [pc]. *)
Definition occurrence (pc : forall R : Type, Cmd R -> bool) (ev : Event) : bool :=
  match ev with
  | Ev c _ _ _ => pc _ c
  end.

Definition isCall (method : string) : Event -> bool :=
  occurrence (@calls method).

Definition isRun : Event -> bool := isCall "org.kde.kwin.Script.run".
Definition isStop : Event -> bool := isCall "org.kde.kwin.Script.stop".

(** The event is a run step that failed. *)
Definition failedRun (ev : Event) : bool :=
  isRun ev &&
  match ev with
  | Ev c r _ _ =>
    match c in Cmd R return R -> bool with
    | exec_Command _ _ => failed
    | _ => fun _ => false
    end r
  end.

(** The command writes the given scriptlet to a file. *)
Definition writesScript (script : string) {R : Type} (c : Cmd R) : bool :=
  match c with
  | File_WriteString _ s => String.eqb s script
  | _ => false
  end.

Definition writes (script : string) : Event -> bool :=
  occurrence (@writesScript script).

(** No command of the program, whatever the world answers, satisfies [pc]. *)
Fixpoint never (pc : forall R : Type, Cmd R -> bool) {A : Type} (p : Go A) : Prop :=
  match p with
  | Ret _ => True
  | Panic _ => True
  | Do c k => pc _ c = false /\ forall r, never pc (k r)
  end.

(** The command starts [journalctl]. *)
Definition journals {R : Type} (c : Cmd R) : bool :=
  match c with
  | exec_Command command _ => String.eqb command journalCtl
  | _ => false
  end.

Definition isJournal : Event -> bool := occurrence (@journals).

(** The child processes of the bridge. *)
Definition loadScriptArgs (scriptPath : string) : list string :=
  ["--print-reply"; "--dest=org.kde.KWin";
   "/Scripting"; "org.kde.kwin.Scripting.loadScript"; "string:" +:+ scriptPath].

Definition runStep (scriptNo : Z) : Cmd Process :=
  exec_Command dbusSend
    ["--print-reply"; "--dest=org.kde.KWin";
     fmt.Sprintf "/Scripting/Script%d" [fmt.AInt scriptNo];
     "org.kde.kwin.Script.run"].

Definition stopStep (scriptNo : Z) : Cmd Process :=
  exec_Command dbusSend
    ["--print-reply"; "--dest=org.kde.KWin";
     fmt.Sprintf "/Scripting/Script%d" [fmt.AInt scriptNo];
     "org.kde.kwin.Script.stop"].

Definition journalQuery `{TimeFormatter} (from to : Time) : Cmd Process :=
  exec_Command journalCtl
    (journalArgs (Time_Format from "2006-01-02 15:04:05.000000")
                 (Time_Format to "2006-01-02 15:04:05.000000")).

(** [window tr start end t_run t_stop]: in [tr] the clock is read
    ([start]), the run step is invoked (at [t_run]), the stop step
    completes (at [t_stop]), the clock is read again ([end]) and the
    journal is queried for [start, end], one right after the other. *)
Inductive window `{TimeFormatter} (tr : list Event)
    (start end_ t_run t_stop : Time) : Prop :=
| window_intro (pre post : list Event) (scriptNo : Z) (Prun Pstop PJ : Process)
    (a1 b1 t_run' t_stop0 a2 b2 j0 j1 : Time) :
    tr = pre
         ++ [Ev time_Now start a1 b1;
             Ev (runStep scriptNo) Prun t_run t_run';
             Ev (stopStep scriptNo) Pstop t_stop0 t_stop;
             Ev time_Now end_ a2 b2;
             Ev (journalQuery start end_) PJ j0 j1]
         ++ post ->
    window tr start end_ t_run t_stop.

(** The ordering of the journal window as the specification words it:
    [start <= end], start no earlier than the run invocation, end no
    earlier than the stop completion. *)
Definition spec_window_ordering `{TimeFormatter} (tr : list Event) : Prop :=
  forall start end_ t_run t_stop,
    window tr start end_ t_run t_stop ->
    start <= end_ /\ t_run <= start /\ t_stop <= end_.

(** A clock that never runs backwards: no call to the outside ends
    before it began, and a reading of the clock lies within the call that
    reads it. *)
Class MonotoneClock (W : Type) `{World W} : Prop := {
  clock_advances : forall (R : Type) (c : Cmd R) (w : W),
    clock w <= clock (handle R c w).2;
  now_within : forall w : W,
    clock w <= (handle Time time_Now w).1 <= clock (handle Time time_Now w).2
}.

(** The registration number a reply carries, as the specification
    words it: exactly two lines, the second of exactly two
    white-space-separated fields, the second field an integer. *)
Definition spec_registrationNumber (reply : list string) : option Z :=
  match reply with
  | [_; second] =>
    match strings.Fields second with
    | [_; number] =>
      match strconv.Atoi number with
      | (n, None) => Some n
      | (_, Some _) => None
      end
    | _ => None
    end
  | _ => None
  end.

(** The removal of the logging prefix, as the three loops write it. *)
Definition strip (s : string) : string := strings.ReplaceAll s "js: " EmptyString.

(** [sub] occurs somewhere in [s]. *)
Fixpoint occursIn (sub s : string) : bool :=
  String.prefix sub s
  || match s with
     | String _ r => occursIn sub r
     | EmptyString => false
     end.

(** The pseudo-file [getProcessCmdLine] reads. *)
Definition procFile (processId : Z) : Cmd (string * option error) :=
  os_ReadFile (fmt.Sprintf "/proc/%d/cmdline" [fmt.AInt processId]).

(** The Desktop a desktop id resolves to: the map's entry, or the zero
    value. *)
Definition resolve (desktops : gmap UUID Desktop) (id : UUID) : Desktop :=
  default zeroDesktop (desktops !! id).

(** [loadExecuteAndGetOutput] from the registration on: what it does
    once the scriptlet file is written and readable. *)
Definition registerRunStop `{TimeFormatter} (scriptFile : string) : Go (list string * option error) :=
  '(scriptNo, err) <- loadScript scriptFile;
  match err with
  | Some err =>
    Printf ("Error loading script: %v" +:+ nl) [fmt.AError err] ;;
    Ret ([], Some err)
  | None =>
    startTime <- call time_Now;
    err <- runScript scriptNo;
    match err with
    | Some err =>
      Printf ("Error running script: %v" +:+ nl) [fmt.AError err] ;;
      Ret ([], Some err)
    | None =>
      err <- stopScript scriptNo;
      endTime <- call time_Now;
      match err with
      | Some err =>
        Printf ("Error stopping script: %v" +:+ nl) [fmt.AError err] ;;
        Ret ([], Some err)
      | None =>
        '(journalOutput, err) <- getJournal startTime endTime;
        match err with
        | Some err =>
          Printf ("Error getting journal output: %v" +:+ nl) [fmt.AError err] ;;
          Ret ([], Some err)
        | None => Ret (journalOutput, None)
        end
      end
    end
  end.

(** The Desktops of a window are its desktop ids, resolved. *)
Definition resolved (desktops : gmap UUID Desktop) (win : Window) : Prop :=
  Window_Desktops win = map (resolve desktops) (Window_DesktopIds win).

(** ** The scriptlet of SetWindowDemandsAttention *)

(** The template of [SetWindowDemandsAttention], cut at its two [%s]. *)
Definition attention_head : string := q "
		windowId = '".

Definition attention_middle : string := q "';
		for (const window of workspace.windowList()) {
			var w = undefined;
			for (const window of workspace.windowList()) {
				wid = window.internalId.toString().replace(/{/, '').replace(/}/, '');
				if (wid === windowId) {
					w = window;
					break;
				}
			}
			if (w) {
				w.demandsAttention = ".

Definition attention_tail : string := q ";
			}
		}".

(** ** Sessions used to run the package *)

(** What the decoder makes of a journal line. *)
Definition decoded {T : Type} `{Unmarshaler T} (zero : T) (line : string) : T :=
  (json_Unmarshal (strip line) zero).1.

Definition t0 : Time := 1700000000000000000.

(** Nothing fails and the scriptlet prints nothing. *)
Definition quiet : Scripted :=
  session 1700000000000000000
    [exited (loadReply "7"); exited []; exited []; exited []] noProc.

(** Registration succeeds, the run step fails. *)
Definition runFails : Scripted :=
  session t0
    [exited (loadReply "7");
     crashed [] ["Error org.freedesktop.DBus.Error.UnknownObject: No such object path"]
       "exit status 1"]
    noProc.

(** The journal holds one desktop whose id is not a UUID. *)
Definition badDesktopLine : string :=
  q "js: {'id': 'not-a-uuid', 'index': 0, 'name': 'Main', 'x11Number': 1}".

Definition badDesktop : Scripted :=
  session t0 [exited (loadReply "7"); exited []; exited []; exited [badDesktopLine]]
    noProc.

(** /proc as seen by the sessions below: process 4242 is a konsole, and
    process 77 has an empty command line (a zombie). *)
Definition procTable (name : string) : string * option error :=
  if String.eqb name "/proc/4242/cmdline"
  then ("/usr/bin/konsole" +:+ nul +:+ "--profile" +:+ nul +:+ "Work" +:+ nul, None)
  else if String.eqb name "/proc/77/cmdline" then (EmptyString, None)
  else noProc name.

(** The journal holds one window whose id is not a UUID. *)
Definition badWindowLine : string :=
  q "js: {'id': 'window-1', 'caption': 'Konsole', 'pid': 4242, 'x': 10, 'y': 20.5, 'width': 800, 'height': 600, 'fullScreen': false, 'onAllDesktops': false, 'keepAbove': false, 'keepBelow': false, 'minimized': false, 'demandsAttention': false, 'desktopIds': []}".

Definition badWindow : Scripted :=
  session t0 [exited (loadReply "7"); exited []; exited []; exited [badWindowLine]]
    procTable.

(** The journal holds one window of an exited process. *)
Definition zombieLine : string :=
  q "js: {'id': '00000000-0000-0000-0000-00000000000c', 'caption': 'Gone', 'pid': 77, 'x': 0, 'y': 0, 'width': 1, 'height': 1, 'fullScreen': false, 'onAllDesktops': false, 'keepAbove': false, 'keepBelow': false, 'minimized': false, 'demandsAttention': false, 'desktopIds': []}".

Definition zombie : Scripted :=
  session t0 [exited (loadReply "7"); exited []; exited []; exited [zombieLine]]
    procTable.

(** The journal holds one window on the desktops [idA] and [idB]; the
    desktops map knows [idA] only. *)
Definition idA : UUID := 10%N.
Definition idB : UUID := 11%N.
Definition idC : UUID := 12%N.

Definition desktopA : Desktop :=
  {| Desktop_Id := "00000000-0000-0000-0000-00000000000a"; Desktop_Index := 0;
     Desktop_Name := "Main"; Desktop_X11Number := 1 |}.

Definition onlyA : gmap UUID Desktop := {[ idA := desktopA ]}.

Definition twoDesktopsLine : string :=
  q "js: {'id': '00000000-0000-0000-0000-00000000000c', 'caption': 'Konsole', 'pid': 4242, 'x': 10, 'y': 20.5, 'width': 800, 'height': 600, 'fullScreen': false, 'onAllDesktops': false, 'keepAbove': false, 'keepBelow': false, 'minimized': false, 'demandsAttention': false, 'desktopIds': ['00000000-0000-0000-0000-00000000000a','00000000-0000-0000-0000-00000000000b']}".

Definition twoDesktops : Scripted :=
  session t0 [exited (loadReply "7"); exited []; exited []; exited [twoDesktopsLine]]
    procTable.

Definition konsole : Window :=
  {| Window_Id := "00000000-0000-0000-0000-00000000000c"; Window_Caption := "Konsole";
     Window_Pid := 4242; Window_CmdLine := "/usr/bin/konsole"; Window_AppName := "konsole";
     Window_X := 10%Q; Window_Y := Qmake 41 2; Window_Width := 800%Q;
     Window_Height := 600%Q;
     Window_Fullscreen := false; Window_OnAllDesktops := false;
     Window_KeepAbove := false; Window_KeepBelow := false; Window_Minimized := false;
     Window_DesktopIds := [idA; idB]; Window_Desktops := [desktopA; zeroDesktop];
     Window_DemandsAttention := false |}.

(** Registration replies. *)
Definition registered : Scripted := session t0 [exited (loadReply "7")] noProc.

Definition threeFields : list string :=
  ["method return time=1700000000.123456 sender=:1.22 -> destination=:1.901 serial=4711 reply_serial=2";
   "   int32 7 8"].

Definition misregistered : Scripted := session t0 [exited threeFields] noProc.


(** The screens are read; the journal query of the desktops fails. *)
Definition screenLine : string :=
  q "js: {'name': 'DP-1','manufacturer': 'Dell','model': 'U2720Q','serial': 'ABC123','pixelRatio': 1.0,'geometry': {'topLeft': {'x':0,'y':0},'bottomRight': {'x':2560,'y':1440}}}".

Definition dp1 : Screen :=
  {| Screen_Name := "DP-1";
     Screen_Geometry :=
       {| TopLeft := {| Point_X := 0; Point_Y := 0 |};
          BottomRight := {| Point_X := 2560; Point_Y := 1440 |} |};
     Screen_Manufacturer := "Dell"; Screen_Model := "U2720Q";
     Screen_SerialNumber := "ABC123"; Screen_PixelRatio := 1%Q |}.

Definition desktopsFail : Scripted :=
  session t0
    [exited (loadReply "7"); exited []; exited []; exited [screenLine];
     exited (loadReply "8"); exited []; exited [];
     crashed [] ["Failed to open journal"] "exit status 1"]
    procTable.

(** ** Vocabulary of the further properties *)

(** The command is a [dbus-send] call, of any method. *)
Definition dbus {R : Type} (c : Cmd R) : bool :=
  match c with
  | exec_Command command _ => String.eqb command dbusSend
  | _ => false
  end.

Definition isDbus : Event -> bool := occurrence (@dbus).






(** The steps of a call of [loadExecuteAndGetOutput] in which nothing
    fails, up to the deferred clean-up: the scriptlet is written to the
    temporary file [f], made readable, registered as [scriptNo], run,
    stopped, and the journal is queried for the two clock readings. *)
Definition roundTrip `{TimeFormatter} (script dir f : string) (scriptNo : Z)
    (Pload Prun Pstop PJ : Process) (start end_ : Time) (t : nat -> Time)
  : list Event :=
  [Ev os_TempDir dir (t 0%nat) (t 1%nat);
   Ev (os_CreateTemp dir "kwin_script_*.js") (f, None) (t 1%nat) (t 2%nat);
   Ev (File_WriteString f script) None (t 2%nat) (t 3%nat);
   Ev (os_Chmod f 511) None (t 3%nat) (t 4%nat);
   Ev (exec_Command dbusSend (loadScriptArgs f)) Pload (t 4%nat) (t 5%nat);
   Ev time_Now start (t 5%nat) (t 6%nat);
   Ev (runStep scriptNo) Prun (t 6%nat) (t 7%nat);
   Ev (stopStep scriptNo) Pstop (t 7%nat) (t 8%nat);
   Ev time_Now end_ (t 8%nat) (t 9%nat);
   Ev (journalQuery start end_) PJ (t 9%nat) (t 10%nat)].

(** A child that gave its lines and a nil error. *)
Definition gave (P : Process) (lines : list string) : Prop :=
  reading P = Returned (lines, None).



(** [lifecycle tr scriptNo]: in [tr] the scriptlet is registered, the
    clock is read, the scriptlet is run and then stopped, one step right
    after the other, under the number the registration reply carries;
    these are the only calls of [dbus-send] in [tr]. *)
Inductive lifecycle (tr : list Event) (scriptNo : Z) : Prop :=
| lifecycle_intro (pre post : list Event) (scriptFile : string)
    (Pload Prun Pstop : Process) (start : Time) (a0 a1 a2 a3 a4 : Time) :
    tr = pre
         ++ [Ev (exec_Command dbusSend (loadScriptArgs scriptFile)) Pload a0 a1;
             Ev time_Now start a1 a2;
             Ev (runStep scriptNo) Prun a2 a3;
             Ev (stopStep scriptNo) Pstop a3 a4]
         ++ post ->
    spec_registrationNumber (stdout_lines Pload ++ stderr_lines Pload) = Some scriptNo ->
    failed Pload = false ->
    failed Prun = false ->
    existsb isDbus pre = false ->
    existsb isDbus post = false ->
    lifecycle tr scriptNo.

(** The byte [b] occurs in [s]. *)
Fixpoint hasByte (b : ascii) (s : string) : bool :=
  match s with
  | EmptyString => false
  | String c r => Ascii.eqb c b || hasByte b r
  end.

(** The application name [GetWindows] derives from a command line. *)
Definition appNameOf (cmdLine : string) : string :=
  strings.TrimSpace (List.last (strings.Split cmdLine "/") EmptyString).

(** What [GetWindows] makes of the decoded record [d] of a journal line,
    stored as [win] under [u]: [d] with CmdLine, AppName and Desktops
    set. *)
Definition finished `{UUIDParser} (desktops : option (gmap UUID Desktop)) (d : Window)
    (u : UUID) (win : Window) : Prop :=
  uuid_Parse (Window_Id d) = (u, None)
  /\ win = set_Desktops
             (set_AppName (set_CmdLine d (Window_CmdLine win))
                (appNameOf (Window_CmdLine win)))
             (match desktops with
              | Some ds => map (resolve ds) (Window_DesktopIds d)
              | None => Window_Desktops d
              end)
  /\ Window_CmdLine win <> EmptyString
  /\ hasByte " " (Window_CmdLine win) = false
  /\ hasByte (byte 0) (Window_CmdLine win) = false.





(** The texts written to the standard output during [tr], in order. *)
Definition printed (tr : list Event) : list string :=
  flat_map (fun ev =>
              match ev with
              | Ev c _ _ _ =>
                match c with
                | fmt_Print s => [s]
                | _ => []
                end
              end) tr.

(** A desktop id as an element of the list literal of
    [MoveWindowToDesktops]. *)
Definition quoted (d : Desktop) : string := dquote +:+ Desktop_Id d +:+ dquote.

(** The error of [Wait] of a child that was started with its two pipes;
    [None] for a child that was not, or that exited normally. *)
Definition exitError (P : Process) : option error :=
  match cmd_Err P, StderrPipe_err P, Start_err P, StdoutPipe_err P with
  | None, None, None, None => Wait_err P
  | _, _, _, _ => None
  end.

(** ** Further sessions *)

(** Nothing fails and the scriptlet prints one line. *)
Definition echoed : Scripted :=
  session t0 [exited (loadReply "7"); exited []; exited []; exited ["js: moved"]] noProc.

(** [dbus-send] gives a well-formed reply and a warning on its standard
    error. *)
Definition noisyReply : Process :=
  {| cmd_Err := None; StdoutPipe_err := None; StderrPipe_err := None;
     Start_err := None; stdout_lines := loadReply "7";
     stderr_lines := ["Failed to open connection to session bus"];
     Wait_err := None |}.

Definition noisy : Scripted := session t0 [noisyReply] noProc.

(** The journal holds two records of the screen DP-1: a stale one, then
    [screenLine]. *)
Definition staleScreenLine : string :=
  q "js: {'name': 'DP-1','manufacturer': 'Dell','model': 'P2419H','serial': 'OLD000','pixelRatio': 1.0,'geometry': {'topLeft': {'x':0,'y':0},'bottomRight': {'x':1920,'y':1080}}}".

Definition rescanned : Scripted :=
  session t0
    [exited (loadReply "7"); exited []; exited [];
     exited [staleScreenLine; screenLine]]
    noProc.

(** The journal holds the desktop [desktopA]. *)
Definition desktopALine : string :=
  q "js: {'id': '00000000-0000-0000-0000-00000000000a', 'index': 0, 'name': 'Main', 'x11Number': 1}".

Definition oneDesktop : Scripted :=
  session t0 [exited (loadReply "7"); exited []; exited []; exited [desktopALine]]
    noProc.

(** A whole snapshot: one screen, one desktop, and one window on that
    desktop and on another that is gone. *)
Definition workstation : Scripted :=
  session t0
    [exited (loadReply "7"); exited []; exited []; exited [screenLine];
     exited (loadReply "8"); exited []; exited []; exited [desktopALine];
     exited (loadReply "9"); exited []; exited []; exited [twoDesktopsLine]]
    procTable.

(** The journal holds a window whose process has exited since. *)
Definition vanished : Scripted :=
  session t0 [exited (loadReply "7"); exited []; exited []; exited [twoDesktopsLine]]
    noProc.



(** The journal holds the screen DP-1 and a record cut short. *)
Definition cutLine : string := q "js: {'name': 'DP-".

Definition cutShort : Scripted :=
  session t0
    [exited (loadReply "7"); exited []; exited []; exited [screenLine; cutLine]]
    noProc.

(** A read of the command line of the process [processId] in [tr]
    returned a content whose first word is [cmdLine]. *)
Definition readFrom {W : Type} `{World W} (tr : list Event) (processId : Z)
    (cmdLine : string) : Prop :=
  exists content fields t t',
    Ev (procFile processId) (content, None) t t' ∈ tr
    /\ strings.Fields (strings.TrimSpace (strings.ReplaceAll content nul space))
       = cmdLine :: fields.

(** The journal holds a screen whose name starts with the logging
    prefix, and a record without the prefix. *)
Definition prefixedNameLine : string := q "js: {'name': 'js: DP-1'}".
Definition barePrefixLine : string := q "{'name': 'HDMI-1'}".

Definition prefixes : Scripted :=
  session t0
    [exited (loadReply "7"); exited []; exited [];
     exited [prefixedNameLine; barePrefixLine]]
    noProc.

(** A screen of which only the name is known. *)
Definition screenNamed (name : string) : Screen :=
  {| Screen_Name := name; Screen_Geometry := zeroRect;
     Screen_Manufacturer := EmptyString; Screen_Model := EmptyString;
     Screen_SerialNumber := EmptyString; Screen_PixelRatio := 0%Q |}.

(** * Properties *)

(** ** Running sequences and deferred calls *)
Section RunLemmas.
Context {W : Type} `{World W}.

Lemma run_bind {A B : Type} (m : Go A) (f : A -> Go B) (w : W) :
  run (bind m f) w =
  match run m w with
  | (tr1, w1, Returned a) =>
    let '(tr2, w2, o2) := run (f a) w1 in (tr1 ++ tr2, w2, o2)
  | (tr1, w1, Panicked msg) => (tr1, w1, Panicked msg)
  end.
Proof.
  revert w. induction m as [a | msg | R c k IH]; intros w; simpl.
  - destruct (run (f a) w) as [[tr2 w2] o2]. reflexivity.
  - reflexivity.
  - destruct (handle R c w) as [r w']. rewrite IH.
    destruct (run (k r) w') as [[tr1 w1] [a | msg]].
    + destruct (run (f a) w1) as [[tr2 w2] o2]. reflexivity.
    + reflexivity.
Qed.

Lemma outcome_bind {A B : Type} (m : Go A) (f : A -> Go B) (w : W) :
  outcome (bind m f) w =
  match outcome m w with
  | Returned a => outcome (f a) (final m w)
  | Panicked msg => Panicked msg
  end.
Proof.
  unfold outcome, final. rewrite run_bind.
  destruct (run m w) as [[tr1 w1] [a | msg]]; simpl; [| reflexivity].
  destruct (run (f a) w1) as [[tr2 w2] o2]. reflexivity.
Qed.

Lemma trace_bind {A B : Type} (m : Go A) (f : A -> Go B) (w : W) :
  trace (bind m f) w =
  trace m w ++
  match outcome m w with
  | Returned a => trace (f a) (final m w)
  | Panicked _ => []
  end.
Proof.
  unfold trace, outcome, final. rewrite run_bind.
  destruct (run m w) as [[tr1 w1] [a | msg]]; simpl.
  - destruct (run (f a) w1) as [[tr2 w2] o2]. reflexivity.
  - symmetry. apply app_nil_r.
Qed.

Lemma final_bind {A B : Type} (m : Go A) (f : A -> Go B) (w : W) :
  final (bind m f) w =
  match outcome m w with
  | Returned a => final (f a) (final m w)
  | Panicked _ => final m w
  end.
Proof.
  unfold outcome, final. rewrite run_bind.
  destruct (run m w) as [[tr1 w1] [a | msg]]; simpl; [| reflexivity].
  destruct (run (f a) w1) as [[tr2 w2] o2]. reflexivity.
Qed.

(** A deferred call runs after the body, whatever the body did; when it
    returns, the outcome is the body's. *)
Lemma run_with_defer {A : Type} (deferred : Go unit) (body : Go A) (w : W) :
  run (with_defer deferred body) w =
  let '(tr1, w1, o1) := run body w in
  let '(tr2, w2, o2) := run deferred w1 in
  (tr1 ++ tr2, w2,
   match o2 with
   | Returned _ => o1
   | Panicked msg => Panicked msg
   end).
Proof.
  revert w. induction body as [a | msg | R c k IH]; intros w; simpl.
  - rewrite run_bind.
    destruct (run deferred w) as [[tr2 w2] [[] | msg]]; simpl;
      rewrite ?app_nil_r; reflexivity.
  - rewrite run_bind.
    destruct (run deferred w) as [[tr2 w2] [[] | msg']]; simpl;
      rewrite ?app_nil_r; reflexivity.
  - destruct (handle R c w) as [r w']. rewrite IH.
    destruct (run (k r) w') as [[tr1 w1] o1].
    destruct (run deferred w1) as [[tr2 w2] o2]. reflexivity.
Qed.

Lemma trace_Do {A R : Type} (c : Cmd R) (k : R -> Go A) (w : W) :
  trace (Do c k) w
  = Ev c (handle R c w).1 (clock w) (clock (handle R c w).2)
    :: trace (k (handle R c w).1) (handle R c w).2.
Proof.
  unfold trace. simpl. destruct (handle R c w) as [r w']. simpl.
  destruct (run (k r) w') as [[tr w''] o]. reflexivity.
Qed.

Lemma outcome_Do {A R : Type} (c : Cmd R) (k : R -> Go A) (w : W) :
  outcome (Do c k) w = outcome (k (handle R c w).1) (handle R c w).2.
Proof.
  unfold outcome. simpl. destruct (handle R c w) as [r w']. simpl.
  destruct (run (k r) w') as [[tr w''] o]. reflexivity.
Qed.

Lemma final_Do {A R : Type} (c : Cmd R) (k : R -> Go A) (w : W) :
  final (Do c k) w = final (k (handle R c w).1) (handle R c w).2.
Proof.
  unfold final. simpl. destruct (handle R c w) as [r w']. simpl.
  destruct (run (k r) w') as [[tr w''] o]. reflexivity.
Qed.

Lemma trace_with_defer {A : Type} (deferred : Go unit) (body : Go A) (w : W) :
  trace (with_defer deferred body) w
  = trace body w ++ trace deferred (final body w).
Proof.
  unfold trace, final. rewrite run_with_defer.
  destruct (run body w) as [[tr1 w1] o1]. simpl.
  destruct (run deferred w1) as [[tr2 w2] o2]. reflexivity.
Qed.

Lemma outcome_with_defer {A : Type} (deferred : Go unit) (body : Go A) (w : W) :
  outcome (with_defer deferred body) w
  = match outcome deferred (final body w) with
    | Returned _ => outcome body w
    | Panicked msg => Panicked msg
    end.
Proof.
  unfold outcome, final. rewrite run_with_defer.
  destruct (run body w) as [[tr1 w1] o1]. simpl.
  destruct (run deferred w1) as [[tr2 w2] o2]. reflexivity.
Qed.

Lemma final_with_defer {A : Type} (deferred : Go unit) (body : Go A) (w : W) :
  final (with_defer deferred body) w = final deferred (final body w).
Proof.
  unfold final. rewrite run_with_defer.
  destruct (run body w) as [[tr1 w1] o1]. simpl.
  destruct (run deferred w1) as [[tr2 w2] o2]. reflexivity.
Qed.

Lemma trace_call {A R : Type} (c : Cmd R) (k : R -> Go A) (w : W) :
  trace (bind (call c) k) w
  = Ev c (handle R c w).1 (clock w) (clock (handle R c w).2)
    :: trace (k (handle R c w).1) (handle R c w).2.
Proof. exact (trace_Do c k w). Qed.

Lemma outcome_call {A R : Type} (c : Cmd R) (k : R -> Go A) (w : W) :
  outcome (bind (call c) k) w = outcome (k (handle R c w).1) (handle R c w).2.
Proof. exact (outcome_Do c k w). Qed.

Lemma final_call {A R : Type} (c : Cmd R) (k : R -> Go A) (w : W) :
  final (bind (call c) k) w = final (k (handle R c w).1) (handle R c w).2.
Proof. exact (final_Do c k w). Qed.

End RunLemmas.

(** ** Commands a program never issues *)
Section Never.
Context {W : Type} `{World W}.
Variable pc : forall R : Type, Cmd R -> bool.

Lemma never_bind {A B : Type} (m : Go A) (f : A -> Go B) :
  never pc m -> (forall a, never pc (f a)) -> never pc (bind m f).
Proof.
  intros Hm Hf. induction m as [a | msg | R c k IH]; simpl in *.
  - apply Hf.
  - exact I.
  - destruct Hm as [Hc Hk]. split; [exact Hc |]. intros r. apply IH, Hk.
Qed.

Lemma never_with_defer {A : Type} (deferred : Go unit) (body : Go A) :
  never pc deferred -> never pc body -> never pc (with_defer deferred body).
Proof.
  intros Hd Hb. induction body as [a | msg | R c k IH]; simpl in *.
  - apply never_bind; [exact Hd | intros; exact I].
  - apply never_bind; [exact Hd | intros; exact I].
  - destruct Hb as [Hc Hk]. split; [exact Hc |]. intros r. apply IH, Hk.
Qed.

Lemma never_trace {A : Type} (p : Go A) (w : W) :
  never pc p -> existsb (occurrence pc) (trace p w) = false.
Proof.
  unfold trace. revert w.
  induction p as [a | msg | R c k IH]; intros w Hp; simpl in *; try reflexivity.
  destruct Hp as [Hc Hk]. destruct (handle R c w) as [r w'].
  specialize (IH r w' (Hk r)). destruct (run (k r) w') as [[tr w''] o].
  simpl in *. rewrite Hc, IH. reflexivity.
Qed.

End Never.

(** One step of a proof that a program never issues a command. *)
Ltac never_step :=
  lazymatch goal with
  | |- True => exact I
  | |- never _ (bind _ _) => apply never_bind; [| intros ?]
  | |- never _ (with_defer _ _) => apply never_with_defer
  | |- never _ (Do _ _) => split; [reflexivity | intros ?]
  | |- never _ (call _) => unfold call
  | |- never _ (Printf _ _) => unfold Printf
  | |- never _ (Ret _) => exact I
  | |- never _ (Panic _) => exact I
  | |- never _ (index _ _) => unfold index
  | |- never _ (assign _ _ _) => unfold assign
  | |- never _ (match ?x with _ => _ end) => destruct x
  | |- never _ (if ?x then _ else _) => destruct x
  | |- never _ (let '(_, _) := ?x in _) => destruct x
  end.

Section NeverPackage.
Context `{UUIDParser} `{TimeFormatter}.
Context `{Unmarshaler Screen} `{Unmarshaler Desktop} `{Unmarshaler Window}.
Variable pc : forall R : Type, Cmd R -> bool.
Hypothesis pc_print : forall s, pc _ (fmt_Print s) = false.

Lemma never_Printf {format args} : never pc (Printf format args).
Proof. simpl. split; [apply pc_print | intros; exact I]. Qed.

Lemma never_printLines (l : list string) : never pc (printLines l).
Proof.
  induction l as [| s l IH]; simpl; [exact I |].
  split; [apply pc_print | intros; exact IH].
Qed.

Lemma never_printOutput (l : list string) : never pc (printOutput l).
Proof.
  induction l as [| s l IH]; simpl; [exact I |].
  split; [apply pc_print | intros; exact IH].
Qed.

Lemma never_callProgram (command : string) (args : list string) :
  pc _ (exec_Command command args) = false ->
  never pc (callProgramAndReadOutput command args).
Proof.
  intros Hc. unfold callProgramAndReadOutput.
  apply never_bind; [simpl; split; [exact Hc | intros; exact I] |].
  intros P. repeat first [apply never_Printf | apply never_printLines | never_step].
Qed.

End NeverPackage.

(** The same, through the functions of the package. *)
Ltac never_pkg :=
  repeat first
    [ apply never_callProgram; [intros; reflexivity | reflexivity]
    | apply never_printLines; intros; reflexivity
    | apply never_printOutput; intros; reflexivity
    | progress unfold loadExecuteAndGetOutput, registerRunStop, closeAndRemove,
        loadScript, runScript, stopScript, getJournal, callDbusSend,
        getProcessCmdLine, uuid_MustParse
    | never_step ].

(** ** The steps of the bridge *)
Section Bridge.
Context {W : Type} `{World W} `{TimeFormatter}.

Lemma run_printLines (l : list string) (w : W) :
  exists tr w', run (printLines l) w = (tr, w', Returned tt)
                /\ forallb isPrint tr = true.
Proof.
  revert w. induction l as [| s l IH]; intros w; simpl.
  - eauto.
  - destruct (handle _ _ w) as [[] w1].
    destruct (IH w1) as (tr & w' & Hrun & Hpr).
    change (bind (Ret ()) (fun _ => printLines l)) with (printLines l).
    rewrite Hrun. eauto.
Qed.

(** [callProgramAndReadOutput] starts one child, prints only when the
    child failed, and gives [reading] of what it observed. *)
Lemma run_callProgram (command : string) (args : list string) (w : W) :
  exists tr w2,
    run (callProgramAndReadOutput command args) w
    = (Ev (exec_Command command args) (handle _ (exec_Command command args) w).1
          (clock w) (clock (handle _ (exec_Command command args) w).2) :: tr,
       w2, reading (handle _ (exec_Command command args) w).1)
    /\ forallb isPrint tr = true
    /\ (failed (handle _ (exec_Command command args) w).1 = false ->
        tr = [] /\ w2 = (handle _ (exec_Command command args) w).2).
Proof.
  unfold callProgramAndReadOutput, failed, reading. simpl.
  destruct (handle _ _ w) as [P w1]. simpl.
  destruct (cmd_Err P); [simpl; eauto 10 |].
  destruct (StderrPipe_err P); [simpl; eauto 10 |].
  destruct (Start_err P); [simpl; eauto 10 |].
  destruct (StdoutPipe_err P); [simpl; eauto 10 |].
  destruct (Wait_err P); [| simpl; eauto 10].
  simpl. destruct (handle _ _ w1) as [[] w2]. rewrite run_bind.
  destruct (run_printLines (stdout_lines P ++ stderr_lines P) w2)
    as (tr & w3 & -> & Hpr).
  simpl. rewrite app_nil_r. eexists _, _. split; [reflexivity |].
  split; [exact Hpr | discriminate].
Qed.

Lemma outcome_callProgram (command : string) (args : list string) (w : W) :
  outcome (callProgramAndReadOutput command args) w
  = reading (handle _ (exec_Command command args) w).1.
Proof.
  unfold outcome.
  destruct (run_callProgram command args w) as (tr & w2 & -> & _). reflexivity.
Qed.

Lemma never_loadScript (method : string) (scriptPath : string) :
  method = "org.kde.kwin.Script.run" \/ method = "org.kde.kwin.Script.stop" ->
  never (@calls method) (loadScript scriptPath).
Proof.
  intros Hm. unfold loadScript, callDbusSend.
  apply never_bind.
  - apply never_callProgram; [reflexivity |]. destruct Hm as [-> | ->]; reflexivity.
  - intros [output err]. repeat never_step.
Qed.

Lemma never_runScript (scriptNo : Z) :
  never (@calls "org.kde.kwin.Script.stop") (runScript scriptNo).
Proof.
  unfold runScript, callDbusSend.
  apply never_bind.
  - apply never_callProgram; reflexivity.
  - intros [output err]. repeat never_step.
Qed.

Lemma never_stopScript (scriptNo : Z) :
  never (@calls "org.kde.kwin.Script.run") (stopScript scriptNo).
Proof.
  unfold stopScript, callDbusSend.
  apply never_bind.
  - apply never_callProgram; reflexivity.
  - intros [output err]. repeat never_step.
Qed.

Lemma never_getJournal (method : string) (from to : Time) :
  never (@calls method) (getJournal from to).
Proof.
  unfold getJournal. apply never_bind.
  - apply never_callProgram; reflexivity.
  - intros [output err]. repeat never_step.
Qed.

Lemma never_closeAndRemove (method : string) (scriptFile : string) :
  never (@calls method) (closeAndRemove scriptFile).
Proof. unfold closeAndRemove. repeat never_step. Qed.

(** A run step that gave a nil error is not a failed run. *)
Lemma runScript_ok (scriptNo : Z) (w : W) :
  outcome (runScript scriptNo) w = Returned None ->
  existsb failedRun (trace (runScript scriptNo) w) = false.
Proof.
  unfold runScript, callDbusSend, outcome, trace. rewrite run_bind.
  match goal with
  | |- context [callProgramAndReadOutput ?c ?a] =>
    destruct (run_callProgram c a w) as (tr & w2 & -> & Hpr & _);
    generalize (handle _ (exec_Command c a) w).2;
    generalize (handle _ (exec_Command c a) w).1
  end.
  intros P w1.
  destruct (reading P) as [[out [err |]] | msg] eqn:HP;
    cbn -[existsb failedRun]; try discriminate.
  intros _. rewrite app_nil_r.
  match goal with
  | |- existsb failedRun (?ev :: _) = false =>
    assert (Hev : failedRun ev = false)
      by (unfold failedRun, failed; rewrite HP; apply andb_false_r)
  end.
  cbn [existsb]. rewrite Hev. clear Hev. simpl.
  induction tr as [| [R c r t t'] tr IH]; simpl in *; [reflexivity |].
  apply andb_prop in Hpr as [Hc Hpr]. rewrite (IH Hpr), orb_false_r.
  unfold failedRun, isRun, isCall. simpl. destruct c; try discriminate; reflexivity.
Qed.

Lemma failedRun_isRun (tr : list Event) :
  existsb isRun tr = false -> existsb failedRun tr = false.
Proof.
  induction tr as [| ev tr IH]; simpl; [reflexivity |].
  intros Hx. apply orb_false_elim in Hx as [Hev Htr].
  unfold failedRun at 1. rewrite Hev, (IH Htr). reflexivity.
Qed.

Lemma no_run {A : Type} (p : Go A) (w : W) :
  never (@calls "org.kde.kwin.Script.run") p ->
  existsb failedRun (trace p w) = false.
Proof. intros Hp. apply failedRun_isRun, never_trace, Hp. Qed.

Lemma no_stop {A : Type} (p : Go A) (w : W) :
  never (@calls "org.kde.kwin.Script.stop") p ->
  existsb isStop (trace p w) = false.
Proof. intros Hp. apply never_trace, Hp. Qed.

Lemma registerRunStop_run_failure (scriptFile : string) (w : W) :
  existsb failedRun (trace (registerRunStop scriptFile) w) = true ->
  existsb isStop (trace (registerRunStop scriptFile) w) = false
  /\ forall lines, outcome (registerRunStop scriptFile) w <> Returned (lines, None).
Proof.
  unfold registerRunStop.
  rewrite trace_bind, outcome_bind, !existsb_app.
  rewrite (no_run (loadScript scriptFile)), (no_stop (loadScript scriptFile))
    by (apply never_loadScript; auto).
  destruct (outcome (loadScript scriptFile) w) as [[scriptNo [err |]] | msg];
    [rewrite no_run by never_pkg; discriminate | | discriminate].
  rewrite trace_call, outcome_call.
  destruct (handle Time time_Now (final (loadScript scriptFile) w)) as [start w1].
  cbn [fst snd].
  rewrite trace_bind, outcome_bind. cbn [existsb]. rewrite !existsb_app.
  rewrite (no_stop (runScript scriptNo)) by apply never_runScript.
  change (failedRun (Ev time_Now start (clock (final (loadScript scriptFile) w))
                       (clock w1))) with false.
  change (isStop (Ev time_Now start (clock (final (loadScript scriptFile) w))
                    (clock w1))) with false.
  cbn [orb].
  destruct (outcome (runScript scriptNo) w1) as [[err |] | msg] eqn:Hrun.
  - intros _. rewrite no_stop by never_pkg.
    split; [reflexivity |]. intros lines.
    unfold Printf. rewrite outcome_call. discriminate.
  - rewrite (runScript_ok _ _ Hrun). cbn [orb].
    rewrite no_run; [discriminate | never_pkg].
  - intros _. split; [reflexivity | discriminate].
Qed.

End Bridge.

Section Bridge2.
Context {W : Type} `{World W} `{TimeFormatter}.

(** The deferred function never panics. *)
Lemma outcome_closeAndRemove (scriptFile : string) (w : W) :
  outcome (closeAndRemove scriptFile) w = Returned tt.
Proof.
  unfold closeAndRemove. rewrite outcome_call.
  destruct (handle _ _ w) as [[err |] w1]; cbn [fst snd].
  - unfold Printf, call. rewrite outcome_Do.
    destruct (handle _ _ w1) as [[] w2]. reflexivity.
  - rewrite outcome_call. destruct (handle _ _ w1) as [[err |] w2]; cbn [fst snd].
    + unfold Printf, call. rewrite outcome_Do.
      destruct (handle _ _ w2) as [[] w3]. reflexivity.
    + reflexivity.
Qed.

(** C1. In every execution of [loadExecuteAndGetOutput] in which the
    run step fails, no stop step is attempted: the function returns
    (with an error, or panics) and leaves the scriptlet registered.
    That stop is always attempted after a registration, as the
    specification has it, fails on this path. *)
Theorem run_failure_leaves_script_registered (w : W) (script : string) :
  existsb failedRun (trace (loadExecuteAndGetOutput script) w) = true ->
  existsb isStop (trace (loadExecuteAndGetOutput script) w) = false
  /\ forall lines, outcome (loadExecuteAndGetOutput script) w <> Returned (lines, None).
Proof.
  unfold loadExecuteAndGetOutput.
  rewrite !trace_call, !outcome_call.
  destruct (handle _ os_TempDir w) as [dir w1]. cbn [fst snd].
  destruct (handle _ (os_CreateTemp dir "kwin_script_*.js") w1)
    as [[scriptFile [err |]] w2]; cbn [fst snd]; [discriminate |].
  rewrite trace_with_defer, outcome_with_defer, outcome_closeAndRemove.
  rewrite !trace_call, !outcome_call, !final_call.
  destruct (handle _ (File_WriteString scriptFile script) w2) as [[err |] w3];
    cbn [fst snd].
  { cbn [existsb app]. rewrite existsb_app, !no_run;
      [discriminate | never_pkg | never_pkg]. }
  rewrite !trace_call, !outcome_call, !final_call.
  destruct (handle _ (os_Chmod scriptFile 511) w3) as [[err |] w4]; cbn [fst snd].
  { cbn [existsb app]. rewrite existsb_app, !no_run;
      [discriminate | never_pkg | never_pkg]. }
  cbn [existsb app]. rewrite !existsb_app.
  rewrite (no_run (closeAndRemove scriptFile)), (no_stop (closeAndRemove scriptFile))
    by apply never_closeAndRemove.
  rewrite !orb_false_r.
  change (failedRun (Ev os_TempDir dir (clock w) (clock w1))) with false.
  change (isStop (Ev os_TempDir dir (clock w) (clock w1))) with false.
  cbn [orb].
  apply registerRunStop_run_failure.
Qed.

End Bridge2.

Section Window.
Context {W : Type} `{World W} `{TimeFormatter}.

Lemma failed_false (P : Process) :
  failed P = false -> exists lines, reading P = Returned (lines, None).
Proof.
  unfold failed. destruct (reading P) as [[lines [err |]] | msg]; try discriminate.
  eauto.
Qed.

(** A step that gave a nil error started one child and did nothing
    else. *)
Lemma run_callProgram_ok (command : string) (args : list string) (w : W)
    (lines : list string) :
  outcome (callProgramAndReadOutput command args) w = Returned (lines, None) ->
  run (callProgramAndReadOutput command args) w
  = ([Ev (exec_Command command args) (handle _ (exec_Command command args) w).1
         (clock w) (clock (handle _ (exec_Command command args) w).2)],
     (handle _ (exec_Command command args) w).2, Returned (lines, None)).
Proof.
  rewrite outcome_callProgram. intros HP.
  destruct (run_callProgram command args w) as (tr & w2 & -> & _ & Hok).
  destruct Hok as [-> ->]; [unfold failed; rewrite HP; reflexivity |].
  rewrite HP. reflexivity.
Qed.

Lemma run_runScript_ok (scriptNo : Z) (w : W) :
  outcome (runScript scriptNo) w = Returned None ->
  run (runScript scriptNo) w
  = ([Ev (runStep scriptNo) (handle _ (runStep scriptNo) w).1
         (clock w) (clock (handle _ (runStep scriptNo) w).2)],
     (handle _ (runStep scriptNo) w).2, Returned None).
Proof.
  unfold runScript, callDbusSend. rewrite outcome_bind, run_bind.
  fold (runStep scriptNo).
  match goal with
  | |- context [callProgramAndReadOutput ?c ?a] =>
    destruct (outcome (callProgramAndReadOutput c a) w)
      as [[lines [err |]] | msg] eqn:Hcall; try discriminate;
    rewrite (run_callProgram_ok c a w lines Hcall)
  end.
  intros _. reflexivity.
Qed.

Lemma run_stopScript_ok (scriptNo : Z) (w : W) :
  outcome (stopScript scriptNo) w = Returned None ->
  run (stopScript scriptNo) w
  = ([Ev (stopStep scriptNo) (handle _ (stopStep scriptNo) w).1
         (clock w) (clock (handle _ (stopStep scriptNo) w).2)],
     (handle _ (stopStep scriptNo) w).2, Returned None).
Proof.
  unfold stopScript, callDbusSend. rewrite outcome_bind, run_bind.
  fold (stopStep scriptNo).
  match goal with
  | |- context [callProgramAndReadOutput ?c ?a] =>
    destruct (outcome (callProgramAndReadOutput c a) w)
      as [[lines [err |]] | msg] eqn:Hcall; try discriminate;
    rewrite (run_callProgram_ok c a w lines Hcall)
  end.
  intros _. reflexivity.
Qed.

Lemma trace_getJournal (from to : Time) (w : W) :
  exists tr,
    trace (getJournal from to) w
    = Ev (journalQuery from to) (handle _ (journalQuery from to) w).1
         (clock w) (clock (handle _ (journalQuery from to) w).2) :: tr.
Proof.
  unfold getJournal, trace. rewrite run_bind. fold (journalQuery from to).
  match goal with
  | |- context [callProgramAndReadOutput ?c ?a] =>
    destruct (run_callProgram c a w) as (tr & w2 & -> & _)
  end.
  unfold journalQuery.
  destruct (reading _) as [[lines [err |]] | msg]; simpl; eauto.
Qed.

Lemma no_journal {A : Type} (p : Go A) (w : W) :
  never (@journals) p -> existsb isJournal (trace p w) = false.
Proof. intros Hp. apply never_trace, Hp. Qed.

Lemma window_shift (tr : list Event) (pre post : list Event)
    (start end_ t_run t_stop : Time) :
  window tr start end_ t_run t_stop ->
  window (pre ++ tr ++ post) start end_ t_run t_stop.
Proof.
  intros [pre' post' n Prun Pstop PJ a1 b1 t_run' t_stop0 a2 b2 j0 j1 ->].
  eapply (window_intro _ _ _ _ _ (pre ++ pre') (post' ++ post)).
  rewrite <- !app_assoc. reflexivity.
Qed.

Context `{!MonotoneClock W}.

Lemma trace_runScript_ok (scriptNo : Z) (w : W) :
  outcome (runScript scriptNo) w = Returned None ->
  trace (runScript scriptNo) w
  = [Ev (runStep scriptNo) (handle _ (runStep scriptNo) w).1
        (clock w) (clock (handle _ (runStep scriptNo) w).2)]
  /\ final (runScript scriptNo) w = (handle _ (runStep scriptNo) w).2.
Proof.
  intros Hrun. unfold trace, final. rewrite (run_runScript_ok _ _ Hrun). auto.
Qed.

Lemma trace_stopScript_ok (scriptNo : Z) (w : W) :
  outcome (stopScript scriptNo) w = Returned None ->
  trace (stopScript scriptNo) w
  = [Ev (stopStep scriptNo) (handle _ (stopStep scriptNo) w).1
        (clock w) (clock (handle _ (stopStep scriptNo) w).2)]
  /\ final (stopScript scriptNo) w = (handle _ (stopStep scriptNo) w).2.
Proof.
  intros Hstop. unfold trace, final. rewrite (run_stopScript_ok _ _ Hstop). auto.
Qed.

Ltac no_journal_here :=
  rewrite ?existsb_app; cbn [existsb]; rewrite ?existsb_app;
  rewrite ?no_journal by never_pkg;
  let Hf := fresh in intros Hf; lazy in Hf; discriminate Hf.

Lemma registerRunStop_window (scriptFile : string) (w : W) :
  existsb isJournal (trace (registerRunStop scriptFile) w) = true ->
  exists start end_ t_run t_stop,
    window (trace (registerRunStop scriptFile) w) start end_ t_run t_stop
    /\ start <= t_run /\ t_stop <= end_ /\ start <= end_.
Proof.
  unfold registerRunStop.
  rewrite trace_bind.
  destruct (outcome (loadScript scriptFile) w) as [[scriptNo [err |]] | msg];
    [no_journal_here | | no_journal_here].
  set (w1 := final (loadScript scriptFile) w).
  rewrite trace_call.
  pose proof (now_within w1) as Hstart.
  destruct (handle Time time_Now w1) as [start w2]. cbn [fst snd] in *.
  rewrite trace_bind.
  destruct (outcome (runScript scriptNo) w2) as [[err |] | msg] eqn:Hrun;
    [no_journal_here | | no_journal_here].
  destruct (trace_runScript_ok _ _ Hrun) as [-> ->].
  pose proof (clock_advances _ (runStep scriptNo) w2) as Hw3.
  destruct (handle Process (runStep scriptNo) w2) as [Prun w3]. cbn [fst snd] in *.
  rewrite trace_bind.
  destruct (outcome (stopScript scriptNo) w3) as [[err |] | msg] eqn:Hstop;
    [no_journal_here | | no_journal_here].
  destruct (trace_stopScript_ok _ _ Hstop) as [-> ->].
  pose proof (clock_advances _ (stopStep scriptNo) w3) as Hw4.
  destruct (handle Process (stopStep scriptNo) w3) as [Pstop w4]. cbn [fst snd] in *.
  rewrite trace_call.
  pose proof (now_within w4) as Hend.
  destruct (handle Time time_Now w4) as [end_ w5]. cbn [fst snd] in *.
  rewrite trace_bind.
  destruct (trace_getJournal start end_ w5) as (trJ & ->).
  intros _. exists start, end_, (clock w2), (clock w4).
  split; [| lia].
  eapply (window_intro _ _ _ _ _ (trace (loadScript scriptFile) w) _ scriptNo).
  cbn [app]. reflexivity.
Qed.

End Window.

Section Window2.
Context {W : Type} `{World W} `{TimeFormatter} `{!MonotoneClock W}.

(** C2, amended. On a clock that never runs backwards, whenever
    [loadExecuteAndGetOutput] queries the journal it has, in this
    order, read the clock ([start]), invoked the run step, seen the stop
    step complete, read the clock again ([end]) and queried [start,
    end]; [start] is read no later than the run step is invoked, [end]
    no earlier than the stop step completes, and [start <= end]. *)
Theorem journal_window_brackets (w : W) (script : string) :
  existsb isJournal (trace (loadExecuteAndGetOutput script) w) = true ->
  exists start end_ t_run t_stop,
    window (trace (loadExecuteAndGetOutput script) w) start end_ t_run t_stop
    /\ start <= t_run /\ t_stop <= end_ /\ start <= end_.
Proof.
  unfold loadExecuteAndGetOutput.
  rewrite !trace_call.
  destruct (handle _ os_TempDir w) as [dir w1]. cbn [fst snd].
  destruct (handle _ (os_CreateTemp dir "kwin_script_*.js") w1)
    as [[scriptFile [err |]] w2]; cbn [fst snd]; [discriminate |].
  rewrite trace_with_defer.
  rewrite !trace_call, !final_call.
  destruct (handle _ (File_WriteString scriptFile script) w2) as [[err |] w3];
    cbn [fst snd].
  { cbn [existsb app]. rewrite existsb_app, !no_journal;
      [discriminate | never_pkg | never_pkg]. }
  rewrite !trace_call, !final_call.
  destruct (handle _ (os_Chmod scriptFile 511) w3) as [[err |] w4]; cbn [fst snd].
  { cbn [existsb app]. rewrite existsb_app, !no_journal;
      [discriminate | never_pkg | never_pkg]. }
  cbn [existsb app]. rewrite !existsb_app.
  rewrite (no_journal (closeAndRemove scriptFile)) by never_pkg.
  rewrite !orb_false_r.
  change (isJournal (Ev os_TempDir dir (clock w) (clock w1))) with false.
  cbn [orb]. intros Hj.
  destruct (registerRunStop_window scriptFile w4 Hj)
    as (start & end_ & t_run & t_stop & Hwin & Hord).
  exists start, end_, t_run, t_stop. split; [| exact Hord].
  match goal with
  | |- window (?e1 :: ?e2 :: ?e3 :: ?e4 :: ?tr ++ ?post) _ _ _ _ =>
    exact (window_shift tr [e1; e2; e3; e4] post _ _ _ _ Hwin)
  end.
Qed.

End Window2.

(** The clock of a scripted world never runs backwards. *)
#[global] Instance Scripted_monotone : MonotoneClock Scripted.
Proof.
  split.
  - intros R c w. destruct c; simpl; try lia.
    destruct (children w); simpl; lia.
  - intros w. simpl. lia.
Qed.

(** C2 at the session [quiet]. *)
Lemma journal_window_brackets_witness :
  existsb isJournal (trace (loadExecuteAndGetOutput GetScreens_script) quiet) = true
  /\ exists start end_ t_run t_stop,
      window (trace (loadExecuteAndGetOutput GetScreens_script) quiet)
        start end_ t_run t_stop
      /\ start <= t_run /\ t_stop <= end_ /\ start <= end_.
Proof.
  split; [reflexivity |].
  apply (journal_window_brackets quiet GetScreens_script). reflexivity.
Defined.

(** C2 as worded fails at the session [quiet]: the clock is read at
    1700000000000005000 and the run step is invoked 1000 ns later, so
    [start] is recorded earlier than the run invocation. *)
Lemma window_ordering_as_worded_fails :
  ~ spec_window_ordering (trace (loadExecuteAndGetOutput GetScreens_script) quiet).
Proof.
  intros Hspec.
  set (tr := trace (loadExecuteAndGetOutput GetScreens_script) quiet) in *.
  assert (Hwin : window tr 1700000000000005000 1700000000000008000
                   1700000000000006000 1700000000000008000).
  { apply (window_intro tr _ _ _ _ (firstn 5 tr) (skipn 10 tr) 7
             (exited []) (exited []) (exited [])
             1700000000000005000 1700000000000006000 1700000000000007000
             1700000000000007000 1700000000000008000 1700000000000009000
             1700000000000009000 1700000000000010000).
    vm_compute. reflexivity. }
  destruct (Hspec _ _ _ _ Hwin) as (_ & Hstart & _). lia.
Qed.

(** ** The logging prefix *)
Section Strip.

Lemma append_String (c : ascii) (a b : string) :
  String c a +:+ b = String c (a +:+ b).
Proof. reflexivity. Qed.

Lemma append_Empty (b : string) : EmptyString +:+ b = b.
Proof. reflexivity. Qed.

Lemma prefix_Empty (s : string) : String.prefix EmptyString s = true.
Proof. destruct s; reflexivity. Qed.

Lemma prefix_js_app (c : ascii) (a b : string) :
  String.prefix "js: " (String c a +:+ "js: " +:+ b)
  = String.prefix "js: " (String c a).
Proof.
  destruct a as [| c2 [| c3 [| c4 a]]];
    rewrite ?append_String, ?append_Empty; cbn -[ascii_dec];
    repeat (destruct (ascii_dec _ _) as [? | ?]; try discriminate;
            try reflexivity).
  rewrite !prefix_Empty. reflexivity.
Qed.

Lemma prefix_js_length (s : string) :
  String.prefix "js: " s = true -> (4 <= String.length s)%nat.
Proof.
  destruct s as [| c1 [| c2 [| c3 [| c4 s]]]];
    cbn -[ascii_dec];
    repeat (destruct (ascii_dec _ _) as [? | ?]; try discriminate);
    intros Hp; try discriminate Hp; cbn [String.length]; lia.
Qed.

Lemma replaceFrom_js_app (a b : string) (k : nat) :
  (k <= String.length a)%nat ->
  strings.replaceFrom "js: " EmptyString k (a +:+ "js: " +:+ b)
  = strings.replaceFrom "js: " EmptyString k a
    +:+ strings.replaceFrom "js: " EmptyString 0 b.
Proof.
  revert k. induction a as [| c a IH]; intros k Hk.
  - destruct k; [| simpl in Hk; lia].
    rewrite !append_Empty.
    change ("js: " +:+ b) with (String "j" (String "s" (String ":" (String " " b)))).
    cbn. rewrite prefix_Empty. reflexivity.
  - destruct k as [| k].
    + change (String c a +:+ "js: " +:+ b) with (String c (a +:+ "js: " +:+ b)).
      cbn [strings.replaceFrom].
      change (String c (a +:+ "js: " +:+ b)) with (String c a +:+ "js: " +:+ b).
      rewrite prefix_js_app.
      destruct (String.prefix "js: " (String c a)) eqn:Hp.
      * apply prefix_js_length in Hp. cbn [String.length] in Hp.
        rewrite !append_Empty. apply IH. cbn [String.length Nat.sub]. lia.
      * rewrite (append_String c). f_equal. apply IH. lia.
    + change (String c a +:+ "js: " +:+ b) with (String c (a +:+ "js: " +:+ b)).
      cbn [strings.replaceFrom]. apply IH. cbn [String.length] in Hk. lia.
Qed.

Lemma replaceFrom_absent (old new s : string) :
  occursIn old s = false -> strings.replaceFrom old new 0 s = s.
Proof.
  induction s as [| c s IH]; intros Hs; [reflexivity |].
  cbn [occursIn] in Hs. apply orb_false_elim in Hs as [Hp Hs].
  cbn [strings.replaceFrom]. rewrite Hp, (IH Hs). reflexivity.
Qed.

End Strip.

Section Queries.
Context {W : Type} `{World W}.
Context `{UUIDParser} `{TimeFormatter}.
Context `{Unmarshaler Screen} `{Unmarshaler Desktop} `{Unmarshaler Window}.

Lemma run_bind_ext {A B : Type} (m : Go A) (f g : A -> Go B) (w : W) :
  (forall a w', run (f a) w' = run (g a) w') ->
  run (bind m f) w = run (bind m g) w.
Proof.
  intros Hfg. rewrite !run_bind.
  destruct (run m w) as [[tr1 w1] [a | msg]]; [rewrite Hfg |]; reflexivity.
Qed.

(** The loops see their lines only through the stripped text: a line
    is treated like any other line with the same stripped text. *)
Lemma loops_see_stripped_text (lines lines' : list string) :
  map strip lines = map strip lines' ->
  (forall m, GetScreens_loop lines m = GetScreens_loop lines' m)
  /\ (forall m, GetDesktops_loop lines m = GetDesktops_loop lines' m)
  /\ (forall desktops m (w : W),
        run (GetWindows_loop desktops lines m) w
        = run (GetWindows_loop desktops lines' m) w).
Proof.
  revert lines'. induction lines as [| s lines IH]; intros [| s' lines'] Hmap;
    try discriminate Hmap; [repeat split; reflexivity |].
  injection Hmap as Hs Hrest. destruct (IH lines' Hrest) as (HS & HD & HW).
  unfold strip in Hs. repeat split.
  + intros m. cbn [GetScreens_loop]. rewrite Hs.
    destruct (json_Unmarshal _ zeroScreen) as [d [err |]]; [reflexivity | apply HS].
  + intros m. cbn [GetDesktops_loop]. rewrite Hs.
    destruct (json_Unmarshal _ zeroDesktop) as [d [err |]]; [reflexivity |].
    unfold uuid_MustParse.
    destruct (uuid_Parse (Desktop_Id d)) as [u [err |]]; cbn [bind];
      [reflexivity | apply HD].
  + intros desktops m w. cbn [GetWindows_loop]. rewrite Hs.
    destruct (json_Unmarshal _ zeroWindow) as [d [err |]]; [reflexivity |].
    apply run_bind_ext. intros [rawCmdLine [err |]] w1; [reflexivity |].
    apply run_bind_ext. intros cmdLine w2.
    apply run_bind_ext. intros last w3.
    apply run_bind_ext. intros d' w4.
    apply run_bind_ext. intros key w5. apply HW.
Qed.

End Queries.

Section Queries2.
Context {W : Type} `{World W}.
Context `{UUIDParser} `{TimeFormatter}.
Context `{Unmarshaler Screen} `{Unmarshaler Desktop} `{Unmarshaler Window}.

(** C6. After a [dbus-send] call that succeeded, [loadScript] returns
    the registration number the reply carries, and an error (with -1)
    when the reply is not two lines, or its second line is not two
    fields, or the second field is not an integer. *)
Theorem loadScript_reply (w : W) (scriptPath : string) (reply : list string) :
  outcome (callDbusSend (loadScriptArgs scriptPath)) w = Returned (reply, None) ->
  match spec_registrationNumber reply with
  | Some n => outcome (loadScript scriptPath) w = Returned (n, None)
  | None => exists err, outcome (loadScript scriptPath) w = Returned (-1, Some err)
  end.
Proof.
  intros Hcall. unfold loadScript. fold (loadScriptArgs scriptPath).
  rewrite outcome_bind, Hcall.
  generalize (final (callDbusSend (loadScriptArgs scriptPath)) w). intros w1.
  unfold spec_registrationNumber.
  destruct reply as [| l1 [| l2 [| l3 reply]]];
    try (eexists; reflexivity).
  change (index [l1; l2] 1) with (Ret (A := string) l2).
  cbn [length Nat.eqb negb bind].
  destruct (strings.Fields l2) as [| a [| b [| c sa]]];
    try (eexists; reflexivity).
  change (index [a; b] 1) with (Ret (A := string) b).
  cbn [length Nat.eqb negb bind].
  destruct (strconv.Atoi b) as [n [err |]]; [eexists |]; reflexivity.
Qed.


(** The loops of [GetScreens] and [GetDesktops] call nothing outside. *)
Lemma never_GetScreens_loop pc (output : list string) (m : gmap string Screen) :
  never pc (GetScreens_loop output m).
Proof.
  revert m. induction output as [| s output IH]; intros m; cbn [GetScreens_loop].
  - exact I.
  - destruct (json_Unmarshal _ zeroScreen) as [d [err |]]; [exact I | apply IH].
Qed.

Lemma never_GetDesktops_loop pc (output : list string) (m : gmap UUID Desktop) :
  never pc (GetDesktops_loop output m).
Proof.
  revert m. induction output as [| s output IH]; intros m; cbn [GetDesktops_loop].
  - exact I.
  - destruct (json_Unmarshal _ zeroDesktop) as [d [err |]]; [exact I |].
    unfold uuid_MustParse. destruct (uuid_Parse _) as [u [err |]]; cbn [bind];
      [exact I | apply IH].
Qed.

Lemma never_writes_GetScreens :
  never (@writesScript GetWindows_script) GetScreens.
Proof.
  unfold GetScreens. apply never_bind; [never_pkg |].
  intros [output [err |]]; [never_pkg | apply never_GetScreens_loop].
Qed.

Lemma never_writes_GetDesktops :
  never (@writesScript GetWindows_script) GetDesktops.
Proof.
  unfold GetDesktops. apply never_bind; [never_pkg |].
  intros [output [err |]]; [never_pkg | apply never_GetDesktops_loop].
Qed.

(** C7. [GetEnvironment] runs [GetScreens], then [GetDesktops], then
    [GetWindows]; when [GetDesktops] returns an error, it returns that
    error having done what [GetScreens] did, what [GetDesktops] did and
    one print: nothing of [GetWindows], whose scriptlet is never
    written. *)
Theorem GetEnvironment_short_circuit (w : W) (screens : option (gmap string Screen)) :
  outcome GetScreens w = Returned (screens, None) ->
  (forall desktops e,
     outcome GetDesktops (final GetScreens w) = Returned (desktops, Some e) ->
     outcome GetEnvironment w = Returned (zeroEnvironment, Some e)
     /\ (exists t t',
           trace GetEnvironment w
           = trace GetScreens w ++ trace GetDesktops (final GetScreens w)
             ++ [Ev (fmt_Print (fmt.Sprintf ("Error getting desktops: %v" +:+ nl)
                                  [fmt.AError e])) tt t t'])
     /\ existsb (writes GetWindows_script) (trace GetEnvironment w) = false)
  /\ (forall desktops,
        outcome GetDesktops (final GetScreens w) = Returned (desktops, None) ->
        exists rest,
          trace GetEnvironment w
          = trace GetScreens w ++ trace GetDesktops (final GetScreens w)
            ++ trace (GetWindows desktops) (final GetDesktops (final GetScreens w))
            ++ rest
          /\ forallb isPrint rest = true).
Proof.
  intros Hscreens. unfold GetEnvironment.
  rewrite outcome_bind, trace_bind, Hscreens.
  rewrite outcome_bind, trace_bind. split.
  - intros desktops e Hdesktops. rewrite Hdesktops.
    unfold Printf. rewrite outcome_call, trace_call.
    destruct (handle _ _ (final GetDesktops (final GetScreens w))) as [[] w'].
    cbn [fst snd]. split; [reflexivity |]. split; [eauto |].
    rewrite !existsb_app.
    unfold writes at 1 2. rewrite !never_trace
      by first [apply never_writes_GetScreens | apply never_writes_GetDesktops].
    reflexivity.
  - intros desktops Hdesktops. rewrite Hdesktops.
    rewrite trace_bind.
    destruct (outcome (GetWindows desktops) _) as [[windows [err |]] | msg].
    + unfold Printf. rewrite trace_call.
      destruct (handle _ _ _) as [[] w']. cbn [fst snd].
      eexists. split; [reflexivity | reflexivity].
    + exists []. split; reflexivity.
    + exists []. split; reflexivity.
Qed.

End Queries2.

Section Windows.
Context {W : Type} `{World W}.
Context `{UUIDParser} `{TimeFormatter}.
Context `{Unmarshaler Screen} `{Unmarshaler Desktop} `{Unmarshaler Window}.

Lemma index_lookup {A : Type} (l : list A) (i : nat) (x : A) :
  l !! i = Some x -> index l (Z.of_nat i) = Ret x.
Proof.
  intros Hx. unfold index.
  destruct (Z.of_nat i <? 0) eqn:Hneg; [apply Z.ltb_lt in Hneg; lia |].
  rewrite Nat2Z.id, Hx. reflexivity.
Qed.

Lemma assign_insert {A : Type} (l : list A) (i : nat) (x : A) :
  (i < length l)%nat -> assign l (Z.of_nat i) x = Ret (<[i := x]> l).
Proof.
  intros Hi. unfold assign.
  destruct (0 <=? Z.of_nat i) eqn:Hlo; [| apply Z.leb_gt in Hlo; lia].
  destruct (Z.of_nat i <? Z.of_nat (length l)) eqn:Hhi;
    [| apply Z.ltb_ge in Hhi; lia].
  rewrite Nat2Z.id. reflexivity.
Qed.

(** The resolution loop, started anywhere: it ends, and with the
    resolved sequence. *)
Lemma resolveDesktops_from (desktops : gmap UUID Desktop) (ids : list UUID)
    (n k : nat) (out : list Desktop) :
  length out = length ids ->
  (k + n = length ids)%nat ->
  (forall j, (j < k)%nat -> out !! j = resolve desktops <$> ids !! j) ->
  resolveDesktops desktops ids (seq k n) out = Ret (map (resolve desktops) ids).
Proof.
  revert k out. induction n as [| n IH]; intros k out Hlen Hk Hdone.
  - cbn. f_equal. apply list_eq. intros j. rewrite list_lookup_fmap.
    destruct (decide (j < k)%nat) as [Hj | Hj]; [apply Hdone, Hj |].
    rewrite !lookup_ge_None_2 by lia. reflexivity.
  - cbn [seq resolveDesktops].
    destruct (lookup_lt_is_Some_2 ids k) as [id Hid]; [lia |].
    rewrite (index_lookup _ _ _ Hid). cbn [bind].
    rewrite assign_insert by lia. cbn [bind].
    apply IH.
    + rewrite length_insert. exact Hlen.
    + lia.
    + intros j Hj. destruct (decide (j = k)) as [-> | Hne].
      * rewrite list_lookup_insert_eq by lia. rewrite Hid. reflexivity.
      * rewrite list_lookup_insert_ne by congruence. apply Hdone. lia.
Qed.

Lemma resolveDesktops_total (desktops : gmap UUID Desktop) (ids : list UUID) :
  resolveDesktops desktops ids (seq 0 (length ids))
    (replicate (length ids) zeroDesktop)
  = Ret (map (resolve desktops) ids).
Proof.
  apply resolveDesktops_from; [apply length_replicate | lia | intros j Hj; lia].
Qed.

Lemma GetWindows_loop_resolved (desktops : gmap UUID Desktop)
    (output : list string) (m wins : gmap UUID Window) (w : W) :
  (forall u win, m !! u = Some win -> resolved desktops win) ->
  outcome (GetWindows_loop (Some desktops) output m) w = Returned (Some wins, None) ->
  forall u win, wins !! u = Some win -> resolved desktops win.
Proof.
  revert m w. induction output as [| s output IH]; intros m w Hm.
  - unfold outcome. cbn. intros [= <-]. exact Hm.
  - cbn [GetWindows_loop].
    destruct (json_Unmarshal _ zeroWindow) as [d [err |]]; [discriminate |].
    rewrite outcome_bind.
    destruct (outcome (getProcessCmdLine (Window_Pid d)) w)
      as [[rawCmdLine [err |]] | msg]; [| | discriminate].
    { unfold Printf. rewrite outcome_call. discriminate. }
    generalize (final (getProcessCmdLine (Window_Pid d)) w). intros w1.
    destruct (index (strings.Fields rawCmdLine) 0) as [cmdLine | msg | R c k] eqn:Hi;
      [| discriminate |].
    2: { unfold index in Hi. destruct (0 <? 0); [discriminate Hi |].
         destruct (_ !! _); discriminate Hi. }
    cbn [bind].
    match goal with
    | |- context [index ?l ?i] =>
      destruct (index l i) as [last | msg | R c k] eqn:Hl; [| discriminate |]
    end.
    2: { unfold index in Hl. destruct (_ <? 0); [discriminate Hl |].
         destruct (_ !! _); discriminate Hl. }
    cbn [bind]. rewrite resolveDesktops_total. cbn [bind].
    unfold uuid_MustParse.
    destruct (uuid_Parse _) as [key [err |]]; [discriminate |].
    cbn [bind]. apply IH.
    intros u win. rewrite lookup_insert. case_decide as Hu.
    + intros [= <-]. reflexivity.
    + apply Hm.
Qed.

(** C5. With a non-nil desktops map, the resolution loop of
    [GetWindows] never fails, and every window of the result whose
    desktop ids are [A; B], with [A] in the map and [B] not, has the
    Desktops [desktops[A]; Desktop{}]. *)
Theorem GetWindows_resolves_desktops (w : W) (desktops : gmap UUID Desktop)
    (A B : UUID) (dA : Desktop) :
  desktops !! A = Some dA ->
  desktops !! B = None ->
  (forall ids : list UUID,
     resolveDesktops desktops ids (seq 0 (length ids))
       (replicate (length ids) zeroDesktop)
     = Ret (map (resolve desktops) ids))
  /\ (forall wins u win,
        outcome (GetWindows (Some desktops)) w = Returned (Some wins, None) ->
        wins !! u = Some win ->
        Window_DesktopIds win = [A; B] ->
        Window_Desktops win = [dA; zeroDesktop]).
Proof.
  intros HA HB. split; [apply resolveDesktops_total |].
  intros wins u win Hrun Hwin Hids.
  unfold GetWindows in Hrun. rewrite outcome_bind in Hrun.
  destruct (outcome (loadExecuteAndGetOutput GetWindows_script) w)
    as [[output [err |]] | msg]; [| | discriminate Hrun].
  { unfold Printf in Hrun. rewrite outcome_call in Hrun. discriminate Hrun. }
  assert (Hres : resolved desktops win).
  { eapply GetWindows_loop_resolved; [| exact Hrun | exact Hwin].
    intros u' win'. rewrite lookup_empty. discriminate. }
  unfold resolved in Hres. rewrite Hres, Hids. cbn [map]. unfold resolve.
  rewrite HA, HB. reflexivity.
Qed.

End Windows.

Section Windows2.
Context {W : Type} `{World W}.
Context `{UUIDParser} `{TimeFormatter}.
Context `{Unmarshaler Screen} `{Unmarshaler Desktop} `{Unmarshaler Window}.

Lemma outcome_getProcessCmdLine (processId : Z) (content : string) (w : W) :
  (handle _ (procFile processId) w).1 = (content, None) ->
  outcome (getProcessCmdLine processId) w
  = Returned (strings.TrimSpace (strings.ReplaceAll content nul space), None).
Proof.
  intros Hread. unfold getProcessCmdLine. fold (procFile processId).
  rewrite outcome_call, Hread. reflexivity.
Qed.

Lemma splitFrom_nonempty (sep s : string) (skip : nat) :
  strings.splitFrom sep skip s <> [].
Proof.
  revert skip. induction s as [| c s IH]; intros skip; cbn [strings.splitFrom].
  - discriminate.
  - destruct skip as [| k]; [| apply IH].
    destruct (String.prefix sep (String c s)); [discriminate |].
    destruct (strings.splitFrom sep 0 s); discriminate.
Qed.

Lemma index_last {A : Type} (l : list A) :
  l <> [] -> exists x, index l (Z.of_nat (length l) - 1) = Ret x.
Proof.
  intros Hl. destruct (lookup_lt_is_Some_2 l (length l - 1)) as [x Hx].
  - destruct l; [congruence | cbn; lia].
  - exists x. rewrite <- (index_lookup _ _ _ Hx). f_equal.
    destruct l; [congruence | cbn [length]; lia].
Qed.

(** C3. A first record line whose identifier [uuid.Parse] rejects makes
    [GetDesktops], and [GetWindows] once the command line is resolved,
    panic in [uuid.MustParse]: neither returns an error. *)
Theorem malformed_identifier_panics (w : W) :
  (forall s rest d u e,
     outcome (loadExecuteAndGetOutput GetDesktops_script) w
     = Returned (s :: rest, None) ->
     json_Unmarshal (strip s) zeroDesktop = (d, None) ->
     uuid_Parse (Desktop_Id d) = (u, Some e) ->
     outcome GetDesktops w
     = Panicked ("uuid: Parse(" +:+ Desktop_Id d +:+ "): " +:+ e))
  /\ (forall desktops s rest d content cmdLine fields u e,
        outcome (loadExecuteAndGetOutput GetWindows_script) w
        = Returned (s :: rest, None) ->
        json_Unmarshal (strip s) zeroWindow = (d, None) ->
        (handle _ (procFile (Window_Pid d))
           (final (loadExecuteAndGetOutput GetWindows_script) w)).1
        = (content, None) ->
        strings.Fields (strings.TrimSpace (strings.ReplaceAll content nul space))
        = cmdLine :: fields ->
        uuid_Parse (Window_Id d) = (u, Some e) ->
        outcome (GetWindows desktops) w
        = Panicked ("uuid: Parse(" +:+ Window_Id d +:+ "): " +:+ e)).
Proof.
  split.
  - intros s rest d u e Hout Hjson Hid.
    unfold GetDesktops. rewrite outcome_bind, Hout.
    cbn [GetDesktops_loop]. fold (strip s). rewrite Hjson.
    unfold uuid_MustParse. rewrite Hid. reflexivity.
  - intros desktops s rest d content cmdLine fields u e Hout Hjson Hread Hfields Hid.
    unfold GetWindows. rewrite outcome_bind, Hout.
    cbn [GetWindows_loop]. fold (strip s). rewrite Hjson.
    rewrite outcome_bind, (outcome_getProcessCmdLine _ _ _ Hread).
    rewrite Hfields. change (index (cmdLine :: fields) 0) with (Ret (A := string) cmdLine).
    cbn [bind].
    destruct (index_last (strings.Split cmdLine "/")) as [last ->];
      [apply splitFrom_nonempty |].
    cbn [bind].
    destruct desktops as [desktops |].
    + rewrite resolveDesktops_total. cbn [bind].
      unfold uuid_MustParse. cbn. rewrite Hid. reflexivity.
    + cbn [bind]. unfold uuid_MustParse. cbn. rewrite Hid. reflexivity.
Qed.

(** C10. When the command line read from /proc is empty once its NULs
    are turned into spaces and it is trimmed, [GetWindows] indexes the
    first of no fields and panics; it does not return an error. *)
Theorem GetWindows_empty_cmdline_panics (w : W)
    (desktops : option (gmap UUID Desktop))
    (s : string) (rest : list string) (d : Window) (content : string) :
  outcome (loadExecuteAndGetOutput GetWindows_script) w
  = Returned (s :: rest, None) ->
  json_Unmarshal (strip s) zeroWindow = (d, None) ->
  (handle _ (procFile (Window_Pid d))
     (final (loadExecuteAndGetOutput GetWindows_script) w)).1
  = (content, None) ->
  strings.TrimSpace (strings.ReplaceAll content nul space) = EmptyString ->
  outcome (GetWindows desktops) w = Panicked (indexOutOfRange 0 0).
Proof.
  intros Hout Hjson Hread Hempty.
  unfold GetWindows. rewrite outcome_bind, Hout.
  cbn [GetWindows_loop]. fold (strip s). rewrite Hjson.
  rewrite outcome_bind, (outcome_getProcessCmdLine _ _ _ Hread), Hempty.
  reflexivity.
Qed.

End Windows2.

(** ** The scriptlet of SetWindowDemandsAttention, formatted *)

(** C4. The scriptlet text of [SetWindowDemandsAttention w b] is the
    template with the window id in place of the first directive; in place
    of the second, which is [%s] applied to a bool, fmt writes its
    bad-verb notice [%!s(bool=true)] or [%!s(bool=false)].  The text does
    not assign the literal [true] or [false] to [demandsAttention]. *)
Theorem SetWindowDemandsAttention_bad_verb (w : Window) (b : bool) :
  SetWindowDemandsAttention_script
  = attention_head +:+ "%s" +:+ attention_middle +:+ "%s" +:+ attention_tail
  /\ SetWindowDemandsAttention_command w b
    = attention_head +:+ Window_Id w +:+ attention_middle
      +:+ "%!s(bool=" +:+ fmt.boolText b +:+ ")" +:+ attention_tail
  /\ SetWindowDemandsAttention_command w b
    <> attention_head +:+ Window_Id w +:+ attention_middle
       +:+ fmt.boolText b +:+ attention_tail.
Proof.
  assert (Hcmd : SetWindowDemandsAttention_command w b
    = attention_head +:+ Window_Id w +:+ attention_middle
      +:+ "%!s(bool=" +:+ fmt.boolText b +:+ ")" +:+ attention_tail).
  { unfold SetWindowDemandsAttention_command. destruct b; vm_compute; reflexivity. }
  split; [vm_compute; reflexivity |]. split; [exact Hcmd |].
  rewrite Hcmd. intros Heq.
  apply String.app_inj in Heq. apply String.app_inj in Heq.
  apply String.app_inj in Heq. destruct b; discriminate Heq.
Qed.

(** The sibling [maximizeWindowHV] formats its booleans with [%v], which
    does print the literals. *)
Lemma Sprintf_bool_verbs (b : bool) :
  fmt.Sprintf "%v" [fmt.ABool b] = fmt.boolText b
  /\ fmt.Sprintf "%s" [fmt.ABool b] = "%!s(bool=" +:+ fmt.boolText b +:+ ")".
Proof. destruct b; split; reflexivity. Qed.

(** ** The theorems at explicit sessions *)

(** C1 at the session [runFails]. *)
Lemma run_failure_leaves_script_registered_witness :
  existsb failedRun (trace (loadExecuteAndGetOutput GetScreens_script) runFails) = true
  /\ existsb isStop (trace (loadExecuteAndGetOutput GetScreens_script) runFails) = false
  /\ forall lines,
       outcome (loadExecuteAndGetOutput GetScreens_script) runFails
       <> Returned (lines, None).
Proof.
  split; [reflexivity |].
  apply (run_failure_leaves_script_registered runFails GetScreens_script).
  reflexivity.
Defined.

(** C3 at the sessions [badDesktop] and [badWindow]. *)
Lemma malformed_identifier_panics_witness :
  outcome GetDesktops badDesktop = Panicked "uuid: Parse(not-a-uuid): invalid UUID length: 10"
  /\ outcome (GetWindows None) badWindow
     = Panicked "uuid: Parse(window-1): invalid UUID length: 8".
Proof.
  split.
  - refine (proj1 (malformed_identifier_panics badDesktop) badDesktopLine []
              (decoded zeroDesktop badDesktopLine) 0%N "invalid UUID length: 10"
              _ _ _); vm_compute; reflexivity.
  - refine (proj2 (malformed_identifier_panics badWindow) None badWindowLine []
              (decoded zeroWindow badWindowLine)
              ("/usr/bin/konsole" +:+ nul +:+ "--profile" +:+ nul +:+ "Work" +:+ nul)
              "/usr/bin/konsole" ["--profile"; "Work"] 0%N
              "invalid UUID length: 8" _ _ _ _ _); vm_compute; reflexivity.
Defined.

(** C10 at the session [zombie]. *)
Lemma GetWindows_empty_cmdline_panics_witness :
  outcome (GetWindows None) zombie
  = Panicked "runtime error: index out of range [0] with length 0".
Proof.
  refine (GetWindows_empty_cmdline_panics zombie None zombieLine []
            (decoded zeroWindow zombieLine) EmptyString _ _ _ _);
    vm_compute; reflexivity.
Defined.

(** C5 at the session [twoDesktops]. *)
Lemma GetWindows_resolves_desktops_witness :
  onlyA !! idA = Some desktopA
  /\ onlyA !! idB = None
  /\ outcome (GetWindows (Some onlyA)) twoDesktops
     = Returned (Some {[ idC := konsole ]}, None)
  /\ Window_Desktops konsole = [desktopA; zeroDesktop].
Proof.
  assert (HA : onlyA !! idA = Some desktopA) by reflexivity.
  assert (HB : onlyA !! idB = None) by reflexivity.
  assert (Hrun : outcome (GetWindows (Some onlyA)) twoDesktops
                 = Returned (Some {[ idC := konsole ]}, None))
    by (vm_compute; reflexivity).
  split; [exact HA |]. split; [exact HB |]. split; [exact Hrun |].
  refine (proj2 (GetWindows_resolves_desktops twoDesktops onlyA idA idB desktopA HA HB)
            {[ idC := konsole ]} idC konsole Hrun _ _); reflexivity.
Defined.

(** C6 at the sessions [registered] and [misregistered]. *)
Lemma loadScript_reply_witness :
  outcome (loadScript "/tmp/kwin_script_1.js") registered = Returned (7, None)
  /\ exists err,
       outcome (loadScript "/tmp/kwin_script_1.js") misregistered
       = Returned (-1, Some err).
Proof.
  split.
  - exact (loadScript_reply registered "/tmp/kwin_script_1.js" (loadReply "7") eq_refl).
  - exact (loadScript_reply misregistered "/tmp/kwin_script_1.js" threeFields eq_refl).
Defined.


(** C7 at the session [desktopsFail]. *)
Lemma GetEnvironment_short_circuit_witness :
  outcome GetScreens desktopsFail = Returned (Some {[ "DP-1" := dp1 ]}, None)
  /\ outcome GetDesktops (final GetScreens desktopsFail)
     = Returned (None, Some "exit status 1")
  /\ outcome GetEnvironment desktopsFail
     = Returned (zeroEnvironment, Some "exit status 1")
  /\ existsb (writes GetWindows_script) (trace GetEnvironment desktopsFail) = false.
Proof.
  assert (Hscreens : outcome GetScreens desktopsFail
                     = Returned (Some {[ "DP-1" := dp1 ]}, None))
    by (vm_compute; reflexivity).
  assert (Hdesktops : outcome GetDesktops (final GetScreens desktopsFail)
                      = Returned (None, Some "exit status 1"))
    by (vm_compute; reflexivity).
  destruct (proj1 (GetEnvironment_short_circuit desktopsFail _ Hscreens)
              None "exit status 1" Hdesktops) as (Hout & _ & Hnever).
  auto.
Defined.

(** * Further properties of the bridge *)
Section BridgeMore.
Context {W : Type} `{World W} `{TimeFormatter}.

Lemma reading_gave (P : Process) (lines : list string) :
  gave P lines ->
  lines = stdout_lines P ++ stderr_lines P /\ failed P = false.
Proof.
  unfold gave, failed, reading.
  destruct (cmd_Err P); [discriminate |].
  destruct (StderrPipe_err P); [discriminate |].
  destruct (Start_err P); [discriminate |].
  destruct (StdoutPipe_err P); [discriminate |].
  destruct (Wait_err P); [discriminate |].
  intros [= <-]. auto.
Qed.

(** The continuation of [loadScript] after the [dbus-send] call. *)
Lemma loadScript_after (scriptPath : string) (w : W) (o : Outcome (Z * option error)) :
  outcome (loadScript scriptPath) w = o ->
  forall reply,
    outcome (callDbusSend (loadScriptArgs scriptPath)) w = Returned (reply, None) ->
    run (loadScript scriptPath) w
    = (trace (callDbusSend (loadScriptArgs scriptPath)) w,
       final (callDbusSend (loadScriptArgs scriptPath)) w, o)
    /\ (forall n, o = Returned (n, None) -> spec_registrationNumber reply = Some n)
    /\ (length reply <> 2%nat ->
        o = Returned (-1, Some (fmt.Sprintf "script load failed: %s"
                                  [fmt.AStrings reply]))).
Proof.
  intros Ho reply Hcall. revert Ho.
  unfold outcome at 1. unfold loadScript. fold (loadScriptArgs scriptPath).
  rewrite run_bind. unfold outcome in Hcall. unfold trace, final.
  destruct (run (callDbusSend (loadScriptArgs scriptPath)) w) as [[tr w1] o1].
  cbn [fst snd] in *. subst o1. unfold spec_registrationNumber.
  destruct reply as [| l1 [| l2 [| l3 reply]]];
    try (cbn; rewrite app_nil_r; intros <-;
         repeat split; try discriminate; try (intros; lia); reflexivity).
  change (index [l1; l2] 1) with (Ret (A := string) l2).
  cbn [length Nat.eqb negb bind].
  destruct (strings.Fields l2) as [| a [| b [| c sa]]];
    try (cbn; rewrite app_nil_r; intros <-;
         repeat split; try discriminate; try (intros; lia); reflexivity).
  change (index [a; b] 1) with (Ret (A := string) b).
  cbn [length Nat.eqb negb bind].
  destruct (strconv.Atoi b) as [n [err |]]; cbn; rewrite app_nil_r; intros <-;
    repeat split; try discriminate; try (intros; lia).
  intros n' [= <-]. reflexivity.
Qed.

(** X1. A line on the standard error of [dbus-send] spoils a
    well-formed reply: [loadScript] counts the lines of both streams
    together, finds more than two, and returns -1 and an error that
    quotes them all. *)
Theorem loadScript_counts_stderr (w : W) (scriptPath : string) (l1 l2 : string)
    (noise : list string) :
  let P := (handle _ (exec_Command dbusSend (loadScriptArgs scriptPath)) w).1 in
  failed P = false ->
  stdout_lines P = [l1; l2] ->
  stderr_lines P = noise ->
  noise <> [] ->
  outcome (loadScript scriptPath) w
  = Returned (-1, Some (fmt.Sprintf "script load failed: %s"
                          [fmt.AStrings ([l1; l2] ++ noise)])).
Proof.
  intros P Hok Hout Herr Hnoise.
  destruct (failed_false P Hok) as [lines Hgave].
  destruct (reading_gave P lines Hgave) as [-> _].
  assert (Hcall : outcome (callDbusSend (loadScriptArgs scriptPath)) w
                  = Returned (stdout_lines P ++ stderr_lines P, None)).
  { unfold callDbusSend. rewrite outcome_callProgram. exact Hgave. }
  destruct (loadScript_after scriptPath w _ eq_refl _ Hcall) as (_ & _ & Hlen).
  rewrite Hlen; [rewrite Hout, Herr; reflexivity |].
  rewrite Hout, Herr, length_app. destruct noise; [congruence | cbn; lia].
Qed.

End BridgeMore.

Section RoundTrip.
Context {W : Type} `{World W} `{TimeFormatter}.

Lemma run_loadScript_ok (scriptPath : string) (w : W) (n : Z) :
  outcome (loadScript scriptPath) w = Returned (n, None) ->
  let P := (handle _ (exec_Command dbusSend (loadScriptArgs scriptPath)) w).1 in
  let w1 := (handle _ (exec_Command dbusSend (loadScriptArgs scriptPath)) w).2 in
  run (loadScript scriptPath) w
  = ([Ev (exec_Command dbusSend (loadScriptArgs scriptPath)) P (clock w) (clock w1)],
     w1, Returned (n, None))
  /\ failed P = false
  /\ spec_registrationNumber (stdout_lines P ++ stderr_lines P) = Some n.
Proof.
  intros Hload P w1.
  destruct (outcome (callDbusSend (loadScriptArgs scriptPath)) w)
    as [[reply [err |]] | msg] eqn:Hcall.
  - unfold loadScript in Hload. fold (loadScriptArgs scriptPath) in Hload.
    rewrite outcome_bind, Hcall in Hload. discriminate Hload.
  - destruct (loadScript_after scriptPath w _ Hload reply Hcall) as (Hrun & Hn & _).
    unfold callDbusSend in Hcall.
    pose proof (run_callProgram_ok _ _ _ _ Hcall) as Hexec.
    rewrite outcome_callProgram in Hcall.
    destruct (reading_gave _ _ Hcall) as [Hreply Hok].
    rewrite Hrun. unfold trace, final, callDbusSend. rewrite Hexec. cbn [fst snd].
    split; [reflexivity |]. split; [exact Hok |].
    fold P in Hreply. rewrite <- Hreply. apply Hn. reflexivity.
  - unfold loadScript in Hload. fold (loadScriptArgs scriptPath) in Hload.
    rewrite outcome_bind, Hcall in Hload. discriminate Hload.
Qed.

Lemma run_getJournal_ok (from to : Time) (w : W) (lines : list string) :
  outcome (getJournal from to) w = Returned (lines, None) ->
  let P := (handle _ (journalQuery from to) w).1 in
  let w1 := (handle _ (journalQuery from to) w).2 in
  run (getJournal from to) w
  = ([Ev (journalQuery from to) P (clock w) (clock w1)], w1, Returned (lines, None))
  /\ gave P lines.
Proof.
  intros Hj P w1. subst P w1. unfold journalQuery.
  unfold getJournal in Hj |- *. rewrite outcome_bind in Hj. rewrite run_bind.
  destruct (outcome (callProgramAndReadOutput _ _) w)
    as [[out [err |]] | msg] eqn:Hcall; try discriminate Hj.
  rewrite (run_callProgram_ok _ _ _ _ Hcall).
  rewrite outcome_callProgram in Hcall.
  unfold outcome in Hj. cbn in Hj. injection Hj as <-.
  split; [reflexivity | exact Hcall].
Qed.

Lemma failed_runScript (scriptNo : Z) (w : W) :
  outcome (runScript scriptNo) w = Returned None ->
  failed (handle _ (runStep scriptNo) w).1 = false.
Proof.
  unfold runScript, callDbusSend. fold (runStep scriptNo).
  unfold runStep at 1. rewrite outcome_bind, outcome_callProgram.
  fold (runStep scriptNo). unfold failed.
  destruct (reading _) as [[out [err |]] | msg]; try discriminate. reflexivity.
Qed.

Lemma failed_stopScript (scriptNo : Z) (w : W) :
  outcome (stopScript scriptNo) w = Returned None ->
  failed (handle _ (stopStep scriptNo) w).1 = false.
Proof.
  unfold stopScript, callDbusSend. fold (stopStep scriptNo).
  unfold stopStep at 1. rewrite outcome_bind, outcome_callProgram.
  fold (stopStep scriptNo). unfold failed.
  destruct (reading _) as [[out [err |]] | msg]; try discriminate. reflexivity.
Qed.

(** The steps after the file is written, when nothing fails. *)
Lemma registerRunStop_success (scriptFile : string) (w : W) (lines : list string) :
  outcome (registerRunStop scriptFile) w = Returned (lines, None) ->
  exists scriptNo Pload Prun Pstop PJ start end_ w1 w2 w3 w4 w5 w6,
    run (registerRunStop scriptFile) w
    = ([Ev (exec_Command dbusSend (loadScriptArgs scriptFile)) Pload (clock w) (clock w1);
        Ev time_Now start (clock w1) (clock w2);
        Ev (runStep scriptNo) Prun (clock w2) (clock w3);
        Ev (stopStep scriptNo) Pstop (clock w3) (clock w4);
        Ev time_Now end_ (clock w4) (clock w5);
        Ev (journalQuery start end_) PJ (clock w5) (clock w6)],
       w6, Returned (lines, None))
    /\ failed Pload = false
    /\ spec_registrationNumber (stdout_lines Pload ++ stderr_lines Pload)
       = Some scriptNo
    /\ failed Prun = false /\ failed Pstop = false /\ gave PJ lines.
Proof.
  unfold registerRunStop, Printf, call. rewrite outcome_bind, run_bind.
  destruct (outcome (loadScript scriptFile) w) as [[scriptNo [err |]] | msg] eqn:Hload.
  { cbn [bind]. rewrite outcome_Do. discriminate. }
  2: discriminate.
  destruct (run_loadScript_ok _ _ _ Hload) as (Hrl & Hokl & Hn).
  unfold final. rewrite Hrl. cbn [fst snd].
  destruct (handle _ (exec_Command dbusSend (loadScriptArgs scriptFile)) w)
    as [Pload w1]. cbn [fst snd] in *.
  cbn [bind run]. rewrite outcome_Do.
  destruct (handle Time time_Now w1) as [start w2]. cbn [fst snd].
  rewrite outcome_bind, run_bind.
  destruct (outcome (runScript scriptNo) w2) as [[err |] | msg] eqn:Hrun.
  { cbn [bind]. rewrite outcome_Do. discriminate. }
  2: discriminate.
  pose proof (failed_runScript _ _ Hrun) as Hokr.
  unfold final. rewrite (run_runScript_ok _ _ Hrun). cbn [fst snd].
  destruct (handle _ (runStep scriptNo) w2) as [Prun w3]. cbn [fst snd] in *.
  rewrite outcome_bind, run_bind.
  destruct (outcome (stopScript scriptNo) w3) as [[err |] | msg] eqn:Hstop.
  { cbn [bind]. rewrite !outcome_Do. discriminate. }
  2: discriminate.
  pose proof (failed_stopScript _ _ Hstop) as Hoks.
  unfold final. rewrite (run_stopScript_ok _ _ Hstop). cbn [fst snd].
  destruct (handle _ (stopStep scriptNo) w3) as [Pstop w4]. cbn [fst snd] in *.
  cbn [bind run]. rewrite outcome_Do.
  destruct (handle Time time_Now w4) as [end_ w5]. cbn [fst snd].
  rewrite outcome_bind, run_bind.
  destruct (outcome (getJournal start end_) w5) as [[out [err |]] | msg] eqn:Hj.
  { cbn [bind]. rewrite outcome_Do. discriminate. }
  2: discriminate.
  destruct (run_getJournal_ok _ _ _ _ Hj) as (Hrj & Hgave).
  unfold final. rewrite Hrj. cbn [fst snd].
  destruct (handle _ (journalQuery start end_) w5) as [PJ w6]. cbn [fst snd] in *.
  unfold outcome. cbn. intros [= <-].
  exists scriptNo, Pload, Prun, Pstop, PJ, start, end_, w1, w2, w3, w4, w5, w6.
  repeat split; assumption.
Qed.

End RoundTrip.

Section RoundTrip2.
Context {W : Type} `{World W} `{TimeFormatter}.

(** X2. A call of [loadExecuteAndGetOutput] that returns a nil error
    performed exactly the steps of [roundTrip], in that order, and then
    the deferred clean-up: every child gave a nil error, the run and
    stop steps address the number the registration reply carries, and
    the lines returned are those the [journalctl] child gave. *)
Theorem successful_round_trip (w : W) (script : string) (lines : list string) :
  outcome (loadExecuteAndGetOutput script) w = Returned (lines, None) ->
  exists dir f scriptNo Pload Prun Pstop PJ start end_ t w',
    trace (loadExecuteAndGetOutput script) w
    = roundTrip script dir f scriptNo Pload Prun Pstop PJ start end_ t
      ++ trace (closeAndRemove f) w'
    /\ failed Pload = false
    /\ spec_registrationNumber (stdout_lines Pload ++ stderr_lines Pload)
       = Some scriptNo
    /\ failed Prun = false /\ failed Pstop = false /\ gave PJ lines.
Proof.
  unfold loadExecuteAndGetOutput.
  rewrite !trace_call, !outcome_call.
  destruct (handle _ os_TempDir w) as [dir w1]. cbn [fst snd].
  destruct (handle _ (os_CreateTemp dir "kwin_script_*.js") w1)
    as [[f [err |]] w2]; cbn [fst snd]; [discriminate |].
  rewrite trace_with_defer, outcome_with_defer, outcome_closeAndRemove.
  rewrite !trace_call, !outcome_call, !final_call.
  destruct (handle _ (File_WriteString f script) w2) as [[err |] w3]; cbn [fst snd].
  { unfold Printf. rewrite outcome_call. discriminate. }
  rewrite !trace_call, !outcome_call, !final_call.
  destruct (handle _ (os_Chmod f 511) w3) as [[err |] w4]; cbn [fst snd].
  { unfold Printf. rewrite outcome_call. discriminate. }
  intros Hout.
  destruct (registerRunStop_success f w4 lines Hout)
    as (n & Pload & Prun & Pstop & PJ & start & end_
        & w5 & w6 & w7 & w8 & w9 & w10 & Hrun & Hfacts).
  exists dir, f, n, Pload, Prun, Pstop, PJ, start, end_,
    (fun i => nth i [clock w; clock w1; clock w2; clock w3; clock w4; clock w5;
                     clock w6; clock w7; clock w8; clock w9; clock w10] 0),
    w10.
  split; [| exact Hfacts].
  unfold trace at 1, final at 1.
  match goal with
  | |- context [run ?p w4] => change (run p w4) with (run (registerRunStop f) w4)
  end.
  rewrite Hrun. reflexivity.
Qed.

Lemma registerRunStop_error (scriptFile : string) (w : W)
    (lines : list string) (e : error) :
  outcome (registerRunStop scriptFile) w = Returned (lines, Some e) -> lines = [].
Proof.
  unfold registerRunStop, Printf, call. rewrite outcome_bind.
  destruct (outcome (loadScript scriptFile) w) as [[scriptNo [err |]] | msg];
    [cbn [bind]; rewrite outcome_Do; unfold outcome; cbn; congruence | | discriminate].
  cbn [bind]. rewrite outcome_Do, outcome_bind.
  destruct (outcome (runScript scriptNo) _) as [[err |] | msg];
    [cbn [bind]; rewrite outcome_Do; unfold outcome; cbn; congruence | | discriminate].
  rewrite outcome_bind.
  destruct (outcome (stopScript scriptNo) _) as [[err |] | msg];
    [cbn [bind]; rewrite !outcome_Do; unfold outcome; cbn; congruence | | discriminate].
  cbn [bind]. rewrite outcome_Do, outcome_bind.
  destruct (outcome (getJournal _ _) _) as [[out [err |]] | msg];
    [cbn [bind]; rewrite outcome_Do; unfold outcome; cbn; congruence | | discriminate].
  unfold outcome. cbn. congruence.
Qed.

(** X3. [loadExecuteAndGetOutput] never returns lines together with an
    error, whichever step failed. *)
Theorem bridge_error_has_no_lines (w : W) (script : string)
    (lines : list string) (e : error) :
  outcome (loadExecuteAndGetOutput script) w = Returned (lines, Some e) ->
  lines = [].
Proof.
  unfold loadExecuteAndGetOutput.
  rewrite !outcome_call.
  destruct (handle _ os_TempDir w) as [dir w1]. cbn [fst snd].
  destruct (handle _ (os_CreateTemp dir "kwin_script_*.js") w1)
    as [[f [err |]] w2]; cbn [fst snd]; [unfold outcome; cbn; congruence |].
  rewrite outcome_with_defer, outcome_closeAndRemove.
  rewrite !outcome_call.
  destruct (handle _ (File_WriteString f script) w2) as [[err |] w3]; cbn [fst snd].
  { unfold Printf. rewrite outcome_call. unfold outcome. cbn. congruence. }
  rewrite !outcome_call.
  destruct (handle _ (os_Chmod f 511) w3) as [[err |] w4]; cbn [fst snd].
  { unfold Printf. rewrite outcome_call. unfold outcome. cbn. congruence. }
  apply registerRunStop_error.
Qed.

End RoundTrip2.

Section Cleanup.
Context {W : Type} `{World W} `{TimeFormatter}.






End Cleanup.

Section Lifecycle.
Context {W : Type} `{World W} `{TimeFormatter}.

Lemma never_writes_other (script other : string) :
  String.eqb script other = false ->
  never (@writesScript other) (loadExecuteAndGetOutput script).
Proof.
  intros Heq. unfold loadExecuteAndGetOutput.
  apply never_bind; [never_pkg |]. intros dir.
  apply never_bind; [never_pkg |]. intros [f [err |]]; [never_pkg |].
  apply never_with_defer; [never_pkg |].
  unfold call at 1. cbn [bind]. split; [exact Heq |]. intros err.
  never_pkg.
Qed.

(** X5. Whatever [loadExecuteAndGetOutput] writes to a file is the
    scriptlet it was given, unchanged. *)
Theorem scriptlet_is_written_verbatim (w : W) (script written : string) :
  existsb (writes written) (trace (loadExecuteAndGetOutput script) w) = true ->
  written = script.
Proof.
  intros Hw. destruct (String.eqb script written) eqn:Heq;
    [symmetry; apply String.eqb_eq, Heq |].
  exfalso. revert Hw. unfold writes.
  rewrite never_trace; [discriminate | apply never_writes_other, Heq].
Qed.

Lemma prints_not_dbus (tr : list Event) :
  forallb isPrint tr = true -> existsb isDbus tr = false.
Proof.
  induction tr as [| [R c r t t'] tr IH]; [reflexivity |].
  cbn [forallb existsb]. intros Hp. apply andb_prop in Hp as [Hc Hp].
  rewrite (IH Hp), orb_false_r. destruct c; try discriminate Hc. reflexivity.
Qed.

Lemma trace_stopScript (scriptNo : Z) (w : W) :
  exists tr,
    trace (stopScript scriptNo) w
    = Ev (stopStep scriptNo) (handle _ (stopStep scriptNo) w).1
         (clock w) (clock (handle _ (stopStep scriptNo) w).2) :: tr
    /\ forallb isPrint tr = true.
Proof.
  unfold stopScript, callDbusSend, trace. rewrite run_bind.
  fold (stopStep scriptNo).
  match goal with
  | |- context [callProgramAndReadOutput ?c ?a] =>
    destruct (run_callProgram c a w) as (tr & w2 & -> & Hpr & _)
  end.
  fold (stopStep scriptNo).
  destruct (reading _) as [[lines [err |]] | msg]; cbn;
    rewrite ?app_nil_r; eauto.
Qed.

Lemma no_dbus {A : Type} (p : Go A) (w : W) :
  never (@dbus) p -> existsb isDbus (trace p w) = false.
Proof. intros Hp. apply never_trace, Hp. Qed.

Lemma lifecycle_shift (tr pre post : list Event) (scriptNo : Z) :
  existsb isDbus pre = false ->
  existsb isDbus post = false ->
  lifecycle tr scriptNo ->
  lifecycle (pre ++ tr ++ post) scriptNo.
Proof.
  intros Hpre Hpost [pre' post' f Pload Prun Pstop start a0 a1 a2 a3 a4 -> Hn Hl Hr Hp Hq].
  eapply (lifecycle_intro _ _ (pre ++ pre') (post' ++ post));
    [| exact Hn | exact Hl | exact Hr | |].
  - rewrite <- !app_assoc. reflexivity.
  - rewrite existsb_app, Hpre, Hp. reflexivity.
  - rewrite existsb_app, Hpost, Hq. reflexivity.
Qed.

Ltac no_stop_here :=
  repeat (progress (rewrite ?existsb_app; cbn [existsb]));
  rewrite ?no_stop by never_pkg;
  let Hf := fresh in intros Hf; lazy in Hf; discriminate Hf.

Lemma registerRunStop_lifecycle (scriptFile : string) (w : W) :
  existsb isStop (trace (registerRunStop scriptFile) w) = true ->
  exists scriptNo, lifecycle (trace (registerRunStop scriptFile) w) scriptNo.
Proof.
  unfold registerRunStop. rewrite trace_bind.
  destruct (outcome (loadScript scriptFile) w) as [[scriptNo [err |]] | msg] eqn:Hload;
    [no_stop_here | | no_stop_here].
  destruct (run_loadScript_ok _ _ _ Hload) as (Hrl & Hokl & Hn).
  assert (Htl : trace (loadScript scriptFile) w
                = [Ev (exec_Command dbusSend (loadScriptArgs scriptFile))
                      (handle _ (exec_Command dbusSend (loadScriptArgs scriptFile)) w).1
                      (clock w)
                      (clock (handle _ (exec_Command dbusSend (loadScriptArgs scriptFile)) w).2)])
    by (unfold trace; rewrite Hrl; reflexivity).
  assert (Hfl : final (loadScript scriptFile) w
                = (handle _ (exec_Command dbusSend (loadScriptArgs scriptFile)) w).2)
    by (unfold final; rewrite Hrl; reflexivity).
  rewrite Htl, Hfl. clear Htl Hfl Hrl.
  destruct (handle _ (exec_Command dbusSend (loadScriptArgs scriptFile)) w)
    as [Pload w1]. cbn [fst snd] in *.
  rewrite trace_call.
  destruct (handle Time time_Now w1) as [start w2]. cbn [fst snd].
  rewrite trace_bind.
  destruct (outcome (runScript scriptNo) w2) as [[err |] | msg] eqn:Hrun;
    [no_stop_here | | no_stop_here].
  pose proof (failed_runScript _ _ Hrun) as Hokr.
  destruct (trace_runScript_ok _ _ Hrun) as [-> ->].
  destruct (handle Process (runStep scriptNo) w2) as [Prun w3]. cbn [fst snd] in *.
  rewrite trace_bind.
  destruct (trace_stopScript scriptNo w3) as (trs & -> & Hprints).
  intros _. exists scriptNo.
  eapply (lifecycle_intro _ _ [] _ scriptFile Pload Prun _ start);
    [cbn [app]; reflexivity | exact Hn | exact Hokl | exact Hokr | reflexivity |].
  rewrite existsb_app, (prints_not_dbus _ Hprints).
  destruct (outcome (stopScript scriptNo) w3) as [err | msg]; [| reflexivity].
  apply no_dbus. never_pkg.
Qed.

(** X6. Whenever [loadExecuteAndGetOutput] attempts the stop step, it
    has registered the scriptlet, read the clock and run the scriptlet
    just before, with success; run and stop address the number the
    registration reply carries; and the execution holds no other call
    of [dbus-send]. *)
Theorem stop_follows_registration_and_run (w : W) (script : string) :
  existsb isStop (trace (loadExecuteAndGetOutput script) w) = true ->
  exists scriptNo, lifecycle (trace (loadExecuteAndGetOutput script) w) scriptNo.
Proof.
  unfold loadExecuteAndGetOutput. rewrite !trace_call.
  destruct (handle _ os_TempDir w) as [dir w1]. cbn [fst snd].
  destruct (handle _ (os_CreateTemp dir "kwin_script_*.js") w1)
    as [[f [err |]] w2]; cbn [fst snd]; [no_stop_here |].
  rewrite trace_with_defer. rewrite !trace_call, !final_call.
  destruct (handle _ (File_WriteString f script) w2) as [[err |] w3]; cbn [fst snd];
    [no_stop_here |].
  rewrite !trace_call, !final_call.
  destruct (handle _ (os_Chmod f 511) w3) as [[err |] w4]; cbn [fst snd];
    [no_stop_here |].
  cbn [existsb app]. rewrite !existsb_app.
  rewrite (no_stop (closeAndRemove f)) by never_pkg.
  rewrite !orb_false_r.
  change (isStop (Ev os_TempDir dir (clock w) (clock w1))) with false.
  cbn [orb]. intros Hs.
  destruct (registerRunStop_lifecycle f w4 Hs) as (scriptNo & Hlife).
  exists scriptNo.
  match goal with
  | |- lifecycle (?e1 :: ?e2 :: ?e3 :: ?e4 :: ?tr ++ ?post) _ =>
    apply (lifecycle_shift tr [e1; e2; e3; e4] post);
      [reflexivity | apply no_dbus; never_pkg | exact Hlife]
  end.
Qed.

End Lifecycle.

Section Bytes.

Lemma hasByte_app (b : ascii) (s t : string) :
  hasByte b (s +:+ t) = hasByte b s || hasByte b t.
Proof.
  induction s as [| c s IH]; [reflexivity |].
  rewrite append_String. cbn [hasByte]. rewrite IH, orb_assoc. reflexivity.
Qed.

Lemma prefix_byte (b c : ascii) (r : string) :
  String.prefix (String b EmptyString) (String c r) = Ascii.eqb c b.
Proof.
  cbn -[ascii_dec]. destruct (ascii_dec b c) as [-> | Hne].
  - rewrite prefix_Empty, Ascii.eqb_refl. reflexivity.
  - symmetry. apply Ascii.eqb_neq. congruence.
Qed.

(** Replacing a byte by another leaves none of it. *)
Lemma replace_byte_gone (b c : ascii) (s : string) :
  b <> c ->
  hasByte b (strings.ReplaceAll s (String b EmptyString) (String c EmptyString)) = false.
Proof.
  intros Hbc. unfold strings.ReplaceAll.
  induction s as [| a s IH]; [reflexivity |].
  cbn [strings.replaceFrom]. rewrite prefix_byte.
  destruct (Ascii.eqb a b) eqn:Hab.
  - cbn [String.length Nat.sub]. rewrite append_String, append_Empty.
    cbn [hasByte]. rewrite IH, orb_false_r. apply Ascii.eqb_neq. congruence.
  - cbn [hasByte]. rewrite Hab, IH. reflexivity.
Qed.

Lemma trimLeftFrom_byte (b : ascii) (s : string) (skip : nat) :
  hasByte b s = false -> hasByte b (strings.trimLeftFrom skip s) = false.
Proof.
  revert skip. induction s as [| c s IH]; intros skip Hs; [reflexivity |].
  cbn [hasByte] in Hs. apply orb_false_elim in Hs as [Hc Hs].
  cbn [strings.trimLeftFrom]. destruct skip as [| k]; [| apply IH, Hs].
  destruct (strings.spaceLen (String c s)); [| apply IH, Hs].
  cbn [hasByte]. rewrite Hc, Hs. reflexivity.
Qed.

Lemma trimRight_byte (b : ascii) (s : string) :
  hasByte b s = false -> hasByte b (strings.trimRight s) = false.
Proof.
  induction s as [| c s IH]; intros Hs; [reflexivity |].
  cbn [hasByte] in Hs. apply orb_false_elim in Hs as [Hc Hs].
  cbn [strings.trimRight]. destruct (strings.allSpaceFrom 0 (String c s));
    [reflexivity |].
  cbn [hasByte]. rewrite Hc, (IH Hs). reflexivity.
Qed.

Lemma TrimSpace_byte (b : ascii) (s : string) :
  hasByte b s = false -> hasByte b (strings.TrimSpace s) = false.
Proof. intros Hs. apply trimRight_byte, trimLeftFrom_byte, Hs. Qed.

(** A byte that is white space on its own. *)
Lemma spaceLen_space (c : ascii) (r : string) :
  strings.spaceLen (String c r) = 0%nat -> Ascii.eqb c " " = false.
Proof.
  intros Hlen. apply Ascii.eqb_neq. intros ->. discriminate Hlen.
Qed.

Lemma fieldsFrom_words (s : string) (skip : nat) :
  Forall (fun f => f <> EmptyString /\ hasByte " " f = false)
         (strings.fieldsFrom skip s).2.
Proof.
  revert skip. induction s as [| c s IH]; intros skip; [constructor |].
  cbn [strings.fieldsFrom]. destruct skip as [| k]; [| apply IH].
  destruct (strings.spaceLen (String c s)) eqn:Hlen; [| apply IH].
  pose proof (spaceLen_space _ _ Hlen) as Hc.
  specialize (IH 0%nat).
  destruct (strings.fieldsFrom 0 s) as [[|] [| f fs]]; cbn [snd] in *.
  - constructor; [| constructor]. split; [discriminate |].
    cbn [hasByte]. rewrite Hc. reflexivity.
  - inversion IH as [| ? ? [_ Hf] Hfs]; subst.
    constructor; [| exact Hfs]. split; [discriminate |].
    cbn [hasByte]. rewrite Hc, Hf. reflexivity.
  - constructor; [| constructor]. split; [discriminate |].
    cbn [hasByte]. rewrite Hc. reflexivity.
  - constructor; [| exact IH]. split; [discriminate |].
    cbn [hasByte]. rewrite Hc. reflexivity.
Qed.

Lemma fieldsFrom_byte (b : ascii) (s : string) (skip : nat) :
  hasByte b s = false ->
  Forall (fun f => hasByte b f = false) (strings.fieldsFrom skip s).2.
Proof.
  revert skip. induction s as [| c s IH]; intros skip Hs; [constructor |].
  cbn [hasByte] in Hs. apply orb_false_elim in Hs as [Hc Hs].
  cbn [strings.fieldsFrom]. destruct skip as [| k]; [| apply IH, Hs].
  destruct (strings.spaceLen (String c s)) eqn:Hlen; [| apply IH, Hs].
  specialize (IH 0%nat Hs).
  destruct (strings.fieldsFrom 0 s) as [[|] [| f fs]]; cbn [snd] in *.
  - constructor; [| constructor]. cbn [hasByte]. rewrite Hc. reflexivity.
  - inversion IH as [| ? ? Hf Hfs]; subst.
    constructor; [| exact Hfs]. cbn [hasByte]. rewrite Hc, Hf. reflexivity.
  - constructor; [| constructor]. cbn [hasByte]. rewrite Hc. reflexivity.
  - constructor; [| exact IH]. cbn [hasByte]. rewrite Hc. reflexivity.
Qed.

(** No piece of a split on one byte holds that byte. *)
Lemma splitFrom_byte (b : ascii) (s : string) (skip : nat) :
  Forall (fun p => hasByte b p = false)
         (strings.splitFrom (String b EmptyString) skip s).
Proof.
  revert skip. induction s as [| c s IH]; intros skip.
  - repeat constructor.
  - cbn [strings.splitFrom]. destruct skip as [| k]; [| apply IH].
    rewrite prefix_byte. destruct (Ascii.eqb c b) eqn:Hc.
    + constructor; [reflexivity | apply IH].
    + specialize (IH 0%nat).
      destruct (strings.splitFrom (String b EmptyString) 0 s) as [| p ps].
      * constructor; [| constructor]. cbn [hasByte]. rewrite Hc. reflexivity.
      * inversion IH as [| ? ? Hp Hps]; subst.
        constructor; [| exact Hps]. cbn [hasByte]. rewrite Hc, Hp. reflexivity.
Qed.

Lemma Forall_last {A : Type} (P : A -> Prop) (l : list A) (d : A) :
  Forall P l -> P d -> P (List.last l d).
Proof.
  intros Hl Hd. induction Hl as [| x l Hx Hl IH]; [exact Hd |].
  destruct l as [| y l]; [exact Hx | exact IH].
Qed.

Lemma appNameOf_no_slash (cmdLine : string) :
  hasByte "/" (appNameOf cmdLine) = false.
Proof.
  unfold appNameOf. apply TrimSpace_byte.
  apply (Forall_last (fun p => hasByte "/" p = false)); [| reflexivity].
  apply splitFrom_byte.
Qed.

End Bytes.

Section Records.
Context {W : Type} `{World W}.
Context `{UUIDParser} `{TimeFormatter}.
Context `{Unmarshaler Screen} `{Unmarshaler Desktop} `{Unmarshaler Window}.

(** X7. [getProcessCmdLine] never panics.  With a nil error its result
    holds no NUL byte (each is turned into a space before trimming);
    with an error its result is the empty string, the error is the
    one of [os.ReadFile], and nothing of the file is passed on. *)
Theorem getProcessCmdLine_result (w : W) (processId : Z) :
  exists cmdLine err,
    outcome (getProcessCmdLine processId) w = Returned (cmdLine, err)
    /\ err = (handle _ (procFile processId) w).1.2
    /\ (err = None -> hasByte (byte 0) cmdLine = false)
    /\ (err <> None -> cmdLine = EmptyString).
Proof.
  unfold getProcessCmdLine. fold (procFile processId).
  rewrite outcome_call.
  destruct (handle _ (procFile processId) w) as [[content [e |]] w1]; cbn [fst snd].
  - unfold Printf. rewrite outcome_call. do 2 eexists.
    split; [reflexivity |]. split; [reflexivity |]. split; [discriminate | reflexivity].
  - do 2 eexists. split; [reflexivity |]. split; [reflexivity |].
    split; [| congruence]. intros _.
    apply TrimSpace_byte, replace_byte_gone. discriminate.
Qed.

Lemma foldl_insert_entry {K V L : Type} `{Countable K}
    (key : L -> K) (val : L -> V) (ls : list L) (m0 : gmap K V) (k : K) (v : V) :
  foldl (fun acc l => <[key l := val l]> acc) m0 ls !! k = Some v ->
  (exists l, l ∈ ls /\ key l = k /\ val l = v) \/ m0 !! k = Some v.
Proof.
  revert m0. induction ls as [| l ls IH]; intros m0; cbn [foldl]; [auto |].
  intros Hk. destruct (IH _ Hk) as [(l' & Hin & Hkey & Hval) | Hm].
  - left. exists l'. split; [right; exact Hin | auto].
  - rewrite lookup_insert in Hm. case_decide as Hd.
    + left. exists l. split; [left | split; congruence].
    + auto.
Qed.

Lemma foldl_insert_keep {K V L : Type} `{Countable K}
    (key : L -> K) (val : L -> V) (ls : list L) (m0 : gmap K V) (k : K) :
  (forall l, l ∈ ls -> key l <> k) ->
  foldl (fun acc l => <[key l := val l]> acc) m0 ls !! k = m0 !! k.
Proof.
  revert m0. induction ls as [| l ls IH]; intros m0 Hls; cbn [foldl]; [reflexivity |].
  rewrite IH by (intros l' Hl'; apply Hls; right; exact Hl').
  apply lookup_insert_ne, Hls. left.
Qed.

Lemma foldl_insert_last {K V L : Type} `{Countable K}
    (key : L -> K) (val : L -> V) (pre post : list L) (l : L) (m0 : gmap K V) :
  (forall l', l' ∈ post -> key l' <> key l) ->
  foldl (fun acc l => <[key l := val l]> acc) m0 (pre ++ l :: post) !! key l
  = Some (val l).
Proof.
  intros Hpost. rewrite foldl_app. cbn [foldl].
  rewrite foldl_insert_keep by exact Hpost. apply lookup_insert_eq.
Qed.

Lemma GetScreens_loop_fold (output : list string) (m0 m : gmap string Screen) (w : W) :
  outcome (GetScreens_loop output m0) w = Returned (Some m, None) ->
  Forall (fun line => json_Unmarshal (strip line) zeroScreen
                      = (decoded zeroScreen line, None)) output
  /\ m = foldl (fun acc line =>
                  <[Screen_Name (decoded zeroScreen line) := decoded zeroScreen line]> acc)
               m0 output.
Proof.
  revert m0. induction output as [| s output IH]; intros m0.
  - unfold outcome. cbn. intros [= <-]. split; [constructor | reflexivity].
  - cbn [GetScreens_loop foldl]. fold (strip s).
    assert (Hs : decoded zeroScreen s = (json_Unmarshal (strip s) zeroScreen).1)
      by reflexivity.
    destruct (json_Unmarshal (strip s) zeroScreen) as [d [err |]] eqn:Hd;
      [discriminate |].
    cbn [fst] in Hs. rewrite Hs.
    intros Hrun. destruct (IH _ Hrun) as [Hall Hm].
    split; [| exact Hm]. constructor; [| exact Hall].
    rewrite Hs. exact Hd.
Qed.

(** X8. The map [GetScreens] returns is the journal read line by line:
    every line decodes without error; every entry is the screen some
    line decodes to, under that screen's name; and of the lines that
    carry one name the last is the one the map holds. *)
Theorem GetScreens_entries (w : W) (lines : list string) (m : gmap string Screen) :
  outcome (loadExecuteAndGetOutput GetScreens_script) w = Returned (lines, None) ->
  outcome GetScreens w = Returned (Some m, None) ->
  (forall line, line ∈ lines ->
     json_Unmarshal (strip line) zeroScreen = (decoded zeroScreen line, None))
  /\ (forall name s, m !! name = Some s ->
        Screen_Name s = name
        /\ exists line, line ∈ lines /\ decoded zeroScreen line = s)
  /\ (forall pre line post, lines = pre ++ line :: post ->
        (forall l, l ∈ post ->
           Screen_Name (decoded zeroScreen l) <> Screen_Name (decoded zeroScreen line)) ->
        m !! Screen_Name (decoded zeroScreen line) = Some (decoded zeroScreen line)).
Proof.
  intros Hlines. unfold GetScreens. rewrite outcome_bind, Hlines.
  intros Hloop. apply GetScreens_loop_fold in Hloop as [Hall ->].
  split; [apply Forall_forall, Hall |]. split.
  - intros name s Hs.
    apply (foldl_insert_entry (fun line => Screen_Name (decoded zeroScreen line))
             (decoded zeroScreen)) in Hs as [(l & Hin & Hkey & Hval) | Hs].
    + subst s. split; [exact Hkey | eauto].
    + rewrite lookup_empty in Hs. discriminate Hs.
  - intros pre line post -> Hpost.
    apply (foldl_insert_last (fun line => Screen_Name (decoded zeroScreen line))
             (decoded zeroScreen)), Hpost.
Qed.

End Records.

Section Records2.
Context {W : Type} `{World W}.
Context `{UUIDParser} `{TimeFormatter}.
Context `{Unmarshaler Screen} `{Unmarshaler Desktop} `{Unmarshaler Window}.

Lemma GetDesktops_loop_fold (output : list string) (m0 m : gmap UUID Desktop) (w : W) :
  outcome (GetDesktops_loop output m0) w = Returned (Some m, None) ->
  Forall (fun line =>
            json_Unmarshal (strip line) zeroDesktop = (decoded zeroDesktop line, None)
            /\ (uuid_Parse (Desktop_Id (decoded zeroDesktop line))).2 = None) output
  /\ m = foldl (fun acc line =>
                  <[(uuid_Parse (Desktop_Id (decoded zeroDesktop line))).1
                    := decoded zeroDesktop line]> acc)
               m0 output.
Proof.
  revert m0. induction output as [| s output IH]; intros m0.
  - unfold outcome. cbn. intros [= <-]. split; [constructor | reflexivity].
  - cbn [GetDesktops_loop foldl]. fold (strip s).
    assert (Hs : decoded zeroDesktop s = (json_Unmarshal (strip s) zeroDesktop).1)
      by reflexivity.
    destruct (json_Unmarshal (strip s) zeroDesktop) as [d [err |]] eqn:Hd;
      [discriminate |].
    cbn [fst] in Hs. rewrite Hs. unfold uuid_MustParse.
    destruct (uuid_Parse (Desktop_Id d)) as [u [err |]] eqn:Hu; [discriminate |].
    cbn [bind fst].
    intros Hrun. destruct (IH _ Hrun) as [Hall Hm].
    split; [| exact Hm]. constructor; [| exact Hall].
    rewrite Hs, Hu. split; [exact Hd | reflexivity].
Qed.

(** X9. The map [GetDesktops] returns is the journal read line by
    line: every line decodes without error to a desktop whose id
    [uuid.Parse] accepts; every entry is the desktop some line decodes
    to, under the identifier its id parses to; and of the lines whose
    ids parse to one identifier the last is the one the map holds. *)
Theorem GetDesktops_entries (w : W) (lines : list string) (m : gmap UUID Desktop) :
  outcome (loadExecuteAndGetOutput GetDesktops_script) w = Returned (lines, None) ->
  outcome GetDesktops w = Returned (Some m, None) ->
  (forall line, line ∈ lines ->
     json_Unmarshal (strip line) zeroDesktop = (decoded zeroDesktop line, None)
     /\ (uuid_Parse (Desktop_Id (decoded zeroDesktop line))).2 = None)
  /\ (forall u d, m !! u = Some d ->
        uuid_Parse (Desktop_Id d) = (u, None)
        /\ exists line, line ∈ lines /\ decoded zeroDesktop line = d)
  /\ (forall pre line post, lines = pre ++ line :: post ->
        (forall l, l ∈ post ->
           (uuid_Parse (Desktop_Id (decoded zeroDesktop l))).1
           <> (uuid_Parse (Desktop_Id (decoded zeroDesktop line))).1) ->
        m !! (uuid_Parse (Desktop_Id (decoded zeroDesktop line))).1
        = Some (decoded zeroDesktop line)).
Proof.
  intros Hlines. unfold GetDesktops. rewrite outcome_bind, Hlines.
  intros Hloop. apply GetDesktops_loop_fold in Hloop as [Hall ->].
  rewrite Forall_forall in Hall.
  split; [exact Hall |]. split.
  - intros u d Hd.
    apply (foldl_insert_entry
             (fun line => (uuid_Parse (Desktop_Id (decoded zeroDesktop line))).1)
             (decoded zeroDesktop)) in Hd as [(l & Hin & Hkey & Hval) | Hd].
    + subst d. split; [| eauto].
      destruct (Hall l Hin) as [_ Hok]. rewrite <- Hkey.
      destruct (uuid_Parse _) as [u' e]. cbn [fst snd] in *. congruence.
    + rewrite lookup_empty in Hd. discriminate Hd.
  - intros pre line post -> Hpost.
    apply (foldl_insert_last
             (fun line => (uuid_Parse (Desktop_Id (decoded zeroDesktop line))).1)
             (decoded zeroDesktop)), Hpost.
Qed.

Lemma getProcessCmdLine_nul (processId : Z) (cmdLine : string) (w : W) :
  outcome (getProcessCmdLine processId) w = Returned (cmdLine, None) ->
  hasByte (byte 0) cmdLine = false.
Proof.
  unfold getProcessCmdLine. rewrite outcome_call.
  destruct (handle _ _ w) as [[content [e |]] w1]; cbn [fst snd].
  - unfold Printf. rewrite outcome_call. discriminate.
  - unfold outcome. cbn. intros [= <-].
    apply TrimSpace_byte, replace_byte_gone. discriminate.
Qed.

Lemma index_head {A : Type} (l : list A) (x : A) :
  index l 0 = Ret x -> exists rest, l = x :: rest.
Proof.
  unfold index. cbn. destruct l as [| y l]; [discriminate |].
  cbn. intros [= <-]. eauto.
Qed.

Lemma index_last_eq {A : Type} (l : list A) (x d : A) :
  index l (Z.of_nat (length l) - 1) = Ret x -> x = List.last l d.
Proof.
  unfold index. destruct (_ <? 0) eqn:Hneg; [discriminate |].
  apply Z.ltb_ge in Hneg.
  destruct (l !! _) as [y |] eqn:Hy; [| discriminate]. intros [= <-].
  replace (Z.to_nat (Z.of_nat (length l) - 1)) with (length l - 1)%nat in Hy by lia.
  clear Hneg. revert Hy. induction l as [| a l IH]; [discriminate |].
  destruct l as [| b l]; [cbn; congruence |].
  intros Hy. apply IH. cbn [length] in Hy |- *.
  replace (S (S (length l)) - 1)%nat with (S (length l - 0)) in Hy by lia.
  replace (S (length l) - 1)%nat with (length l - 0)%nat by lia. exact Hy.
Qed.

Lemma run_getProcessCmdLine (processId : Z) (w : W) (raw : string) :
  outcome (getProcessCmdLine processId) w = Returned (raw, None) ->
  exists content,
    (handle _ (procFile processId) w).1 = (content, None)
    /\ raw = strings.TrimSpace (strings.ReplaceAll content nul space)
    /\ trace (getProcessCmdLine processId) w
       = [Ev (procFile processId) (content, None) (clock w)
             (clock (handle _ (procFile processId) w).2)]
    /\ final (getProcessCmdLine processId) w = (handle _ (procFile processId) w).2.
Proof.
  unfold getProcessCmdLine. fold (procFile processId).
  rewrite outcome_call, trace_call, final_call.
  destruct (handle _ (procFile processId) w) as [[content [e |]] w1]; cbn [fst snd].
  - unfold Printf. rewrite outcome_call. discriminate.
  - unfold outcome. cbn. intros [= <-]. exists content. auto.
Qed.

(** One turn of the loop of [GetWindows] that goes on to the next
    line. *)
Lemma GetWindows_loop_step (desktops : option (gmap UUID Desktop))
    (line : string) (rest : list string) (m wins : gmap UUID Window) (w : W) :
  outcome (GetWindows_loop desktops (line :: rest) m) w = Returned (Some wins, None) ->
  exists d u win content fields,
    json_Unmarshal (strip line) zeroWindow = (d, None)
    /\ (handle _ (procFile (Window_Pid d)) w).1 = (content, None)
    /\ strings.Fields (strings.TrimSpace (strings.ReplaceAll content nul space))
       = Window_CmdLine win :: fields
    /\ finished desktops d u win
    /\ trace (GetWindows_loop desktops (line :: rest) m) w
       = Ev (procFile (Window_Pid d)) (content, None) (clock w)
            (clock (handle _ (procFile (Window_Pid d)) w).2)
         :: trace (GetWindows_loop desktops rest (<[u := win]> m))
              (handle _ (procFile (Window_Pid d)) w).2
    /\ outcome (GetWindows_loop desktops rest (<[u := win]> m))
         (handle _ (procFile (Window_Pid d)) w).2
       = Returned (Some wins, None).
Proof.
  cbn [GetWindows_loop]. fold (strip line).
  destruct (json_Unmarshal (strip line) zeroWindow) as [d [err |]]; [discriminate |].
  rewrite outcome_bind, trace_bind.
  destruct (outcome (getProcessCmdLine (Window_Pid d)) w)
    as [[rawCmdLine [err |]] | msg] eqn:Hraw; [| | discriminate].
  { unfold Printf. rewrite outcome_call. discriminate. }
  pose proof (getProcessCmdLine_nul _ _ _ Hraw) as Hnul.
  destruct (run_getProcessCmdLine _ _ _ Hraw) as (content & Hread & Hrawc & -> & ->).
  destruct (index (strings.Fields rawCmdLine) 0) as [cmdLine | msg | R c k] eqn:Hi;
    [| discriminate |].
  2: { unfold index in Hi. destruct (0 <? 0); [discriminate Hi |].
       destruct (_ !! _); discriminate Hi. }
  apply index_head in Hi as [fields Hfields].
  cbn [bind].
  match goal with
  | |- context [index ?l ?i] =>
    destruct (index l i) as [last | msg | R c k] eqn:Hl; [| discriminate |]
  end.
  2: { unfold index in Hl. destruct (_ <? 0); [discriminate Hl |].
       destruct (_ !! _); discriminate Hl. }
  apply (index_last_eq _ _ EmptyString) in Hl.
  cbn [bind].
  assert (Hword : cmdLine <> EmptyString /\ hasByte " " cmdLine = false
                  /\ hasByte (byte 0) cmdLine = false).
  { pose proof (fieldsFrom_words rawCmdLine 0) as Hw.
    pose proof (fieldsFrom_byte (byte 0) rawCmdLine 0 Hnul) as Hn.
    unfold strings.Fields in Hfields. rewrite Hfields in Hw, Hn.
    inversion Hw as [| ? ? [? ?] _]. inversion Hn. auto. }
  destruct Hword as (Hne & Hsp & Hnul').
  assert (Hstep : forall d' : Window,
             d' = set_Desktops (set_AppName (set_CmdLine d cmdLine) (appNameOf cmdLine))
                    (match desktops with
                     | Some ds => map (resolve ds) (Window_DesktopIds d)
                     | None => Window_Desktops d
                     end) ->
             forall w1 : W,
             outcome (key <- uuid_MustParse (Window_Id d');
                      GetWindows_loop desktops rest (<[key := d']> m)) w1
             = Returned (Some wins, None) ->
             exists u,
               finished desktops d u d'
               /\ Window_CmdLine d' = cmdLine
               /\ trace (key <- uuid_MustParse (Window_Id d');
                         GetWindows_loop desktops rest (<[key := d']> m)) w1
                  = trace (GetWindows_loop desktops rest (<[u := d']> m)) w1
               /\ outcome (GetWindows_loop desktops rest (<[u := d']> m)) w1
                  = Returned (Some wins, None)).
  { intros d' Hd' w1. unfold uuid_MustParse.
    assert (Hid : Window_Id d' = Window_Id d) by (subst d'; reflexivity).
    rewrite Hid.
    destruct (uuid_Parse (Window_Id d)) as [key [err |]] eqn:Hkey; [discriminate |].
    cbn [bind]. intros Hloop. exists key.
    split; [| split; [subst d'; reflexivity | split; [reflexivity | exact Hloop]]].
    split; [exact Hkey |].
    subst d'. cbn [Window_CmdLine set_Desktops set_AppName set_CmdLine]. auto. }
  subst last. fold (appNameOf cmdLine).
  assert (Hclose : forall d' : Window,
             d' = set_Desktops (set_AppName (set_CmdLine d cmdLine) (appNameOf cmdLine))
                    (match desktops with
                     | Some ds => map (resolve ds) (Window_DesktopIds d)
                     | None => Window_Desktops d
                     end) ->
             outcome (key <- uuid_MustParse (Window_Id d');
                      GetWindows_loop desktops rest (<[key := d']> m))
               (handle _ (procFile (Window_Pid d)) w).2
             = Returned (Some wins, None) ->
             exists d0 u win content0 fields0,
               (d, @None error) = (d0, None)
               /\ (handle _ (procFile (Window_Pid d0)) w).1 = (content0, None)
               /\ strings.Fields (strings.TrimSpace
                                    (strings.ReplaceAll content0 nul space))
                  = Window_CmdLine win :: fields0
               /\ finished desktops d0 u win
               /\ [Ev (procFile (Window_Pid d)) (content, None) (clock w)
                      (clock (handle _ (procFile (Window_Pid d)) w).2)]
                  ++ trace (key <- uuid_MustParse (Window_Id d');
                            GetWindows_loop desktops rest (<[key := d']> m))
                       (handle _ (procFile (Window_Pid d)) w).2
                  = Ev (procFile (Window_Pid d0)) (content0, None) (clock w)
                       (clock (handle _ (procFile (Window_Pid d0)) w).2)
                    :: trace (GetWindows_loop desktops rest (<[u := win]> m))
                         (handle _ (procFile (Window_Pid d0)) w).2
               /\ outcome (GetWindows_loop desktops rest (<[u := win]> m))
                    (handle _ (procFile (Window_Pid d0)) w).2
                  = Returned (Some wins, None)).
  { intros d' Hd' Hout.
    destruct (Hstep d' Hd' _ Hout) as (u & Hfin & Hcmd & Htr & Hrest).
    exists d, u, d', content, fields.
    split; [reflexivity |]. split; [exact Hread |].
    split; [rewrite Hcmd, <- Hrawc; exact Hfields |].
    split; [exact Hfin |]. split; [rewrite Htr; reflexivity | exact Hrest]. }
  destruct desktops as [ds |].
  - cbn [Window_DesktopIds set_AppName set_CmdLine].
    rewrite resolveDesktops_total. cbn [bind]. apply Hclose. reflexivity.
  - cbn [bind]. apply Hclose. destruct d; reflexivity.
Qed.

Lemma GetWindows_loop_finished (desktops : option (gmap UUID Desktop))
    (lines output : list string) (m wins : gmap UUID Window) (w : W) :
  (forall line, line ∈ output -> line ∈ lines) ->
  (forall u win, m !! u = Some win ->
     exists line, line ∈ lines /\ finished desktops (decoded zeroWindow line) u win) ->
  outcome (GetWindows_loop desktops output m) w = Returned (Some wins, None) ->
  forall u win, wins !! u = Some win ->
    exists line, line ∈ lines /\ finished desktops (decoded zeroWindow line) u win.
Proof.
  revert m w. induction output as [| s output IH]; intros m w Hsub Hm.
  - unfold outcome. cbn. intros [= <-]. exact Hm.
  - intros Hloop.
    destruct (GetWindows_loop_step _ _ _ _ _ _ Hloop)
      as (d & key & d' & content & fields & Hd & _ & _ & Hfin & _ & Hrest).
    refine (IH _ _ (fun line Hin => Hsub line ltac:(right; exact Hin)) _ Hrest).
    intros u win. rewrite lookup_insert. case_decide as Hu; [| apply Hm].
    intros [= <-]. exists s. split; [apply Hsub; left |].
    unfold decoded. rewrite Hd. subst u. exact Hfin.
Qed.

Lemma readFrom_app (tr tr' : list Event) (processId : Z) (cmdLine : string) :
  readFrom tr processId cmdLine \/ readFrom tr' processId cmdLine ->
  readFrom (tr ++ tr') processId cmdLine.
Proof.
  intros [(content & fields & t & t' & Hin & Hf) | (content & fields & t & t' & Hin & Hf)];
    exists content, fields, t, t'; (split; [| exact Hf]);
    apply elem_of_app; auto.
Qed.

(** The same, with the read each command line comes from. *)
Lemma GetWindows_loop_read (desktops : option (gmap UUID Desktop))
    (lines output : list string) (m wins : gmap UUID Window) (w : W)
    (tr0 : list Event) :
  (forall line, line ∈ output -> line ∈ lines) ->
  (forall u win, m !! u = Some win ->
     exists line, line ∈ lines
       /\ finished desktops (decoded zeroWindow line) u win
       /\ readFrom tr0 (Window_Pid (decoded zeroWindow line)) (Window_CmdLine win)) ->
  outcome (GetWindows_loop desktops output m) w = Returned (Some wins, None) ->
  forall u win, wins !! u = Some win ->
    exists line, line ∈ lines
      /\ finished desktops (decoded zeroWindow line) u win
      /\ readFrom (tr0 ++ trace (GetWindows_loop desktops output m) w)
           (Window_Pid (decoded zeroWindow line)) (Window_CmdLine win).
Proof.
  revert m w tr0. induction output as [| s output IH]; intros m w tr0 Hsub Hm.
  - unfold outcome. cbn. intros [= <-] u win Hwin.
    destruct (Hm u win Hwin) as (line & Hin & Hfin & Hread).
    exists line. split; [exact Hin |]. split; [exact Hfin |].
    apply readFrom_app. left. exact Hread.
  - intros Hloop.
    destruct (GetWindows_loop_step _ _ _ _ _ _ Hloop)
      as (d & key & d' & content & fields & Hd & _ & Hfields & Hfin & -> & Hrest).
    intros u win Hwin.
    assert (Hm' : forall u' win', <[key := d']> m !! u' = Some win' ->
              exists line, line ∈ lines
                /\ finished desktops (decoded zeroWindow line) u' win'
                /\ readFrom (tr0 ++ [Ev (procFile (Window_Pid d)) (content, None)
                                       (clock w)
                                       (clock (handle _ (procFile (Window_Pid d)) w).2)])
                     (Window_Pid (decoded zeroWindow line)) (Window_CmdLine win')).
    { intros u' win'. rewrite lookup_insert. case_decide as Hu.
      * intros [= <-]. exists s. split; [apply Hsub; left |].
        unfold decoded. rewrite Hd. subst u'. split; [exact Hfin |].
        apply readFrom_app. right.
        exists content, fields, (clock w),
          (clock (handle _ (procFile (Window_Pid d)) w).2).
        split; [left | exact Hfields].
      * intros Hold. destruct (Hm u' win' Hold) as (line & Hin & Hf & Hr).
        exists line. split; [exact Hin |]. split; [exact Hf |].
        apply readFrom_app. left. exact Hr. }
    destruct (IH _ _ _ (fun line Hin => Hsub line ltac:(right; exact Hin))
                Hm' Hrest u win Hwin) as (line & Hin & Hf & Hr).
    exists line. split; [exact Hin |]. split; [exact Hf |].
    rewrite <- app_assoc in Hr. exact Hr.
Qed.

(** X10. Every entry of the map [GetWindows] returns comes from a
    journal line: it is stored under the identifier the id of the
    decoded record parses to, and is that record with three fields
    set.  CmdLine is the first word of what a read of the command
    line of the process of that record returned during the call (its
    NULs turned into spaces, trimmed), so it is not empty and holds
    neither a space nor a NUL; AppName is what follows the last slash
    of CmdLine, trimmed; Desktops is the desktop ids resolved against
    the map given, and with a nil map it is left as decoded. *)
Theorem GetWindows_entries (w : W) (desktops : option (gmap UUID Desktop))
    (lines : list string) (wins : gmap UUID Window) :
  outcome (loadExecuteAndGetOutput GetWindows_script) w = Returned (lines, None) ->
  outcome (GetWindows desktops) w = Returned (Some wins, None) ->
  forall u win, wins !! u = Some win ->
    exists line, line ∈ lines /\
      let d := decoded zeroWindow line in
      uuid_Parse (Window_Id d) = (u, None)
      /\ win = set_Desktops
                 (set_AppName (set_CmdLine d (Window_CmdLine win))
                    (appNameOf (Window_CmdLine win)))
                 (match desktops with
                  | Some ds => map (resolve ds) (Window_DesktopIds d)
                  | None => Window_Desktops d
                  end)
      /\ (exists content fields t t',
            Ev (procFile (Window_Pid d)) (content, None) t t'
              ∈ trace (GetWindows desktops) w
            /\ strings.Fields
                 (strings.TrimSpace (strings.ReplaceAll content nul space))
               = Window_CmdLine win :: fields)
      /\ Window_CmdLine win <> EmptyString
      /\ hasByte " " (Window_CmdLine win) = false
      /\ hasByte (byte 0) (Window_CmdLine win) = false
      /\ hasByte "/" (Window_AppName win) = false.
Proof.
  intros Hlines. unfold GetWindows. rewrite outcome_bind, trace_bind, Hlines.
  intros Hloop u win Hwin.
  destruct (GetWindows_loop_read desktops lines lines ∅ wins _
              (trace (loadExecuteAndGetOutput GetWindows_script) w)
              (fun _ Hin => Hin)
              ltac:(intros ? ? Hempty; rewrite lookup_empty in Hempty; discriminate)
              Hloop u win Hwin)
    as (line & Hin & (Hkey & Heq & Hne & Hsp & Hnul) & Hread).
  exists line. split; [exact Hin |]. cbn zeta.
  split; [exact Hkey |]. split; [exact Heq |]. split; [exact Hread |].
  repeat (split; [assumption |]).
  rewrite Heq. cbn [Window_AppName set_Desktops set_AppName].
  apply appNameOf_no_slash.
Qed.

End Records2.

Section Snapshot.
Context {W : Type} `{World W}.
Context `{UUIDParser} `{TimeFormatter}.
Context `{Unmarshaler Screen} `{Unmarshaler Desktop} `{Unmarshaler Window}.

Lemma GetScreens_loop_result (output : list string) (m0 : gmap string Screen) (w : W) :
  exists m e, outcome (GetScreens_loop output m0) w = Returned (m, e)
              /\ (m = None <-> e <> None).
Proof.
  revert m0. induction output as [| s output IH]; intros m0; cbn [GetScreens_loop].
  - do 2 eexists. split; [reflexivity |]. split; [discriminate | congruence].
  - destruct (json_Unmarshal _ zeroScreen) as [d [err |]]; [| apply IH].
    do 2 eexists. split; [reflexivity |]. split; [discriminate | reflexivity].
Qed.

Lemma GetScreens_result (w : W) m e :
  outcome GetScreens w = Returned (m, e) -> (m = None <-> e <> None).
Proof.
  unfold GetScreens. rewrite outcome_bind.
  destruct (outcome (loadExecuteAndGetOutput GetScreens_script) w)
    as [[output [err |]] | msg]; [| | discriminate].
  - unfold Printf. rewrite outcome_call. unfold outcome. cbn.
    intros [= <- <-]. split; [discriminate | reflexivity].
  - generalize (final (loadExecuteAndGetOutput GetScreens_script) w). intros w1.
    destruct (GetScreens_loop_result output ∅ w1) as (m' & e' & -> & Hme).
    intros [= <- <-]. exact Hme.
Qed.

Lemma GetDesktops_loop_result (output : list string) (m0 : gmap UUID Desktop) (w : W)
    m e :
  outcome (GetDesktops_loop output m0) w = Returned (m, e) ->
  (m = None <-> e <> None).
Proof.
  revert m0. induction output as [| s output IH]; intros m0; cbn [GetDesktops_loop].
  - unfold outcome. cbn. intros [= <- <-]. split; [discriminate | congruence].
  - destruct (json_Unmarshal _ zeroDesktop) as [d [err |]].
    + unfold outcome. cbn. intros [= <- <-]. split; [discriminate | reflexivity].
    + unfold uuid_MustParse. destruct (uuid_Parse _) as [u [err |]]; cbn [bind];
        [discriminate | apply IH].
Qed.

Lemma GetDesktops_result (w : W) m e :
  outcome GetDesktops w = Returned (m, e) -> (m = None <-> e <> None).
Proof.
  unfold GetDesktops. rewrite outcome_bind.
  destruct (outcome (loadExecuteAndGetOutput GetDesktops_script) w)
    as [[output [err |]] | msg]; [| | discriminate].
  - unfold Printf. rewrite outcome_call. unfold outcome. cbn.
    intros [= <- <-]. split; [discriminate | reflexivity].
  - apply GetDesktops_loop_result.
Qed.

Lemma GetWindows_loop_result (desktops : option (gmap UUID Desktop))
    (output : list string) (m0 : gmap UUID Window) (w : W) m e :
  outcome (GetWindows_loop desktops output m0) w = Returned (m, e) ->
  (m = None <-> e <> None).
Proof.
  revert m0 w. induction output as [| s output IH]; intros m0 w; cbn [GetWindows_loop].
  - unfold outcome. cbn. intros [= <- <-]. split; [discriminate | congruence].
  - destruct (json_Unmarshal _ zeroWindow) as [d [err |]].
    { unfold outcome. cbn. intros [= <- <-]. split; [discriminate | reflexivity]. }
    rewrite outcome_bind.
    destruct (outcome (getProcessCmdLine (Window_Pid d)) w)
      as [[rawCmdLine [err |]] | msg]; [| | discriminate].
    { unfold Printf. rewrite outcome_call. unfold outcome. cbn.
      intros [= <- <-]. split; [discriminate | reflexivity]. }
    generalize (final (getProcessCmdLine (Window_Pid d)) w). intros w1.
    destruct (index (strings.Fields rawCmdLine) 0) as [cmdLine | msg | R c k] eqn:Hi;
      [| discriminate |].
    2: { unfold index in Hi. destruct (0 <? 0); [discriminate Hi |].
         destruct (_ !! _); discriminate Hi. }
    cbn [bind].
    match goal with
    | |- context [index ?l ?i] =>
      destruct (index l i) as [last | msg | R c k] eqn:Hl; [| discriminate |]
    end.
    2: { unfold index in Hl. destruct (_ <? 0); [discriminate Hl |].
         destruct (_ !! _); discriminate Hl. }
    cbn [bind].
    destruct desktops as [ds |].
    + rewrite resolveDesktops_total. cbn [bind]. unfold uuid_MustParse.
      destruct (uuid_Parse _) as [key [err |]]; [discriminate |].
      cbn [bind]. apply IH.
    + cbn [bind]. unfold uuid_MustParse.
      destruct (uuid_Parse _) as [key [err |]]; [discriminate |].
      cbn [bind]. apply IH.
Qed.

Lemma GetWindows_result (desktops : option (gmap UUID Desktop)) (w : W) m e :
  outcome (GetWindows desktops) w = Returned (m, e) -> (m = None <-> e <> None).
Proof.
  unfold GetWindows. rewrite outcome_bind.
  destruct (outcome (loadExecuteAndGetOutput GetWindows_script) w)
    as [[output [err |]] | msg]; [| | discriminate].
  - unfold Printf. rewrite outcome_call. unfold outcome. cbn.
    intros [= <- <-]. split; [discriminate | reflexivity].
  - apply GetWindows_loop_result.
Qed.

(** X11. Each query returns a map or an error, never both and never
    neither: with an error the map is nil, also when the error comes
    in the middle of the journal, and with a nil error the map is not
    nil, also when the journal is empty. *)
Theorem queries_return_map_or_error (w : W) (desktops : option (gmap UUID Desktop)) :
  (forall m e, outcome GetScreens w = Returned (m, e) -> (m = None <-> e <> None))
  /\ (forall m e, outcome GetDesktops w = Returned (m, e) -> (m = None <-> e <> None))
  /\ (forall m e, outcome (GetWindows desktops) w = Returned (m, e) ->
        (m = None <-> e <> None)).
Proof.
  split; [apply GetScreens_result |].
  split; [apply GetDesktops_result | apply GetWindows_result].
Qed.

Lemma GetWindows_finished (w : W) (ds : gmap UUID Desktop) (wins : gmap UUID Window) :
  outcome (GetWindows (Some ds)) w = Returned (Some wins, None) ->
  forall u win, wins !! u = Some win -> resolved ds win.
Proof.
  unfold GetWindows. rewrite outcome_bind.
  destruct (outcome (loadExecuteAndGetOutput GetWindows_script) w)
    as [[output [err |]] | msg]; [| | discriminate].
  { unfold Printf. rewrite outcome_call. discriminate. }
  intros Hloop u win Hwin.
  destruct (GetWindows_loop_finished (Some ds) output output ∅ wins _
              (fun _ Hin => Hin)
              ltac:(intros ? ? Hempty; rewrite lookup_empty in Hempty; discriminate)
              Hloop u win Hwin)
    as (line & _ & _ & Heq & _).
  unfold resolved. rewrite Heq. reflexivity.
Qed.

(** X12. [GetEnvironment] returns all or nothing.  With an error the
    Environment is the zero value, whatever was read before the
    failure.  With a nil error its three maps are not nil, and the
    Desktops of every window are the window's desktop ids looked up in
    the Desktops map of this same Environment (the zero Desktop for an
    id it lacks). *)
Theorem GetEnvironment_all_or_nothing (w : W) (env : Environment) (e : option error) :
  outcome GetEnvironment w = Returned (env, e) ->
  match e with
  | Some _ => env = zeroEnvironment
  | None =>
    exists screens desktops windows,
      env = {| Screens := Some screens; Desktops := Some desktops;
               Windows := Some windows |}
      /\ forall u win, windows !! u = Some win ->
           Window_Desktops win = map (resolve desktops) (Window_DesktopIds win)
  end.
Proof.
  unfold GetEnvironment. rewrite outcome_bind.
  destruct (outcome GetScreens w) as [[screens [err |]] | msg] eqn:Hs;
    [| | discriminate].
  { unfold Printf. rewrite outcome_call. unfold outcome. cbn.
    intros [= <- <-]. reflexivity. }
  generalize (final GetScreens w). intros w1. rewrite outcome_bind.
  destruct (outcome GetDesktops w1) as [[desktops [err |]] | msg] eqn:Hd;
    [| | discriminate].
  { unfold Printf. rewrite outcome_call. unfold outcome. cbn.
    intros [= <- <-]. reflexivity. }
  generalize (final GetDesktops w1). intros w2. rewrite outcome_bind.
  destruct (outcome (GetWindows desktops) w2) as [[windows [err |]] | msg] eqn:Hw;
    [| | discriminate].
  { unfold Printf. rewrite outcome_call. unfold outcome. cbn.
    intros [= <- <-]. reflexivity. }
  unfold outcome. cbn. intros [= <- <-].
  apply GetScreens_result in Hs. apply GetDesktops_result in Hd.
  pose proof (GetWindows_result _ _ _ _ Hw) as Hwn.
  destruct screens as [screens |]; [| exfalso; apply (proj1 Hs); reflexivity].
  destruct desktops as [desktops |]; [| exfalso; apply (proj1 Hd); reflexivity].
  destruct windows as [windows |]; [| exfalso; apply (proj1 Hwn); reflexivity].
  exists screens, desktops, windows. split; [reflexivity |].
  apply (GetWindows_finished _ _ _ Hw).
Qed.

(** X13. One window whose process cannot be read fails the whole
    query: when the first journal line decodes and [os.ReadFile] of
    the command line of its process returns an error, [GetWindows]
    returns a nil map and that error, whatever the other lines hold. *)
Theorem GetWindows_unreadable_process (w : W) (desktops : option (gmap UUID Desktop))
    (s : string) (rest : list string) (d : Window) (content : string) (e : error) :
  outcome (loadExecuteAndGetOutput GetWindows_script) w = Returned (s :: rest, None) ->
  json_Unmarshal (strip s) zeroWindow = (d, None) ->
  (handle _ (procFile (Window_Pid d))
     (final (loadExecuteAndGetOutput GetWindows_script) w)).1 = (content, Some e) ->
  outcome (GetWindows desktops) w = Returned (None, Some e).
Proof.
  intros Hout Hjson Hread.
  unfold GetWindows. rewrite outcome_bind, Hout.
  cbn [GetWindows_loop]. fold (strip s). rewrite Hjson.
  rewrite outcome_bind. unfold getProcessCmdLine at 1. fold (procFile (Window_Pid d)).
  rewrite outcome_call, Hread. unfold Printf at 1. rewrite outcome_call.
  unfold outcome at 1. cbn [run fst snd].
  unfold Printf. rewrite outcome_call. reflexivity.
Qed.

End Snapshot.

Section Panics.
Context {W : Type} `{World W}.
Context `{UUIDParser} `{TimeFormatter}.
Context `{Unmarshaler Screen} `{Unmarshaler Desktop} `{Unmarshaler Window}.

















End Panics.

Section Mutations.
Context {W : Type} `{World W} `{TimeFormatter}.

Lemma append_assoc (a b c : string) : (a +:+ b) +:+ c = a +:+ (b +:+ c).
Proof.
  induction a as [| x a IH]; [rewrite !append_Empty; reflexivity |].
  rewrite !append_String, IH. reflexivity.
Qed.

Lemma append_Empty_r (a : string) : a +:+ EmptyString = a.
Proof.
  induction a as [| x a IH]; [reflexivity |]. rewrite append_String, IH. reflexivity.
Qed.

Lemma targetDesktopsFrom_join (ds : list Desktop) (i n : Z) (acc : string) :
  n = i + Z.of_nat (length ds) ->
  targetDesktopsFrom i n ds acc = acc +:+ String.concat "," (map quoted ds).
Proof.
  revert i acc. induction ds as [| d ds IH]; intros i acc Hn.
  - cbn. rewrite append_Empty_r. reflexivity.
  - cbn [targetDesktopsFrom]. rewrite IH by (cbn [length] in Hn; lia).
    fold (quoted d). cbn [map]. destruct ds as [| d' ds].
    + cbn [length] in Hn.
      destruct (i <? n - 1) eqn:Hi; [apply Z.ltb_lt in Hi; lia |].
      cbn. rewrite append_Empty_r. reflexivity.
    + cbn [length] in Hn.
      destruct (i <? n - 1) eqn:Hi; [| apply Z.ltb_ge in Hi; lia].
      cbn [map String.concat]. rewrite !append_assoc. reflexivity.
Qed.

(** X15. The scriptlet [MoveWindowToDesktops] runs is its template
    filled with the window id and with the list literal of the desktop
    ids: each id between double quotes, as it is (nothing is escaped),
    with a comma between two ids and none after the last, inside
    square brackets; for no desktop the literal is the empty list.
    The call does what running that scriptlet does and nothing more
    (the journal lines are dropped, not printed), and returns its
    error. *)
Theorem MoveWindowToDesktops_scriptlet (w : W) (win : Window) (ds : list Desktop) :
  let script :=
    fmt.Sprintf MoveWindowToDesktops_script
      [fmt.AString ("[" +:+ String.concat "," (map quoted ds) +:+ "]");
       fmt.AString (Window_Id win)] in
  trace (MoveWindowToDesktops win ds) w = trace (loadExecuteAndGetOutput script) w
  /\ outcome (MoveWindowToDesktops win ds) w
     = match outcome (loadExecuteAndGetOutput script) w with
       | Returned (_, err) => Returned err
       | Panicked msg => Panicked msg
       end.
Proof.
  intros script. unfold MoveWindowToDesktops.
  rewrite targetDesktopsFrom_join by lia. rewrite append_assoc. fold script.
  rewrite trace_bind, outcome_bind.
  destruct (outcome (loadExecuteAndGetOutput script) w) as [[lines err] | msg].
  - split; [apply app_nil_r | reflexivity].
  - split; [apply app_nil_r | reflexivity].
Qed.



Lemma printed_app (a b : list Event) : printed (a ++ b) = printed a ++ printed b.
Proof. apply flat_map_app. Qed.

Lemma run_printOutput (lines : list string) (w : W) :
  outcome (printOutput lines) w = Returned tt
  /\ printed (trace (printOutput lines) w) = map (fun l => l +:+ nl) lines.
Proof.
  revert w. induction lines as [| l lines IH]; intros w; [split; reflexivity |].
  cbn [printOutput map]. rewrite outcome_call, trace_call.
  destruct (IH (handle _ (fmt_Print (l +:+ nl)) w).2) as [Hout Htr].
  split; [exact Hout |]. cbn [printed flat_map app].
  fold (printed (trace (printOutput lines) (handle _ (fmt_Print (l +:+ nl)) w).2)).
  rewrite Htr. reflexivity.
Qed.

Lemma echo (script : string) (w : W) (lines : list string) (err : option error) :
  outcome (loadExecuteAndGetOutput script) w = Returned (lines, err) ->
  outcome ('(output, err) <- loadExecuteAndGetOutput script;
           printOutput output ;; Ret err) w = Returned err
  /\ printed (trace ('(output, err) <- loadExecuteAndGetOutput script;
                     printOutput output ;; Ret err) w)
     = printed (trace (loadExecuteAndGetOutput script) w)
       ++ map (fun l => l +:+ nl) lines.
Proof.
  intros Hout. rewrite outcome_bind, trace_bind, Hout, printed_app.
  rewrite outcome_bind, trace_bind.
  destruct (run_printOutput lines (final (loadExecuteAndGetOutput script) w))
    as [-> Htr].
  split; [reflexivity |]. rewrite printed_app, Htr.
  cbn. rewrite app_nil_r. reflexivity.
Qed.

(** X17. [MoveWindowToScreen], [maximizeWindowHV], [MinimizeWindow]
    and [SetWindowDemandsAttention] echo the scriptlet: when running
    their scriptlet gives the journal lines [lines] and the error
    [err], they write to the standard output what that run wrote,
    then every journal line followed by a newline, in order, and they
    return [err]. *)
Theorem mutations_echo_the_journal (w : W) (win : Window) (s : Screen)
    (horizontally vertically attention : bool) :
  let echoes (op : Go (option error)) (script : string) :=
    forall lines err,
      outcome (loadExecuteAndGetOutput script) w = Returned (lines, err) ->
      outcome op w = Returned err
      /\ printed (trace op w)
         = printed (trace (loadExecuteAndGetOutput script) w)
           ++ map (fun l => l +:+ nl) lines in
  echoes (MoveWindowToScreen win s)
    (fmt.Sprintf MoveWindowToScreen_script
       [fmt.AString (Screen_Name s); fmt.AString (Window_Id win)])
  /\ echoes (maximizeWindowHV win horizontally vertically)
       (fmt.Sprintf maximizeWindowHV_script
          [fmt.AString (Window_Id win); fmt.ABool horizontally;
           fmt.ABool vertically])
  /\ echoes (MinimizeWindow win)
       (fmt.Sprintf MinimizeWindow_script [fmt.AString (Window_Id win)])
  /\ echoes (SetWindowDemandsAttention win attention)
       (fmt.Sprintf SetWindowDemandsAttention_script
          [fmt.AString (Window_Id win); fmt.ABool attention]).
Proof.
  intros echoes. unfold echoes.
  split; [| split; [| split]]; intros lines err Hout; apply (echo _ _ _ _ Hout).
Qed.

End Mutations.

Section Children.
Context {W : Type} `{World W}.

Lemma printed_printLines (lines : list string) (w : W) :
  printed (trace (printLines lines) w) = map (fun l => l +:+ nl) lines.
Proof.
  revert w. induction lines as [| l lines IH]; intros w; [reflexivity |].
  cbn [printLines map]. unfold Printf. rewrite trace_call.
  cbn [printed flat_map app].
  fold (printed (trace (printLines lines)
                   (handle _ (fmt_Print (fmt.Sprintf ("%s" +:+ nl) [fmt.AString l])) w).2)).
  rewrite IH. f_equal.
Qed.

(** X18. [callProgramAndReadOutput] starts one child and nothing
    else.  It writes to the standard output only when the child was
    started and exited abnormally: then the notice with the error of
    [Wait] and every line the child wrote, those of its standard
    output before those of its standard error, each followed by a
    newline; these lines are printed, not returned.  In every other
    case it prints nothing. *)
Theorem callProgramAndReadOutput_prints (w : W) (command : string) (args : list string) :
  let P := (handle _ (exec_Command command args) w).1 in
  List.filter (fun ev => negb (isPrint ev))
    (trace (callProgramAndReadOutput command args) w)
  = [Ev (exec_Command command args) P (clock w)
        (clock (handle _ (exec_Command command args) w).2)]
  /\ printed (trace (callProgramAndReadOutput command args) w)
     = match exitError P with
       | Some e =>
         ("Command finished with error: " +:+ e +:+ nl)
         :: map (fun l => l +:+ nl) (stdout_lines P ++ stderr_lines P)
       | None => []
       end
  /\ (forall e, exitError P = Some e ->
        outcome (callProgramAndReadOutput command args) w = Returned ([], Some e)).
Proof.
  intros P. subst P. unfold callProgramAndReadOutput, exitError.
  rewrite !trace_call, !outcome_call.
  destruct (handle _ (exec_Command command args) w) as [P w1]. cbn [fst snd].
  cbn [List.filter isPrint negb length].
  destruct (cmd_Err P) as [e1 |];
    [split; [reflexivity |]; split; [reflexivity | discriminate] |].
  destruct (StderrPipe_err P) as [e1 |];
    [split; [reflexivity |]; split; [reflexivity | discriminate] |].
  destruct (Start_err P) as [e1 |];
    [split; [reflexivity |]; split; [reflexivity | discriminate] |].
  destruct (StdoutPipe_err P) as [e1 |];
    [split; [reflexivity |]; split; [reflexivity | discriminate] |].
  destruct (Wait_err P) as [e1 |];
    [| split; [reflexivity |]; split; [reflexivity | discriminate]].
  unfold Printf at 1 2 3. rewrite !trace_call, !outcome_call.
  rewrite !trace_bind, !outcome_bind.
  destruct (run_printLines (stdout_lines P ++ stderr_lines P)
              (handle _ (fmt_Print (fmt.Sprintf ("Command finished with error: %v" +:+ nl)
                                      [fmt.AError e1])) w1).2)
    as (tr & w3 & Hrun & Hpr).
  assert (Hout : outcome (printLines (stdout_lines P ++ stderr_lines P))
                   (handle _ (fmt_Print (fmt.Sprintf
                      ("Command finished with error: %v" +:+ nl)
                      [fmt.AError e1])) w1).2 = Returned tt)
    by (unfold outcome; rewrite Hrun; reflexivity).
  assert (Htr : trace (printLines (stdout_lines P ++ stderr_lines P))
                   (handle _ (fmt_Print (fmt.Sprintf
                      ("Command finished with error: %v" +:+ nl)
                      [fmt.AError e1])) w1).2 = tr)
    by (unfold trace; rewrite Hrun; reflexivity).
  rewrite Hout.
  change (trace (Ret ([], Some e1)) _) with (@nil Event). rewrite app_nil_r.
  split; [| split].
  - cbn [List.filter isPrint negb]. rewrite Htr.
    assert (Hnone : List.filter (fun ev => negb (isPrint ev)) tr = []).
    { clear -Hpr. induction tr as [| ev tr IH]; [reflexivity |].
      cbn [forallb] in Hpr. apply andb_prop in Hpr as [Hev Hpr].
      cbn [List.filter]. rewrite Hev. cbn [negb]. apply IH, Hpr. }
    rewrite Hnone. reflexivity.
  - cbn [printed flat_map app].
    match goal with
    | |- context [flat_map ?f ?l] => change (flat_map f l) with (printed l)
    end.
    rewrite printed_printLines. reflexivity.
  - intros e [= <-]. reflexivity.
Qed.

End Children.

Section BadLines.
Context {W : Type} `{World W}.
Context `{UUIDParser} `{TimeFormatter}.
Context `{Unmarshaler Screen} `{Unmarshaler Desktop} `{Unmarshaler Window}.

Lemma GetScreens_loop_bad (pre post : list string) (bad : string) (d : Screen)
    (e : error) (m0 : gmap string Screen) (w : W) :
  Forall (fun line => (json_Unmarshal (strip line) zeroScreen).2 = None) pre ->
  json_Unmarshal (strip bad) zeroScreen = (d, Some e) ->
  run (GetScreens_loop (pre ++ bad :: post) m0) w = ([], w, Returned (None, Some e)).
Proof.
  intros Hpre Hbad. revert m0.
  induction Hpre as [| line pre Hline Hpre IH]; intros m0; cbn [app GetScreens_loop].
  - fold (strip bad). rewrite Hbad. reflexivity.
  - fold (strip line). destruct (json_Unmarshal (strip line) zeroScreen) as [s [err |]];
      [discriminate Hline | apply IH].
Qed.

Lemma GetDesktops_loop_bad (pre post : list string) (bad : string) (d : Desktop)
    (e : error) (m0 : gmap UUID Desktop) (w : W) :
  Forall (fun line =>
            (json_Unmarshal (strip line) zeroDesktop).2 = None
            /\ (uuid_Parse (Desktop_Id (decoded zeroDesktop line))).2 = None) pre ->
  json_Unmarshal (strip bad) zeroDesktop = (d, Some e) ->
  run (GetDesktops_loop (pre ++ bad :: post) m0) w = ([], w, Returned (None, Some e)).
Proof.
  intros Hpre Hbad. revert m0.
  induction Hpre as [| line pre [Hline Hid] Hpre IH]; intros m0;
    cbn [app GetDesktops_loop].
  - fold (strip bad). rewrite Hbad. reflexivity.
  - fold (strip line). unfold decoded in Hid.
    destruct (json_Unmarshal (strip line) zeroDesktop) as [s [err |]];
      [discriminate Hline |].
    cbn [fst] in Hid. unfold uuid_MustParse.
    destruct (uuid_Parse (Desktop_Id s)) as [u [err |]]; [discriminate Hid |].
    cbn [bind]. apply IH.
Qed.

(** X19. The first journal line that does not decode fails the
    query: when the lines before it decode (and, for desktops, carry
    ids that parse), [GetScreens] and [GetDesktops] return a nil map
    and the error of [json.Unmarshal] for that line, whatever follows
    it; the entries read so far are dropped, and nothing is printed
    about it: the call does nothing beyond running its scriptlet. *)
Theorem first_bad_line_fails_the_query (w : W) (pre post : list string)
    (bad : string) (e : error) :
  (forall d,
     outcome (loadExecuteAndGetOutput GetScreens_script) w
     = Returned (pre ++ bad :: post, None) ->
     Forall (fun line => (json_Unmarshal (strip line) zeroScreen).2 = None) pre ->
     json_Unmarshal (strip bad) zeroScreen = (d, Some e) ->
     outcome GetScreens w = Returned (None, Some e)
     /\ trace GetScreens w = trace (loadExecuteAndGetOutput GetScreens_script) w)
  /\ (forall d,
        outcome (loadExecuteAndGetOutput GetDesktops_script) w
        = Returned (pre ++ bad :: post, None) ->
        Forall (fun line =>
                  (json_Unmarshal (strip line) zeroDesktop).2 = None
                  /\ (uuid_Parse (Desktop_Id (decoded zeroDesktop line))).2 = None)
               pre ->
        json_Unmarshal (strip bad) zeroDesktop = (d, Some e) ->
        outcome GetDesktops w = Returned (None, Some e)
        /\ trace GetDesktops w = trace (loadExecuteAndGetOutput GetDesktops_script) w).
Proof.
  split.
  - intros d Hlines Hpre Hbad. unfold GetScreens.
    rewrite outcome_bind, trace_bind, Hlines.
    unfold outcome, trace. rewrite (GetScreens_loop_bad _ _ _ _ _ _ _ Hpre Hbad).
    cbn [fst snd]. rewrite app_nil_r. split; reflexivity.
  - intros d Hlines Hpre Hbad. unfold GetDesktops.
    rewrite outcome_bind, trace_bind, Hlines.
    unfold outcome, trace. rewrite (GetDesktops_loop_bad _ _ _ _ _ _ _ Hpre Hbad).
    cbn [fst snd]. rewrite app_nil_r. split; reflexivity.
Qed.

End BadLines.

Section Prefix.
Context {W : Type} `{World W}.
Context `{UUIDParser} `{TimeFormatter}.
Context `{Unmarshaler Screen} `{Unmarshaler Desktop} `{Unmarshaler Window}.

(** A later line with another identifier leaves an entry as it is. *)
Lemma GetWindows_loop_keep (desktops : option (gmap UUID Desktop))
    (post : list string) (m wins : gmap UUID Window) (w : W) (u : UUID) :
  outcome (GetWindows_loop desktops post m) w = Returned (Some wins, None) ->
  (forall l, l ∈ post -> (uuid_Parse (Window_Id (decoded zeroWindow l))).1 <> u) ->
  wins !! u = m !! u.
Proof.
  revert m w. induction post as [| l post IH]; intros m w.
  - unfold outcome. cbn. intros [= <-] _. reflexivity.
  - intros Hloop Hpost.
    destruct (GetWindows_loop_step _ _ _ _ _ _ Hloop)
      as (d & key & d' & content & fields & Hd & _ & _ & [Hkey _] & _ & Hrest).
    rewrite (IH _ _ Hrest) by (intros l' Hl'; apply Hpost; right; exact Hl').
    apply lookup_insert_ne.
    specialize (Hpost l ltac:(left)). unfold decoded in Hpost.
    rewrite Hd in Hpost. cbn [fst] in Hpost. rewrite Hkey in Hpost. exact Hpost.
Qed.

Lemma GetWindows_loop_last (desktops : option (gmap UUID Desktop))
    (pre post : list string) (line : string) (m wins : gmap UUID Window) (w : W) :
  outcome (GetWindows_loop desktops (pre ++ line :: post) m) w
  = Returned (Some wins, None) ->
  exists d u,
    json_Unmarshal (strip line) zeroWindow = (d, None)
    /\ uuid_Parse (Window_Id d) = (u, None)
    /\ ((forall l, l ∈ post ->
           (uuid_Parse (Window_Id (decoded zeroWindow l))).1 <> u) ->
        exists win, wins !! u = Some win /\ finished desktops d u win).
Proof.
  revert m w. induction pre as [| l pre IH]; intros m w; cbn [app]; intros Hloop;
    destruct (GetWindows_loop_step _ _ _ _ _ _ Hloop)
      as (d & key & d' & content & fields & Hd & _ & _ & Hfin & _ & Hrest).
  - exists d, key. split; [exact Hd |]. split; [apply Hfin |].
    intros Hpost. exists d'. split; [| exact Hfin].
    rewrite (GetWindows_loop_keep _ _ _ _ _ _ Hrest Hpost).
    apply lookup_insert_eq.
  - apply (IH _ _ Hrest).
Qed.

(** C9. The prefix removal of [GetScreens], [GetDesktops] and
    [GetWindows] deletes [js: ] wherever it occurs in a line, not only
    at its head, and leaves a line without it as it is.  What is
    decoded is the stripped text of the line: when a query returns a
    map, every journal line, with the prefix at its head, in its
    payload or nowhere, was given to [json.Unmarshal] stripped and
    decoded without error, and the record decoded from the stripped
    text is the entry of the map under its key (unless a later line
    has the same key); when the stripped text of the first line does
    not decode, the query returns the error of [json.Unmarshal].  The
    loops see a line only through its stripped text. *)
Theorem prefix_removal_is_global (w : W) :
  (forall a b : string, strip (a +:+ "js: " +:+ b) = strip a +:+ strip b)
  /\ (forall s : string, occursIn "js: " s = false -> strip s = s)
  /\ (forall pre line post m,
        outcome (loadExecuteAndGetOutput GetScreens_script) w
        = Returned (pre ++ line :: post, None) ->
        outcome GetScreens w = Returned (Some m, None) ->
        exists d,
          json_Unmarshal (strip line) zeroScreen = (d, None)
          /\ ((forall l, l ∈ post ->
                 Screen_Name (decoded zeroScreen l) <> Screen_Name d) ->
              m !! Screen_Name d = Some d))
  /\ (forall pre line post m,
        outcome (loadExecuteAndGetOutput GetDesktops_script) w
        = Returned (pre ++ line :: post, None) ->
        outcome GetDesktops w = Returned (Some m, None) ->
        exists d u,
          json_Unmarshal (strip line) zeroDesktop = (d, None)
          /\ uuid_Parse (Desktop_Id d) = (u, None)
          /\ ((forall l, l ∈ post ->
                 (uuid_Parse (Desktop_Id (decoded zeroDesktop l))).1 <> u) ->
              m !! u = Some d))
  /\ (forall desktops pre line post wins,
        outcome (loadExecuteAndGetOutput GetWindows_script) w
        = Returned (pre ++ line :: post, None) ->
        outcome (GetWindows desktops) w = Returned (Some wins, None) ->
        exists d u,
          json_Unmarshal (strip line) zeroWindow = (d, None)
          /\ uuid_Parse (Window_Id d) = (u, None)
          /\ ((forall l, l ∈ post ->
                 (uuid_Parse (Window_Id (decoded zeroWindow l))).1 <> u) ->
              exists win,
                wins !! u = Some win
                /\ win = set_Desktops
                           (set_AppName (set_CmdLine d (Window_CmdLine win))
                              (appNameOf (Window_CmdLine win)))
                           (match desktops with
                            | Some ds => map (resolve ds) (Window_DesktopIds d)
                            | None => Window_Desktops d
                            end)))
  /\ (forall line rest d e,
        outcome (loadExecuteAndGetOutput GetScreens_script) w
        = Returned (line :: rest, None) ->
        json_Unmarshal (strip line) zeroScreen = (d, Some e) ->
        outcome GetScreens w = Returned (None, Some e))
  /\ (forall line rest d e,
        outcome (loadExecuteAndGetOutput GetDesktops_script) w
        = Returned (line :: rest, None) ->
        json_Unmarshal (strip line) zeroDesktop = (d, Some e) ->
        outcome GetDesktops w = Returned (None, Some e))
  /\ (forall desktops line rest d e,
        outcome (loadExecuteAndGetOutput GetWindows_script) w
        = Returned (line :: rest, None) ->
        json_Unmarshal (strip line) zeroWindow = (d, Some e) ->
        outcome (GetWindows desktops) w = Returned (None, Some e))
  /\ (forall lines lines' : list string,
        map strip lines = map strip lines' ->
        (forall m, GetScreens_loop lines m = GetScreens_loop lines' m)
        /\ (forall m, GetDesktops_loop lines m = GetDesktops_loop lines' m)
        /\ (forall desktops m (w' : W),
              run (GetWindows_loop desktops lines m) w'
              = run (GetWindows_loop desktops lines' m) w')).
Proof.
  split; [intros a b; apply replaceFrom_js_app; lia |].
  split; [intros s; apply replaceFrom_absent |].
  split; [| split; [| split; [| split; [| split; [| split]]]]].
  - intros pre line post m Hlines. unfold GetScreens.
    rewrite outcome_bind, Hlines. intros Hloop.
    apply GetScreens_loop_fold in Hloop as [Hall ->].
    rewrite Forall_forall in Hall.
    exists (decoded zeroScreen line).
    split; [apply Hall, elem_of_app; right; left |].
    intros Hpost.
    apply (foldl_insert_last (fun line => Screen_Name (decoded zeroScreen line))
             (decoded zeroScreen)), Hpost.
  - intros pre line post m Hlines. unfold GetDesktops.
    rewrite outcome_bind, Hlines. intros Hloop.
    apply GetDesktops_loop_fold in Hloop as [Hall ->].
    rewrite Forall_forall in Hall.
    destruct (Hall line ltac:(apply elem_of_app; right; left)) as [Hd Hok].
    exists (decoded zeroDesktop line),
      (uuid_Parse (Desktop_Id (decoded zeroDesktop line))).1.
    split; [exact Hd |]. split.
    + destruct (uuid_Parse _) as [u e]. cbn [fst snd] in *. congruence.
    + intros Hpost.
      apply (foldl_insert_last
               (fun line => (uuid_Parse (Desktop_Id (decoded zeroDesktop line))).1)
               (decoded zeroDesktop)), Hpost.
  - intros desktops pre line post wins Hlines. unfold GetWindows.
    rewrite outcome_bind, Hlines. intros Hloop.
    destruct (GetWindows_loop_last _ _ _ _ _ _ _ Hloop) as (d & u & Hd & Hu & Hlast).
    exists d, u. split; [exact Hd |]. split; [exact Hu |].
    intros Hpost. destruct (Hlast Hpost) as (win & Hwin & _ & Heq & _).
    exists win. split; [exact Hwin | exact Heq].
  - intros line rest d e Hlines Hbad. unfold GetScreens.
    rewrite outcome_bind, Hlines. cbn [GetScreens_loop]. fold (strip line).
    rewrite Hbad. reflexivity.
  - intros line rest d e Hlines Hbad. unfold GetDesktops.
    rewrite outcome_bind, Hlines. cbn [GetDesktops_loop]. fold (strip line).
    rewrite Hbad. reflexivity.
  - intros desktops line rest d e Hlines Hbad. unfold GetWindows.
    rewrite outcome_bind, Hlines. cbn [GetWindows_loop]. fold (strip line).
    rewrite Hbad. reflexivity.
  - apply loops_see_stripped_text.
Qed.

End Prefix.

(** C9 at the session [prefixes]: the prefix is removed at the head of
    a line; a screen name that holds [js: ] loses it; and a line without
    the prefix is decoded as it is. *)
Lemma prefix_removal_is_global_witness :
  strip (q "js: {'name': 'DP-1'}") = q "{'name': 'DP-1'}"
  /\ outcome GetScreens prefixes
     = Returned (Some {[ "DP-1" := screenNamed "DP-1";
                         "HDMI-1" := screenNamed "HDMI-1" ]}, None)
  /\ json_Unmarshal (strip prefixedNameLine) zeroScreen = (screenNamed "DP-1", None)
  /\ json_Unmarshal barePrefixLine zeroScreen = (screenNamed "HDMI-1", None).
Proof.
  destruct (prefix_removal_is_global prefixes)
    as (Hany & Habsent & Hscreens & _).
  assert (Hlines : outcome (loadExecuteAndGetOutput GetScreens_script) prefixes
                   = Returned ([] ++ prefixedNameLine :: [barePrefixLine], None))
    by (vm_compute; reflexivity).
  assert (Hlines' : outcome (loadExecuteAndGetOutput GetScreens_script) prefixes
                    = Returned ([prefixedNameLine] ++ barePrefixLine :: [], None))
    by (vm_compute; reflexivity).
  assert (Hout : outcome GetScreens prefixes
                 = Returned (Some {[ "DP-1" := screenNamed "DP-1";
                                     "HDMI-1" := screenNamed "HDMI-1" ]}, None))
    by (vm_compute; reflexivity).
  split.
  { change (q "js: {'name': 'DP-1'}")
      with (EmptyString +:+ "js: " +:+ q "{'name': 'DP-1'}").
    rewrite Hany. rewrite (Habsent (q "{'name': 'DP-1'}")) by reflexivity.
    reflexivity. }
  split; [exact Hout |]. split.
  - destruct (Hscreens _ _ _ _ Hlines Hout) as (d & Hd & _).
    assert (Hdv : d = screenNamed "DP-1").
    { pose proof Hd as Hc. vm_compute in Hc. injection Hc as <-.
      vm_compute. reflexivity. }
    rewrite <- Hdv. exact Hd.
  - destruct (Hscreens _ _ _ _ Hlines' Hout) as (d & Hd & _).
    assert (Hdv : d = screenNamed "HDMI-1").
    { pose proof Hd as Hc. vm_compute in Hc. injection Hc as <-.
      vm_compute. reflexivity. }
    rewrite <- (Habsent barePrefixLine) at 1 by reflexivity.
    rewrite <- Hdv. exact Hd.
Defined.

(** ** The further properties at explicit sessions *)

(** X1 at the session [noisy]. *)
Lemma loadScript_counts_stderr_witness :
  outcome (loadScript "/tmp/kwin_script_1.js") noisy
  = Returned (-1, Some (fmt.Sprintf "script load failed: %s"
                          [fmt.AStrings (loadReply "7"
                             ++ ["Failed to open connection to session bus"])])).
Proof.
  refine (loadScript_counts_stderr noisy "/tmp/kwin_script_1.js" _ _
            ["Failed to open connection to session bus"] _ _ _ _);
    [reflexivity | reflexivity | reflexivity | discriminate].
Defined.

(** X2 at the session [echoed]. *)
Lemma successful_round_trip_witness :
  outcome (loadExecuteAndGetOutput MinimizeWindow_script) echoed
  = Returned (["js: moved"], None)
  /\ exists dir f scriptNo Pload Prun Pstop PJ start end_ t w',
       trace (loadExecuteAndGetOutput MinimizeWindow_script) echoed
       = roundTrip MinimizeWindow_script dir f scriptNo Pload Prun Pstop PJ start end_ t
         ++ trace (closeAndRemove f) w'
       /\ failed Pload = false
       /\ spec_registrationNumber (stdout_lines Pload ++ stderr_lines Pload)
          = Some scriptNo
       /\ failed Prun = false /\ failed Pstop = false /\ gave PJ ["js: moved"].
Proof.
  assert (Hout : outcome (loadExecuteAndGetOutput MinimizeWindow_script) echoed
                 = Returned (["js: moved"], None)) by (vm_compute; reflexivity).
  split; [exact Hout |].
  exact (successful_round_trip echoed MinimizeWindow_script ["js: moved"] Hout).
Defined.

(** X3 at the session [runFails]. *)
Lemma bridge_error_has_no_lines_witness :
  exists lines,
    outcome (loadExecuteAndGetOutput GetScreens_script) runFails
    = Returned (lines, Some "exit status 1")
    /\ lines = [].
Proof.
  assert (Hout : outcome (loadExecuteAndGetOutput GetScreens_script) runFails
                 = Returned ([], Some "exit status 1")) by (vm_compute; reflexivity).
  exists []. split; [exact Hout |].
  exact (bridge_error_has_no_lines runFails GetScreens_script [] "exit status 1" Hout).
Defined.

(** X5 at the session [quiet]. *)
Lemma scriptlet_is_written_verbatim_witness :
  existsb (writes GetScreens_script)
    (trace (loadExecuteAndGetOutput GetScreens_script) quiet) = true
  /\ GetScreens_script = GetScreens_script.
Proof.
  assert (Hw : existsb (writes GetScreens_script)
                 (trace (loadExecuteAndGetOutput GetScreens_script) quiet) = true)
    by (vm_compute; reflexivity).
  split; [exact Hw |].
  exact (scriptlet_is_written_verbatim quiet GetScreens_script GetScreens_script Hw).
Defined.

(** X6 at the session [quiet]. *)
Lemma stop_follows_registration_and_run_witness :
  existsb isStop (trace (loadExecuteAndGetOutput GetScreens_script) quiet) = true
  /\ exists scriptNo,
       lifecycle (trace (loadExecuteAndGetOutput GetScreens_script) quiet) scriptNo.
Proof.
  assert (Hs : existsb isStop
                 (trace (loadExecuteAndGetOutput GetScreens_script) quiet) = true)
    by (vm_compute; reflexivity).
  split; [exact Hs |].
  exact (stop_follows_registration_and_run quiet GetScreens_script Hs).
Defined.

(** X8 at the session [rescanned]: of the two records of DP-1 the map
    holds the second. *)
Lemma GetScreens_entries_witness :
  outcome GetScreens rescanned = Returned (Some {[ "DP-1" := dp1 ]}, None)
  /\ ({[ "DP-1" := dp1 ]} : gmap string Screen)
       !! Screen_Name (decoded zeroScreen screenLine)
     = Some (decoded zeroScreen screenLine).
Proof.
  assert (Hlines : outcome (loadExecuteAndGetOutput GetScreens_script) rescanned
                   = Returned ([staleScreenLine; screenLine], None))
    by (vm_compute; reflexivity).
  assert (Hout : outcome GetScreens rescanned = Returned (Some {[ "DP-1" := dp1 ]}, None))
    by (vm_compute; reflexivity).
  split; [exact Hout |].
  refine (proj2 (proj2 (GetScreens_entries rescanned _ _ Hlines Hout))
            [staleScreenLine] screenLine [] eq_refl _).
  intros l Hl. inversion Hl.
Defined.

(** X9 at the session [oneDesktop]. *)
Lemma GetDesktops_entries_witness :
  outcome GetDesktops oneDesktop = Returned (Some onlyA, None)
  /\ uuid_Parse (Desktop_Id desktopA) = (idA, None)
  /\ exists line, line ∈ [desktopALine] /\ decoded zeroDesktop line = desktopA.
Proof.
  assert (Hlines : outcome (loadExecuteAndGetOutput GetDesktops_script) oneDesktop
                   = Returned ([desktopALine], None))
    by (vm_compute; reflexivity).
  assert (Hout : outcome GetDesktops oneDesktop = Returned (Some onlyA, None))
    by (vm_compute; reflexivity).
  split; [exact Hout |].
  refine (proj1 (proj2 (GetDesktops_entries oneDesktop _ _ Hlines Hout))
            idA desktopA _).
  reflexivity.
Defined.

(** X10 at the session [twoDesktops]. *)
Lemma GetWindows_entries_witness :
  outcome (GetWindows (Some onlyA)) twoDesktops
  = Returned (Some {[ idC := konsole ]}, None)
  /\ (exists content fields t t',
        Ev (procFile 4242) (content, None) t t'
          ∈ trace (GetWindows (Some onlyA)) twoDesktops
        /\ strings.Fields (strings.TrimSpace (strings.ReplaceAll content nul space))
           = "/usr/bin/konsole" :: fields)
  /\ Window_CmdLine konsole <> EmptyString
  /\ hasByte "/" (Window_AppName konsole) = false.
Proof.
  assert (Hlines : outcome (loadExecuteAndGetOutput GetWindows_script) twoDesktops
                   = Returned ([twoDesktopsLine], None))
    by (vm_compute; reflexivity).
  assert (Hout : outcome (GetWindows (Some onlyA)) twoDesktops
                 = Returned (Some {[ idC := konsole ]}, None))
    by (vm_compute; reflexivity).
  split; [exact Hout |].
  destruct (GetWindows_entries twoDesktops (Some onlyA) _ _ Hlines Hout idC konsole
              eq_refl) as (line & Hin & _ & _ & Hread & Hne & _ & _ & Hslash).
  apply list_elem_of_singleton in Hin. subst line.
  split; [exact Hread |]. split; [exact Hne | exact Hslash].
Defined.

(** X11 at the session [desktopsFail]: the screens are read, the
    desktops are not. *)
Lemma queries_return_map_or_error_witness :
  outcome GetScreens desktopsFail = Returned (Some {[ "DP-1" := dp1 ]}, None)
  /\ outcome GetDesktops (final GetScreens desktopsFail)
     = Returned (None, Some "exit status 1")
  /\ ((None : option (gmap UUID Desktop)) = None
      <-> Some "exit status 1" <> (None : option error)).
Proof.
  assert (Hd : outcome GetDesktops (final GetScreens desktopsFail)
               = Returned (None, Some "exit status 1"))
    by (vm_compute; reflexivity).
  split; [vm_compute; reflexivity |]. split; [exact Hd |].
  exact (proj1 (proj2 (queries_return_map_or_error
                         (final GetScreens desktopsFail) None)) _ _ Hd).
Defined.

(** X12 at the session [workstation]. *)
Lemma GetEnvironment_all_or_nothing_witness :
  outcome GetEnvironment workstation
  = Returned ({| Screens := Some {[ "DP-1" := dp1 ]}; Desktops := Some onlyA;
                 Windows := Some {[ idC := konsole ]} |}, None)
  /\ exists screens desktops windows,
       {| Screens := Some {[ "DP-1" := dp1 ]}; Desktops := Some onlyA;
          Windows := Some {[ idC := konsole ]} |}
       = {| Screens := Some screens; Desktops := Some desktops;
            Windows := Some windows |}
       /\ forall u win, windows !! u = Some win ->
            Window_Desktops win = map (resolve desktops) (Window_DesktopIds win).
Proof.
  assert (Hout : outcome GetEnvironment workstation
                 = Returned ({| Screens := Some {[ "DP-1" := dp1 ]};
                                Desktops := Some onlyA;
                                Windows := Some {[ idC := konsole ]} |}, None))
    by (vm_compute; reflexivity).
  split; [exact Hout |].
  exact (GetEnvironment_all_or_nothing workstation _ None Hout).
Defined.

(** X13 at the session [vanished]. *)
Lemma GetWindows_unreadable_process_witness :
  outcome (GetWindows (Some onlyA)) vanished
  = Returned (None, Some "open /proc/4242/cmdline: no such file or directory").
Proof.
  refine (GetWindows_unreadable_process vanished (Some onlyA) twoDesktopsLine []
            (decoded zeroWindow twoDesktopsLine) EmptyString
            "open /proc/4242/cmdline: no such file or directory" _ _ _);
    vm_compute; reflexivity.
Defined.



(** X17 at the session [echoed]. *)
Lemma mutations_echo_the_journal_witness :
  outcome (MinimizeWindow konsole) echoed = Returned None
  /\ printed (trace (MinimizeWindow konsole) echoed)
     = printed (trace (loadExecuteAndGetOutput
                         (fmt.Sprintf MinimizeWindow_script
                            [fmt.AString (Window_Id konsole)])) echoed)
       ++ ["js: moved" +:+ nl].
Proof.
  refine (proj1 (proj2 (proj2 (mutations_echo_the_journal echoed konsole dp1
                                 true true true)))
            ["js: moved"] None _).
  vm_compute; reflexivity.
Defined.

(** X19 at the session [cutShort]. *)
Lemma first_bad_line_fails_the_query_witness :
  outcome GetScreens cutShort = Returned (None, Some "json: syntax error")
  /\ trace GetScreens cutShort
     = trace (loadExecuteAndGetOutput GetScreens_script) cutShort.
Proof.
  refine (proj1 (first_bad_line_fails_the_query cutShort [screenLine] [] cutLine
                   "json: syntax error") zeroScreen _ _ _).
  - vm_compute; reflexivity.
  - constructor; [vm_compute; reflexivity | constructor].
  - vm_compute; reflexivity.
Defined.
